(** * jira_to_pubsub: change detection and event classification

    A shallow embedding of [jira_to_pubsub.py], the bridge that polls Jira
    and pushes ticket updates to PyPubSub, together with the properties of
    its incremental change detection.

    Conventions of the embedding:
    - points in time ([datetime] objects, and the float epoch seconds that
      [.timestamp()] and [time.time()] return) are integers counting
      microseconds since the Unix epoch; [datetime] has exactly this
      resolution and the conversion to float is strictly monotone on it for
      every date the bridge can meet, so [<=], [==] and [max] are preserved;
    - decoded JSON is the inductive type [json]; a Python [dict] is an
      association list in insertion order, read by its first binding;
    - an exception is the [Raise] branch of the [result] monad; it is never
      caught inside the core, so the state at the raise is not observable;
    - the in-place rewrite of a sub-record ([entry["author"] = ...]) is
      modelled by returning the rewritten record and writing it back into
      the enclosing snapshot. *)

From stdpp Require Import base option list strings gmap.
From Stdlib Require Import ZArith Ascii Lia.

Local Open Scope string_scope.
Local Open Scope list_scope.
Local Open Scope Z_scope.

(** ** Values *)

#[warnings="-register-all"]
Inductive json : Type :=
| JNull
| JBool (b : bool)
| JNum (n : Z)
| JStr (s : string)
| JArr (l : list json)
| JObj (d : list (string * json)).

Abbreviation dict := (list (string * json)).

Inductive exn : Type :=
| KeyError
| ValueError
| TypeError
| AttributeError.

Inductive result (A : Type) : Type :=
| Ok (a : A)
| Raise (e : exn).
Arguments Ok {A} a.
Arguments Raise {A} e.

#[global] Instance result_ret : MRet result := fun _ a => Ok a.
#[global] Instance result_bind : MBind result := fun _ _ f m =>
  match m with
  | Ok a => f a
  | Raise e => Raise e
  end.

Definition is_ok {A} (r : result A) : bool :=
  match r with Ok _ => true | Raise _ => false end.

(** ** Dictionaries *)

Fixpoint dict_get (k : string) (d : dict) : option json :=
  match d with
  | [] => None
  | (k', v) :: d' => if String.eqb k' k then Some v else dict_get k d'
  end.

Definition dict_has (k : string) (d : dict) : bool :=
  match dict_get k d with Some _ => true | None => false end.

(** [d[k] = v]: overwrite the binding in place, or append a new one. *)
Fixpoint dict_set (k : string) (v : json) (d : dict) : dict :=
  match d with
  | [] => [(k, v)]
  | (k', v') :: d' =>
      if String.eqb k' k then (k', v) :: d' else (k', v') :: dict_set k v d'
  end.

(** Apply [f] to the value bound to [k], when there is one. *)
Fixpoint dict_alter (k : string) (f : json -> json) (d : dict) : dict :=
  match d with
  | [] => []
  | (k', v) :: d' =>
      if String.eqb k' k then (k', f v) :: d' else (k', v) :: dict_alter k f d'
  end.

(** ** The Python operations the bridge applies to decoded JSON *)

(** [v[k]] with a string subscript. *)
Definition py_getitem (v : json) (k : string) : result json :=
  match v with
  | JObj d => match dict_get k d with Some x => Ok x | None => Raise KeyError end
  | _ => Raise TypeError
  end.

(** [v.get(k, dflt)]. *)
Definition py_get (v : json) (k : string) (dflt : json) : result json :=
  match v with
  | JObj d => Ok (default dflt (dict_get k d))
  | _ => Raise AttributeError
  end.

Fixpoint str_contains (needle hay : string) : bool :=
  String.prefix needle hay ||
  match hay with
  | EmptyString => false
  | String _ hay' => str_contains needle hay'
  end.

Definition is_str (k : string) (v : json) : bool :=
  match v with JStr s => String.eqb s k | _ => false end.

(** [k in v]. *)
Definition py_contains (k : string) (v : json) : result bool :=
  match v with
  | JObj d => Ok (dict_has k d)
  | JArr l => Ok (existsb (is_str k) l)
  | JStr s => Ok (str_contains k s)
  | _ => Raise TypeError
  end.

Fixpoint chars (s : string) : list json :=
  match s with
  | EmptyString => []
  | String c s' => JStr (String c EmptyString) :: chars s'
  end.

(** [for x in v]: the elements visited. *)
Definition py_iter (v : json) : result (list json) :=
  match v with
  | JArr l => Ok l
  | JObj d => Ok (map (fun kv => JStr (fst kv)) d)
  | JStr s => Ok (chars s)
  | _ => Raise TypeError
  end.

(** Truth value of [v] ([if v], [not v]). *)
Definition py_truthy (v : json) : bool :=
  match v with
  | JNull => false
  | JBool b => b
  | JNum n => negb (n =? 0)
  | JStr s => negb (String.eqb s EmptyString)
  | JArr l => match l with [] => false | _ => true end
  | JObj d => match d with [] => false | _ => true end
  end.

(** [s.split("-", 1)[0]]. *)
Fixpoint before_dash (s : string) : string :=
  match s with
  | EmptyString => EmptyString
  | String c s' => if Ascii.eqb c "-"%char then EmptyString else String c (before_dash s')
  end.

Definition py_split_first (v : json) : result string :=
  match v with
  | JStr s => Ok (before_dash s)
  | _ => Raise AttributeError
  end.

(** Key of a [dict] slot: strings, [None] and integers are hashable
    ([True] and [False] share the slots of 1 and 0), lists and dicts are
    not. *)
Definition hkey : Type := string + option Z.

Definition py_hash (v : json) : result hkey :=
  match v with
  | JStr s => Ok (inl s)
  | JNull => Ok (inr None)
  | JBool b => Ok (inr (Some (if b then 1 else 0)))
  | JNum n => Ok (inr (Some n))
  | _ => Raise TypeError
  end.

(** [max(l)]. *)
Definition py_max (l : list Z) : result Z :=
  match l with
  | [] => Raise ValueError
  | x :: l' => Ok (foldl Z.max x l')
  end.

(** ** Library functions outside the repository

    The bridge calls three functions whose text is not part of it; the
    embedding is parametric in them. *)
Class Builtins := {
  (** [datetime.strptime(t, "%Y-%m-%dT%H:%M:%S.%f%z")] as microseconds since
      the epoch; [None] when it raises [ValueError]. *)
  strptime : string -> option Z;
  (** The text an f-string substitutes for a value that is not a string. *)
  py_repr : json -> string;
  (** [str.format] of a template on the fields of an event. *)
  str_format : string -> dict -> result string
}.

(** ** Configuration and tickets *)

Record Config := {
  jira_url : string;
  jira_user : string;
  jira_pass : string;
  jira_base : string;
  pubsub_url : string;
  debug : bool;
  poll_interval : Z
}.

(** The attributes of a [JiraTicket] object. [events] and [json_data] are
    the two that change after [__init__]. *)
Record JiraTicket := {
  key : json;
  link : string;
  summary : json;
  created : Z;
  last_update : Z;
  events : list dict;
  json_data : json;
  config : Config
}.

Definition set_events (t : JiraTicket) (evs : list dict) : JiraTicket :=
  {| key := key t; link := link t; summary := summary t; created := created t;
     last_update := last_update t; events := evs; json_data := json_data t;
     config := config t |}.

Definition set_json_data (t : JiraTicket) (js : json) : JiraTicket :=
  {| key := key t; link := link t; summary := summary t; created := created t;
     last_update := last_update t; events := events t; json_data := js;
     config := config t |}.

(** [self.events.append(ev)] *)
Definition append_event (t : JiraTicket) (ev : dict) : JiraTicket :=
  set_events t (events t ++ [ev]).

(** Writing a rewritten member back into its parent object: a no-op when the
    member is absent (the code then worked on a fresh default value). *)
Definition upd_member (k : string) (f : json -> json) (v : json) : json :=
  match v with
  | JObj d => JObj (dict_alter k f d)
  | _ => v
  end.

(** The members of a list after a loop that may have rewritten them. Only a
    JSON array holds records that can be rewritten. *)
Definition store_elements (l' : list json) (v : json) : json :=
  match v with
  | JArr _ => JArr l'
  | _ => v
  end.

(** Lines 79-80 of [make_event_dict]: an entry without an author takes its
    creator, when it has one, as author. *)
Definition fill_author (d : dict) : dict :=
  match dict_get "author" d, dict_get "creator" d with
  | None, Some cr => dict_set "author" cr d
  | _, _ => d
  end.

(** The number stored under [k] in an event. *)
Definition ev_num (k : string) (ev : dict) : result Z :=
  match dict_get k ev with
  | Some (JNum n) => Ok n
  | Some _ => Raise TypeError
  | None => Raise KeyError
  end.

Section Bridge.
Context `{B : Builtins}.

(** [LAUNCH_TIME = time.time()], read once when the module is loaded. *)
Variable LAUNCH_TIME : Z.

(** Substitution of a value in an f-string. *)
Definition fstr (v : json) : string :=
  match v with
  | JStr s => s
  | _ => py_repr v
  end.

Definition jira_to_datetime (t : json) : result Z :=
  match t with
  | JStr s => match strptime s with Some d => Ok d | None => Raise ValueError end
  | _ => Raise TypeError
  end.

(** [UPDATES.get(k, LAUNCH_TIME)] *)
Definition watermark (UPDATES : gmap hkey Z) (k : hkey) : Z :=
  default LAUNCH_TIME (UPDATES !! k).

(** [JiraTicket.__init__] *)
Definition JiraTicket_init (cfg : Config) (UPDATES : gmap hkey Z) (js : json)
  : result JiraTicket :=
  k ← py_getitem js "key";
  let lnk := jira_base cfg +:+ fstr k in
  fields ← py_getitem js "fields";
  summ ← py_get fields "summary" (JStr "(No summary available)");
  fields ← py_getitem js "fields";
  c ← py_getitem fields "created";
  cr ← jira_to_datetime c;
  hk ← py_hash k;
  Ok {| key := k; link := lnk; summary := summ; created := cr;
        last_update := watermark UPDATES hk; events := [];
        json_data := js; config := cfg |}.

(** [JiraTicket.make_event_dict]: the event, or [None], and the entry as
    the call leaves it. *)
Definition make_event_dict (t : JiraTicket) (entry : json)
  : result (option dict * json) :=
  has ← py_contains "created" entry;
  if negb has then Ok (None, entry) else
  match entry with
  | JObj d =>
      c ← py_getitem entry "created";
      change_epoch ← jira_to_datetime (default c (dict_get "updated" d));
      if change_epoch <=? last_update t then Ok (None, entry) else
      let d' := fill_author d in
      '(author_name, author_uid) ←
        match dict_get "author" d' with
        | Some a =>
            n ← py_get a "displayName" (JStr "??");
            u ← py_get a "name" (JStr "??");
            Ok (n, u)
        | None => Ok (JStr "??", JStr "??")
        end;
      project ← py_split_first (key t);
      c' ← py_getitem (JObj d') "created";
      bc ← jira_to_datetime c';
      Ok (Some [("key", key t);
                ("link", JStr (link t));
                ("summary", summary t);
                ("project", JStr project);
                ("action", JStr "unknown");
                ("author", author_name);
                ("author_uid", author_uid);
                ("timestamp", JNum change_epoch);
                ("base_entry_created", JNum bc)],
          JObj d')
  | _ => Raise AttributeError
  end.

(** A loop [for x in l: body] whose body may append events to the ticket
    and rewrite [x]. *)
Fixpoint for_entries (body : JiraTicket -> json -> result (JiraTicket * json))
    (t : JiraTicket) (l : list json) : result (JiraTicket * list json) :=
  match l with
  | [] => Ok (t, [])
  | x :: l' =>
      '(t1, x') ← body t x;
      '(t2, l'') ← for_entries body t1 l';
      Ok (t2, x' :: l'')
  end.

(** A loop whose body only appends events. *)
Fixpoint for_items (body : JiraTicket -> json -> result JiraTicket)
    (t : JiraTicket) (l : list json) : result JiraTicket :=
  match l with
  | [] => Ok t
  | x :: l' => t1 ← body t x; for_items body t1 l'
  end.

(** Body of the inner loop of [parse_changelog]: one changed-field item
    of a qualifying history entry. *)
Definition changelog_item (base_event : dict) (t : JiraTicket) (item : json)
  : result JiraTicket :=
  let new_event := base_event in
  match item with
  | JObj it =>
      let field := default JNull (dict_get "field" it) in
      if is_str "resolution" field then
        if negb (py_truthy (default JNull (dict_get "fromString" it))) then
          let res := default (JStr "Unresolved") (dict_get "toString" it) in
          if 0 <? last_update t then
            Ok (append_event t
                  (dict_set "action_human_text"
                     (JStr ("closed <" +:+ link t +:+ "|" +:+ fstr (key t)
                            +:+ "> as _" +:+ fstr res +:+ "_."))
                  (dict_set "resolution" res
                  (dict_set "action" (JStr "close") new_event))))
          else Ok t
        else if 0 <? last_update t then
          let old_resolution := default JNull (dict_get "fromString" it) in
          let new_resolution := default (JStr "Unresolved") (dict_get "toString" it) in
          Ok (append_event t
                (dict_set "action_human_text"
                   (JStr ("changed the resolution of <" +:+ link t +:+ "|"
                          +:+ fstr (key t) +:+ "> from "))
                (dict_set "to" new_resolution
                (dict_set "from" old_resolution
                (dict_set "action" (JStr "resolution") new_event)))))
        else Ok t
      else if is_str "status" field then
        let old_status := default (JStr EmptyString) (dict_get "fromString" it) in
        let new_status := default JNull (dict_get "toString" it) in
        if 0 <? last_update t then
          Ok (append_event t
                (dict_set "action_human_text"
                   (JStr ("changed the status of <" +:+ link t +:+ "|"
                          +:+ fstr (key t) +:+ "> to *" +:+ fstr new_status +:+ "*."))
                (dict_set "to" new_status
                (dict_set "from" old_status
                (dict_set "action" (JStr "status") new_event)))))
        else Ok t
      else if is_str "summary" field then
        let old_summary := default (JStr EmptyString) (dict_get "fromString" it) in
        let new_summary := default JNull (dict_get "toString" it) in
        if 0 <? last_update t then
          Ok (append_event t
                (dict_set "action_human_text"
                   (JStr ("changed the summary of <" +:+ link t +:+ "|"
                          +:+ fstr (key t) +:+ ">"))
                (dict_set "to" new_summary
                (dict_set "from" old_summary
                (dict_set "action" (JStr "summary") new_event)))))
        else Ok t
      else if is_str "description" field then
        let old_description := default (JStr EmptyString) (dict_get "fromString" it) in
        let new_description := default JNull (dict_get "toString" it) in
        if 0 <? last_update t then
          Ok (append_event t
                (dict_set "action_human_text"
                   (JStr ("changed the description of <" +:+ link t +:+ "|"
                          +:+ fstr (key t) +:+ ">"))
                (dict_set "to" new_description
                (dict_set "from" old_description
                (dict_set "action" (JStr "description") new_event)))))
        else Ok t
      else if is_str "assignee" field then
        let old_assignee := default (JStr EmptyString) (dict_get "fromString" it) in
        let new_assignee := default (JStr EmptyString) (dict_get "toString" it) in
        if 0 <? last_update t then
          Ok (append_event t
                (dict_set "action_human_text"
                   (JStr (if py_truthy new_assignee
                          then "assigned *" +:+ fstr new_assignee +:+ "* to <"
                               +:+ link t +:+ "|" +:+ fstr (key t) +:+ ">."
                          else "unassigned *" +:+ fstr old_assignee +:+ "* from <"
                               +:+ link t +:+ "|" +:+ fstr (key t) +:+ ">."))
                (dict_set "to" new_assignee
                (dict_set "from" old_assignee
                (dict_set "action" (JStr "assign") new_event)))))
        else Ok t
      else Ok t
  | _ => Raise AttributeError
  end.

(** Body of the outer loop of [parse_changelog]. *)
Definition changelog_entry (t : JiraTicket) (change : json)
  : result (JiraTicket * json) :=
  '(base_event, change') ← make_event_dict t change;
  match base_event with
  | None => Ok (t, change')
  | Some be =>
      items ← py_getitem change' "items";
      its ← py_iter items;
      t' ← for_items (changelog_item be) t its;
      Ok (t', change')
  end.

(** [JiraTicket.parse_changelog] *)
Definition parse_changelog (t : JiraTicket) : result JiraTicket :=
  cl ← py_get (json_data t) "changelog" (JObj []);
  elements ← py_get cl "histories" (JArr []);
  l ← py_iter elements;
  '(t', l') ← for_entries changelog_entry t l;
  Ok (set_json_data t'
        (upd_member "changelog" (upd_member "histories" (store_elements l'))
           (json_data t'))).

(** Body of the loop of [parse_comments]. *)
Definition comment_entry (t : JiraTicket) (comment : json)
  : result (JiraTicket * json) :=
  '(base_event, comment') ← make_event_dict t comment;
  match base_event with
  | None => Ok (t, comment')
  | Some be =>
      bc ← ev_num "base_entry_created" be;
      ts ← ev_num "timestamp" be;
      if negb (bc =? ts) then
        if 0 <? last_update t then
          body ← py_getitem comment' "body";
          Ok (append_event t
                (dict_set "action_human_text" (JStr "edited a comment")
                (dict_set "body" body
                (dict_set "action" (JStr "comment_edit") be))),
              comment')
        else Ok (t, comment')
      else if 0 <? last_update t then
        body ← py_getitem comment' "body";
        Ok (append_event t
              (dict_set "action_human_text" (JStr "added a comment")
              (dict_set "body" body
              (dict_set "action" (JStr "comment") be))),
            comment')
      else Ok (t, comment')
  end.

(** [JiraTicket.parse_comments] *)
Definition parse_comments (t : JiraTicket) : result JiraTicket :=
  fields ← py_getitem (json_data t) "fields";
  cm ← py_get fields "comment" (JObj []);
  elements ← py_get cm "comments" (JArr []);
  l ← py_iter elements;
  '(t', l') ← for_entries comment_entry t l;
  Ok (set_json_data t'
        (upd_member "fields"
           (upd_member "comment" (upd_member "comments" (store_elements l')))
           (json_data t'))).

(** Body of the loop of [parse_worklog]. *)
Definition worklog_entry (t : JiraTicket) (worklog : json)
  : result (JiraTicket * json) :=
  '(base_event, worklog') ← make_event_dict t worklog;
  match base_event with
  | None => Ok (t, worklog')
  | Some be =>
      bc ← ev_num "base_entry_created" be;
      ts ← ev_num "timestamp" be;
      if negb (bc =? ts) then
        if 0 <? last_update t then
          body ← py_getitem worklog' "comment";
          spent ← py_getitem worklog' "timeSpentSeconds";
          Ok (append_event t
                (dict_set "action_human_text" (JStr "edited a worklog entry")
                (dict_set "timespent" spent
                (dict_set "body" body
                (dict_set "action" (JStr "comment_edit") be)))),
              worklog')
        else Ok (t, worklog')
      else if 0 <? last_update t then
        body ← py_getitem worklog' "comment";
        spent ← py_getitem worklog' "timeSpentSeconds";
        Ok (append_event t
              (dict_set "action_human_text" (JStr "added a worklog entry")
              (dict_set "timespent" spent
              (dict_set "body" body
              (dict_set "action" (JStr "comment") be)))),
            worklog')
      else Ok (t, worklog')
  end.

(** [JiraTicket.parse_worklog] *)
Definition parse_worklog (t : JiraTicket) : result JiraTicket :=
  fields ← py_getitem (json_data t) "fields";
  wl ← py_get fields "worklog" (JObj []);
  elements ← py_get wl "worklogs" (JArr []);
  l ← py_iter elements;
  '(t', l') ← for_entries worklog_entry t l;
  Ok (set_json_data t'
        (upd_member "fields"
           (upd_member "worklog" (upd_member "worklogs" (store_elements l')))
           (json_data t'))).

(** ** Fetching *)

(** What [requests.get(...).json()] does: it raises a
    [requests.RequestException], or it returns the decoded body. *)
Inductive response : Type :=
| RequestException
| Body (js : json).

(** [fetch_changes]. The value returned is a Python object; [JNull] is
    [None]. *)
Definition fetch_changes (r : response) : result json :=
  match r with
  | RequestException => Ok (JArr [])
  | Body js =>
      match js with
      | JObj d => Ok (default (JArr []) (dict_get "issues" d))
      | _ => Ok JNull
      end
  end.

(** ** Processing *)

(** [timedelta.seconds] of a difference of [d] microseconds: the seconds
    left once whole days are taken out, between 0 and 86399. *)
Definition timedelta_seconds (d : Z) : Z :=
  (d `mod` 86400000000) `div` 1000000.

(** [[event["timestamp"] for event in evs]] *)
Fixpoint timestamps (evs : list dict) : result (list Z) :=
  match evs with
  | [] => Ok []
  | ev :: evs' =>
      x ← ev_num "timestamp" ev;
      xs ← timestamps evs';
      Ok (x :: xs)
  end.

(** The loop of lines 266-276 over the events of the ticket: the target of
    each event and the event. What the loop then does with the pair, print
    it when [debug] is set and post it otherwise, has no effect on the
    bridge, whether it succeeds or not, and is not modelled. *)
Fixpoint post_events (cfg : Config) (evs : list dict)
  : result (list (string * dict)) :=
  match evs with
  | [] => Ok []
  | ev :: evs' =>
      target_url ← str_format (pubsub_url cfg) ev;
      rest ← post_events cfg evs';
      Ok ((target_url, ev) :: rest)
  end.

(** The "brand-new issue" branch of [process_changes]. *)
Definition create_event (UPDATES : gmap hkey Z) (t : JiraTicket)
  : result (gmap hkey Z * JiraTicket) :=
  hk ← py_hash (key t);
  let UPDATES := <[hk := created t]> UPDATES in
  fields ← py_getitem (json_data t) "fields";
  '(base_event, fields') ← make_event_dict t fields;
  let t := set_json_data t (upd_member "fields" (fun _ => fields') (json_data t)) in
  match base_event with
  | None => Raise TypeError
  | Some be =>
      fields ← py_getitem (json_data t) "fields";
      description ← py_get fields "description" (JStr "(No description available)");
      Ok (UPDATES,
          append_event t
            (dict_set "description" description
            (dict_set "action_human_text"
               (JStr ("created " +:+ fstr (key t) +:+ ": " +:+ fstr (summary t)))
            (dict_set "action" (JStr "create") be))))
  end.

(** Body of the loop of [process_changes]: one issue. Returns the store,
    the events of the ticket with their targets, as the loop of line 266
    goes through them (printed when [debug] is set, posted otherwise), and
    the snapshot as the pass leaves it. *)
Definition process_issue (cfg : Config) (now : Z) (UPDATES : gmap hkey Z)
    (issue : json) : result (gmap hkey Z * list (string * dict) * json) :=
  ticket ← JiraTicket_init cfg UPDATES issue;
  '(UPDATES, ticket) ←
    (if (last_update ticket =? 0)
        && (timedelta_seconds (now - created ticket) <=? 30)
     then create_event UPDATES ticket
     else Ok (UPDATES, ticket));
  ticket ← parse_changelog ticket;
  ticket ← parse_comments ticket;
  ticket ← parse_worklog ticket;
  UPDATES ←
    match events ticket with
    | [] => Ok UPDATES
    | _ =>
        ts ← timestamps (events ticket);
        m ← py_max ts;
        hk ← py_hash (key ticket);
        Ok (<[hk := m]> UPDATES)
    end;
  posted ← post_events cfg (events ticket);
  Ok (UPDATES, posted, json_data ticket).

(** [process_changes] *)
Fixpoint process_changes (cfg : Config) (now : Z) (UPDATES : gmap hkey Z)
    (changes : list json)
  : result (gmap hkey Z * list (string * dict) * list json) :=
  match changes with
  | [] => Ok (UPDATES, [], [])
  | issue :: rest =>
      '(UPDATES, posted, issue') ← process_issue cfg now UPDATES issue;
      '(UPDATES, posted', rest') ← process_changes cfg now UPDATES rest;
      Ok (UPDATES, posted ++ posted', issue' :: rest')
  end.

(** One turn of the loop of [main]: fetch, then process. *)
Definition poll_cycle (cfg : Config) (now : Z) (UPDATES : gmap hkey Z)
    (r : response) : result (gmap hkey Z * list (string * dict) * list json) :=
  change_set ← fetch_changes r;
  changes ← py_iter change_set;
  process_changes cfg now UPDATES changes.

(** The first turns of the endless loop of [main]: for each turn, the time
    at which it starts processing and what its fetch meets. *)
Fixpoint main (cfg : Config) (turns : list (Z * response))
    (UPDATES : gmap hkey Z) : result (gmap hkey Z) :=
  match turns with
  | [] => Ok UPDATES
  | (now, r) :: rest =>
      '(UPDATES, _, _) ← poll_cycle cfg now UPDATES r;
      main cfg rest UPDATES
  end.
End Bridge.

(** ** An instance of the library functions

    Enough of the three library functions to run the bridge on data as Jira
    sends it. The properties below hold for every instance; this one serves
    to evaluate the bridge on the sample tickets. *)

Module Py.

Definition digit (c : ascii) : option Z :=
  let n := Z.of_nat (nat_of_ascii c) - 48 in
  if (0 <=? n) && (n <=? 9) then Some n else None.

(** Exactly [n] decimal digits. *)
Fixpoint number (n : nat) (acc : Z) (s : string) : option (Z * string) :=
  match n with
  | O => Some (acc, s)
  | S n' =>
      match s with
      | String c s' =>
          match digit c with
          | Some x => number n' (10 * acc + x) s'
          | None => None
          end
      | EmptyString => None
      end
  end.

(** Up to [n] decimal digits, padded on the right to [n] places. *)
Fixpoint fraction (n : nat) (acc : Z) (s : string) : Z * string :=
  match n with
  | O => (acc, s)
  | S n' =>
      match s with
      | String c s' =>
          match digit c with
          | Some x => fraction n' (10 * acc + x) s'
          | None => (acc * 10 ^ Z.of_nat n, s)
          end
      | EmptyString => (acc * 10 ^ Z.of_nat n, s)
      end
  end.

Definition expect (c : ascii) (s : string) : option string :=
  match s with
  | String c' s' => if Ascii.eqb c c' then Some s' else None
  | EmptyString => None
  end.

Definition is_leap (y : Z) : bool :=
  ((y `mod` 4 =? 0) && negb (y `mod` 100 =? 0)) || (y `mod` 400 =? 0).

Definition days_in_month (y m : Z) : Z :=
  if m =? 2 then (if is_leap y then 29 else 28)
  else if (m =? 4) || (m =? 6) || (m =? 9) || (m =? 11) then 30 else 31.

(** Days from 1970-01-01 to the given day of the proleptic Gregorian
    calendar. *)
Definition days_from_civil (y m d : Z) : Z :=
  let y' := if m <=? 2 then y - 1 else y in
  let era := y' `div` 400 in
  let yoe := y' - era * 400 in
  let mp := if 2 <? m then m - 3 else m + 9 in
  let doy := (153 * mp + 2) `div` 5 + d - 1 in
  let doe := yoe * 365 + yoe `div` 4 - yoe `div` 100 + doy in
  era * 146097 + doe - 719468.

(** Timestamps laid out as [2023-11-14T22:13:20.000+0000]. *)
Definition strptime (s : string) : option Z :=
  '(y, s) ← number 4 0 s;
  s ← expect "-" s;
  '(m, s) ← number 2 0 s;
  s ← expect "-" s;
  '(d, s) ← number 2 0 s;
  s ← expect "T" s;
  '(hh, s) ← number 2 0 s;
  s ← expect ":" s;
  '(mm, s) ← number 2 0 s;
  s ← expect ":" s;
  '(ss, s) ← number 2 0 s;
  s ← expect "." s;
  '(f0, s) ← number 1 0 s;
  let '(us, s) := fraction 5 f0 s in
  '(sign, s) ← match s with
               | String c s' =>
                   if Ascii.eqb c "+" then Some (1, s')
                   else if Ascii.eqb c "-" then Some (-1, s')
                   else None
               | EmptyString => None
               end;
  '(zh, s) ← number 2 0 s;
  '(zm, s) ← number 2 0 s;
  if String.eqb s EmptyString
     && (1 <=? y) && (1 <=? m) && (m <=? 12)
     && (1 <=? d) && (d <=? days_in_month y m)
     && (hh <? 24) && (mm <? 60) && (ss <? 60) && (zm <? 60)
  then Some (((days_from_civil y m d * 86400 + hh * 3600 + mm * 60 + ss
               - sign * (zh * 3600 + zm * 60)) * 1000000) + us)
  else None.

Fixpoint decimal (fuel : nat) (n : Z) (acc : string) : string :=
  match fuel with
  | O => acc
  | S fuel' =>
      let acc' := String (ascii_of_nat (Z.to_nat (48 + n `mod` 10))) acc in
      if n <? 10 then acc' else decimal fuel' (n `div` 10) acc'
  end.

(** Scalars and empty containers as Python prints them. *)
Definition repr (v : json) : string :=
  match v with
  | JNull => "None"
  | JBool true => "True"
  | JBool false => "False"
  | JNum n =>
      if n <? 0 then "-" +:+ decimal (Z.to_nat (Z.log2 (- n)) + 1) (- n) EmptyString
      else decimal (Z.to_nat (Z.log2 n) + 1) n EmptyString
  | JStr s => s
  | JArr [] => "[]"
  | JObj [] => "{}"
  | JArr _ => "[...]"
  | JObj _ => "{...}"
  end.

(** Templates made of text and [{name}] fields. *)
Fixpoint format (tpl : string) (name : option string) (ev : dict) : result string :=
  match tpl, name with
  | EmptyString, None => Ok EmptyString
  | EmptyString, Some _ => Raise ValueError
  | String c tpl', None =>
      if Ascii.eqb c "{" then format tpl' (Some EmptyString) ev
      else rest ← format tpl' None ev; Ok (String c rest)
  | String c tpl', Some n =>
      if Ascii.eqb c "}" then
        match dict_get n ev with
        | Some v => rest ← format tpl' None ev; Ok (repr v +:+ rest)
        | None => Raise KeyError
        end
      else format tpl' (Some (n +:+ String c EmptyString)) ev
  end.

Definition builtins : Builtins :=
  Build_Builtins strptime repr (fun tpl ev => format tpl None ev).

End Py.

(** ** Sample data *)

Module Sample.

Definition cfg : Config :=
  {| jira_url := "https://issues.apache.org/jira/rest/api/2/search";
     jira_user := "bridge";
     jira_pass := "secret";
     jira_base := "https://issues.apache.org/jira/browse/";
     pubsub_url := "http://localhost:2069/jira/{project}/{action}";
     debug := false;
     poll_interval := 5 |}.

(** The bridge was started on 2023-11-14 at 22:13:20 UTC ... *)
Definition launch : Z := 1700000000000000.

(** ... and polls 100 seconds later. *)
Definition now : Z := 1700000100000000.

Definition alice : json :=
  JObj [("name", JStr "alice"); ("displayName", JStr "Alice A.")].

(** A ticket filed five seconds before the poll. *)
Definition fresh_issue : json :=
  JObj [("key", JStr "INFRA-1");
        ("fields", JObj [("summary", JStr "Mail is down");
                         ("created", JStr "2023-11-14T22:14:55.000+0000");
                         ("description", JStr "No mail since noon.")])].

Definition resolution_item (from to : json) : dict :=
  [("field", JStr "resolution"); ("fromString", from); ("toString", to)].

Definition change (at_ : string) (field : string) (from to : json) : dict :=
  [("id", JStr "1");
   ("author", alice);
   ("created", JStr at_);
   ("items", JArr [JObj [("field", JStr field);
                         ("fromString", from);
                         ("toString", to)]])].

Definition history (at_ : string) (field : string) (from to : json) : json :=
  JObj (change at_ field from to).

Definition old_fields : json :=
  JObj [("summary", JStr "Mail is down");
        ("created", JStr "2023-01-01T08:00:00.000+0000")].

(** A ticket from January whose status changed forty seconds after the
    start. *)
Definition status_issue : json :=
  JObj [("key", JStr "INFRA-2");
        ("fields", old_fields);
        ("changelog",
         JObj [("histories",
                JArr [history "2023-11-14T22:14:00.000+0000" "status"
                        (JStr "Open") (JStr "In Progress")])])].

(** A ticket closed as Fixed, then turned into a Duplicate. *)
Definition resolution_issue : json :=
  JObj [("key", JStr "INFRA-3");
        ("fields", old_fields);
        ("changelog",
         JObj [("histories",
                JArr [history "2023-11-14T22:13:30.000+0000" "resolution"
                        JNull (JStr "Fixed");
                      history "2023-11-14T22:13:45.000+0000" "resolution"
                        (JStr "Fixed") (JStr "Duplicate");
                      history "2023-11-14T22:13:37.000+0000" "status"
                        (JStr "Open") (JStr "Closed")])])].

(** A comment that names its creator but no author. *)
Definition creator_comment : dict :=
  [("creator", alice);
   ("created", JStr "2023-11-14T22:14:00.000+0000");
   ("body", JStr "Still down.")].


(** A comment written at 22:14:00 and edited ten seconds later. *)
Definition edited_comment : dict :=
  [("author", alice);
   ("created", JStr "2023-11-14T22:14:00.000+0000");
   ("updated", JStr "2023-11-14T22:14:10.000+0000");
   ("body", JStr "Up again.")].

(** Half an hour of work logged at 22:14:00. *)
Definition worklog : dict :=
  [("author", alice);
   ("created", JStr "2023-11-14T22:14:00.000+0000");
   ("updated", JStr "2023-11-14T22:14:00.000+0000");
   ("comment", JStr "Restarted the relay.");
   ("timeSpentSeconds", JNum 1800)].

(** A history entry of 22:14:00 that lost its items. *)
Definition bare_change : dict :=
  [("author", alice); ("created", JStr "2023-11-14T22:14:00.000+0000")].

(** A snapshot without its fields. *)
Definition bare_issue : json := JObj [("key", JStr "INFRA-5")].

(** A history entry of 22:14:20 with four items: the assignee, a label,
    the summary and the resolution. *)
Definition busy_change : dict :=
  [("id", JStr "2");
   ("author", alice);
   ("created", JStr "2023-11-14T22:14:20.000+0000");
   ("items", JArr [JObj [("field", JStr "assignee");
                         ("fromString", JStr "alice");
                         ("toString", JStr EmptyString)];
                   JObj [("field", JStr "labels"); ("toString", JStr "mail")];
                   JObj [("field", JStr "summary");
                         ("fromString", JStr "Mail is down");
                         ("toString", JStr "Mail is slow")];
                   JObj (resolution_item JNull (JStr "Fixed"))])].

(** A comment from before the start, that names its creator only. *)
Definition old_comment : dict :=
  [("creator", alice);
   ("created", JStr "2023-11-14T22:00:00.000+0000");
   ("body", JStr "Looking into it.")].

(** A ticket with records from before the start and from after it in its
    history and its comments, and with a worklog entry. *)
Definition busy_issue : json :=
  JObj [("key", JStr "INFRA-6");
        ("fields",
         JObj [("summary", JStr "Mail is down");
               ("created", JStr "2023-01-01T08:00:00.000+0000");
               ("comment",
                JObj [("comments", JArr [JObj old_comment;
                                         JObj creator_comment;
                                         JObj edited_comment])]);
               ("worklog", JObj [("worklogs", JArr [JObj worklog])])]);
        ("changelog",
         JObj [("histories",
                JArr [history "2023-11-14T22:00:00.000+0000" "status"
                        (JStr "Open") (JStr "In Progress");
                      JObj busy_change])])].

(** The ticket object built for INFRA-6 on its first visit. *)
Definition busy_ticket : JiraTicket :=
  {| key := JStr "INFRA-6";
     link := "https://issues.apache.org/jira/browse/INFRA-6";
     summary := JStr "Mail is down";
     created := 1672560000000000;
     last_update := launch;
     events := [];
     json_data := busy_issue;
     config := cfg |}.

(** The ticket object built for INFRA-2 on its first visit. *)
Definition ticket : JiraTicket :=
  {| key := JStr "INFRA-2";
     link := "https://issues.apache.org/jira/browse/INFRA-2";
     summary := JStr "Mail is down";
     created := 1672560000000000;
     last_update := launch;
     events := [];
     json_data := status_issue;
     config := cfg |}.

(** The event under construction for a change of INFRA-2. *)
Definition base_event : dict :=
  [("key", JStr "INFRA-2");
   ("link", JStr "https://issues.apache.org/jira/browse/INFRA-2");
   ("summary", JStr "Mail is down");
   ("project", JStr "INFRA");
   ("action", JStr "unknown");
   ("author", JStr "Alice A.");
   ("author_uid", JStr "alice");
   ("timestamp", JNum 1700000040000000);
   ("base_entry_created", JNum 1700000040000000)].

End Sample.


(** ** Notions used to state the properties *)

(** An entry from which an event can be built: the ticket key is a string,
    the creation time of the entry is a timestamp, and its author, once the
    creator has been taken over, is an object. *)
Definition readable_entry `{B : Builtins} (t : JiraTicket) (d : dict) : Prop :=
  (exists s, key t = JStr s) /\
  (exists c bc, dict_get "created" d = Some c /\ jira_to_datetime c = Ok bc) /\
  (forall a, dict_get "author" (fill_author d) = Some a -> exists o, a = JObj o).

(** An event stamped strictly after the watermark [w]. *)
Definition fresh_event (w : Z) (ev : dict) : Prop :=
  exists ts, ev_num "timestamp" ev = Ok ts /\ w < ts.

(** What a step of a pass may do to the ticket object: the key and the
    watermark read at construction stay, the snapshot moves along [R], and
    events are appended, all of them fresh, none while the watermark is not
    positive. *)
Record extends (R : json -> json -> Prop) (t t' : JiraTicket) : Prop := {
  ext_key : key t' = key t;
  ext_last_update : last_update t' = last_update t;
  ext_json : R (json_data t) (json_data t');
  ext_events :
    exists extra,
      events t' = events t ++ extra /\
      Forall (fresh_event (last_update t)) extra /\
      (last_update t <= 0 -> extra = [])
}.

(** What a loop body may do to the entry it visits. *)
Definition rewritten (e e' : json) : Prop :=
  e' = e \/ exists d, e = JObj d /\ e' = JObj (fill_author d).

(** [author_filled js js']: [js'] is [js] where some objects, at any depth,
    have gone through [fill_author]; nothing else differs. *)
#[warnings="-register-all"]
Inductive author_filled : json -> json -> Prop :=
| af_same v : author_filled v v
| af_fill d : author_filled (JObj d) (JObj (fill_author d))
| af_elements l l' :
    Forall2 author_filled l l' -> author_filled (JArr l) (JArr l')
| af_member k v v' d :
    dict_get k d = Some v -> author_filled v v' ->
    author_filled (JObj d) (JObj (dict_set k v' d))
| af_trans u v w :
    author_filled u v -> author_filled v w -> author_filled u w.


(** A snapshot from which no ticket object can be built: no key, no
    fields, no creation time among the fields, or a creation time that is
    not a timestamp. *)
Definition malformed_snapshot `{B : Builtins} (d : dict) : Prop :=
  dict_get "key" d = None \/
  dict_get "fields" d = None \/
  exists fields,
    dict_get "fields" d = Some (JObj fields) /\
    (dict_get "created" fields = None \/
     exists s, dict_get "created" fields = Some (JStr s) /\ strptime s = None).

(** Every stored watermark is after the epoch. *)
Definition store_ok (UPDATES : gmap hkey Z) : Prop :=
  forall k v, UPDATES !! k = Some v -> 0 < v.

(** The stores the bridge can be in between two passes: empty when the
    module is loaded, then as each completed pass leaves it. *)
Inductive reachable `{B : Builtins} (LAUNCH_TIME : Z) : gmap hkey Z -> Prop :=
| reach_start : reachable LAUNCH_TIME ∅
| reach_pass cfg now UPDATES issue UPDATES' posted issue' :
    reachable LAUNCH_TIME UPDATES ->
    process_issue LAUNCH_TIME cfg now UPDATES issue = Ok (UPDATES', posted, issue') ->
    reachable LAUNCH_TIME UPDATES'.

(** [ev] names the author object [a]: its display name and its id, "??" for
    the one it lacks. *)
Definition names_author (a : json) (ev : dict) : Prop :=
  exists o,
    a = JObj o /\
    dict_get "author" ev = Some (default (JStr "??") (dict_get "displayName" o)) /\
    dict_get "author_uid" ev = Some (default (JStr "??") (dict_get "name" o)).

(** The five fields of a history item that [parse_changelog] reports. *)
Definition reported_fields : list string :=
  ["resolution"; "status"; "summary"; "description"; "assignee"].

(** The actions under which the bridge reports. *)
Definition actions : list string :=
  ["create"; "close"; "resolution"; "status"; "summary"; "description";
   "assign"; "comment"; "comment_edit"].

(** What an event of the ticket with key [k] and link [lnk] holds whatever
    its action: the key, the link, a project, the summary, an actor, and a
    timestamp after the watermark [w]. *)
Definition event_base (k : json) (lnk : string) (w : Z) (ev : dict) : Prop :=
  dict_get "key" ev = Some k /\
  dict_get "link" ev = Some (JStr lnk) /\
  (exists p, dict_get "project" ev = Some (JStr p)) /\
  is_Some (dict_get "summary" ev) /\
  is_Some (dict_get "author" ev) /\
  is_Some (dict_get "author_uid" ev) /\
  (exists ts, dict_get "timestamp" ev = Some (JNum ts) /\ w < ts).

(** An event ready for the publisher: the above, one of the actions, and a
    sentence. *)
Definition sound_event (k : json) (lnk : string) (w : Z) (ev : dict) : Prop :=
  event_base k lnk w ev /\
  (exists a, dict_get "action" ev = Some (JStr a) /\ a ∈ actions) /\
  (exists txt, dict_get "action_human_text" ev = Some (JStr txt)).

(** A step of a pass that keeps the ticket and appends sound events only. *)
Record grows (t t' : JiraTicket) : Prop := {
  grows_key : key t' = key t;
  grows_link : link t' = link t;
  grows_last_update : last_update t' = last_update t;
  grows_events :
    exists extra,
      events t' = events t ++ extra /\
      Forall (sound_event (key t) (link t) (last_update t)) extra
}.

(** From [UPDATES] to [UPDATES'] no watermark went down and no entry was
    lost or lowered. *)
Definition no_lower `{B : Builtins} (LAUNCH_TIME : Z) (UPDATES UPDATES' : gmap hkey Z)
  : Prop :=
  forall k,
    watermark LAUNCH_TIME UPDATES k <= watermark LAUNCH_TIME UPDATES' k /\
    (forall v, UPDATES !! k = Some v ->
     exists v', UPDATES' !! k = Some v' /\ v <= v').

(** An event stamped at or before the watermark [w]. *)
Definition stale (w : Z) (ev : dict) : Prop :=
  exists ts, ev_num "timestamp" ev = Ok ts /\ ts <= w.

(** [t'] is a ticket object for the issue of [t], built when the watermark,
    positive already, had not gone down. *)
Definition later (t t' : JiraTicket) : Prop :=
  key t' = key t /\ 0 < last_update t /\ last_update t <= last_update t'.

(** The three lists a pass goes through, as lines 104, 182 and 205 read
    them from the snapshot. *)
Definition read_histories (js : json) : result (list json) :=
  cl ← py_get js "changelog" (JObj []);
  elements ← py_get cl "histories" (JArr []);
  py_iter elements.

Definition read_comments (js : json) : result (list json) :=
  fields ← py_getitem js "fields";
  cm ← py_get fields "comment" (JObj []);
  elements ← py_get cm "comments" (JArr []);
  py_iter elements.

Definition read_worklogs (js : json) : result (list json) :=
  fields ← py_getitem js "fields";
  wl ← py_get fields "worklog" (JObj []);
  elements ← py_get wl "worklogs" (JArr []);
  py_iter elements.

(** An item whose field is one of the five reported ones. *)
Definition reported (item : json) : bool :=
  match item with
  | JObj it =>
      existsb (fun f => is_str f (default JNull (dict_get "field" it))) reported_fields
  | _ => false
  end.

(** The ticket object without its events and its snapshot: what the loop
    bodies read of it. *)
Definition blank (t : JiraTicket) : JiraTicket :=
  set_json_data (set_events t []) JNull.

(** The events that one record yields on its own: those the loop body
    appends for it to a ticket that has none. *)
Definition item_events `{B : Builtins} (t : JiraTicket) (be : dict) (item : json)
  : list dict :=
  match changelog_item be (blank t) item with
  | Ok t' => events t'
  | Raise _ => []
  end.

Definition history_events `{B : Builtins} (t : JiraTicket) (e : json) : list dict :=
  match changelog_entry (blank t) e with
  | Ok (t', _) => events t'
  | Raise _ => []
  end.

Definition comment_events `{B : Builtins} (t : JiraTicket) (e : json) : list dict :=
  match comment_entry (blank t) e with
  | Ok (t', _) => events t'
  | Raise _ => []
  end.

Definition worklog_events `{B : Builtins} (t : JiraTicket) (e : json) : list dict :=
  match worklog_entry (blank t) e with
  | Ok (t', _) => events t'
  | Raise _ => []
  end.

(** A record qualifies when [make_event_dict] builds an event for it: it
    has a creation time and its effective time is after the watermark. *)
Definition qualifies `{B : Builtins} (t : JiraTicket) (e : json) : bool :=
  match make_event_dict t e with
  | Ok (Some _, _) => true
  | _ => false
  end.

(** What a pass leaves of a record: [fill_author] applied when it
    qualifies, the record itself when it does not. *)
Definition fill (e : json) : json :=
  match e with
  | JObj d => JObj (fill_author d)
  | _ => e
  end.

Definition touch `{B : Builtins} (t : JiraTicket) (e : json) : json :=
  if qualifies t e then fill e else e.

Definition map_elements (f : json -> json) (v : json) : json :=
  match v with
  | JArr l => JArr (map f l)
  | _ => v
  end.

(** The snapshot with the records of its three lists touched. *)
Definition touched `{B : Builtins} (t : JiraTicket) (js : json) : json :=
  upd_member "fields"
    (upd_member "worklog" (upd_member "worklogs" (map_elements (touch t))))
    (upd_member "fields"
       (upd_member "comment" (upd_member "comments" (map_elements (touch t))))
       (upd_member "changelog" (upd_member "histories" (map_elements (touch t)))
          js)).





(** * Properties *)

(** ** Dictionaries and the monad *)

Lemma bind_Ok {A C} (m : result A) (f : A -> result C) (c : C) :
  (x ← m; f x) = Ok c -> exists a, m = Ok a /\ f a = Ok c.
Proof.
  destruct m as [a|e]; simpl; intros Heq.
  - exists a. split; [reflexivity | exact Heq].
  - discriminate Heq.
Qed.

(** Split a successful sequence of binds: name the value of the first step
    and its equation. *)
Tactic Notation "inv_bind" hyp(Heq) "as" ident(a) ident(Ha) :=
  apply bind_Ok in Heq; destruct Heq as (a & Ha & Heq).

Lemma dict_get_set_eq k v d : dict_get k (dict_set k v d) = Some v.
Proof.
  induction d as [|[k' v'] d IH]; simpl.
  - rewrite String.eqb_refl. reflexivity.
  - destruct (String.eqb k' k) eqn:E; simpl; rewrite E; [reflexivity | exact IH].
Qed.

Lemma dict_get_set_ne k k' v d :
  k <> k' -> dict_get k' (dict_set k v d) = dict_get k' d.
Proof.
  intros Hne. induction d as [|[k0 v0] d IH]; simpl.
  - destruct (String.eqb k k') eqn:E; [|reflexivity].
    apply String.eqb_eq in E. contradiction.
  - destruct (String.eqb k0 k) eqn:E; simpl.
    + apply String.eqb_eq in E. subst k0.
      destruct (String.eqb k k') eqn:E'; [|reflexivity].
      apply String.eqb_eq in E'. contradiction.
    + rewrite IH. reflexivity.
Qed.

(** Reading a field of an event after a run of assignments. *)
Ltac dict_simpl :=
  repeat first [ rewrite dict_get_set_eq
               | rewrite dict_get_set_ne by discriminate ].

Lemma dict_alter_get_None k f d : dict_get k d = None -> dict_alter k f d = d.
Proof.
  induction d as [|[k' v'] d IH]; simpl; [reflexivity|].
  destruct (String.eqb k' k); [discriminate|].
  intros Hd. rewrite IH by exact Hd. reflexivity.
Qed.

Lemma dict_alter_get_Some k f d v :
  dict_get k d = Some v -> dict_alter k f d = dict_set k (f v) d.
Proof.
  induction d as [|[k' v'] d IH]; simpl; [discriminate|].
  destruct (String.eqb k' k).
  - intros [= ->]. reflexivity.
  - intros Hd. rewrite IH by exact Hd. reflexivity.
Qed.


Lemma ev_num_set_ne k k' v ev : k <> k' -> ev_num k' (dict_set k v ev) = ev_num k' ev.
Proof. intros Hne. unfold ev_num. rewrite dict_get_set_ne by exact Hne. reflexivity. Qed.

(** ** The change extractor *)

Section Extractor.
Context `{B : Builtins}.

Lemma fill_author_created d : dict_get "created" (fill_author d) = dict_get "created" d.
Proof.
  unfold fill_author.
  destruct (dict_get "author" d); [reflexivity|].
  destruct (dict_get "creator" d); [|reflexivity].
  apply dict_get_set_ne. discriminate.
Qed.

Lemma make_event_dict_no_created t d :
  dict_get "created" d = None -> make_event_dict t (JObj d) = Ok (None, JObj d).
Proof.
  intros Hc. unfold make_event_dict, py_contains, dict_has. rewrite Hc. reflexivity.
Qed.

Lemma make_event_dict_None t e e' :
  make_event_dict t e = Ok (None, e') -> e' = e.
Proof.
  unfold make_event_dict. intros Heq. inv_bind Heq as has Hhas.
  destruct (negb has); [congruence|].
  destruct e as [| | | | |d]; try discriminate.
  inv_bind Heq as c Hc. inv_bind Heq as ts Hts.
  destruct (ts <=? last_update t); [congruence|].
  inv_bind Heq as au Hau. destruct au.
  inv_bind Heq as pr Hpr. inv_bind Heq as c' Hc'. inv_bind Heq as bc Hbc.
  discriminate.
Qed.

Lemma make_event_dict_Some t e be e' :
  make_event_dict t e = Ok (Some be, e') ->
  exists d c ts bc,
    e = JObj d /\ e' = JObj (fill_author d) /\
    dict_get "created" d = Some c /\
    jira_to_datetime (default c (dict_get "updated" d)) = Ok ts /\
    last_update t < ts /\
    ev_num "timestamp" be = Ok ts /\
    ev_num "base_entry_created" be = Ok bc /\
    dict_get "action" be = Some (JStr "unknown").
Proof.
  unfold make_event_dict. intros Heq. inv_bind Heq as has Hhas.
  destruct (negb has); [discriminate|].
  destruct e as [| | | | |d]; try discriminate.
  inv_bind Heq as c Hc. inv_bind Heq as ts Hts.
  destruct (ts <=? last_update t) eqn:Hle; [discriminate|].
  inv_bind Heq as au Hau. destruct au as [author_name author_uid].
  inv_bind Heq as pr Hpr. inv_bind Heq as c' Hc'. inv_bind Heq as bc Hbc.
  injection Heq as <- <-.
  apply Z.leb_gt in Hle.
  simpl in Hc. destruct (dict_get "created" d) as [c0|] eqn:Hcd; [|discriminate].
  injection Hc as <-.
  exists d, c0, ts, bc. repeat split; try reflexivity; assumption.
Qed.

End Extractor.

Section ExtractorClaims.
Context `{B : Builtins}.

(** C4. A sub-record without a creation time yields no candidate. One that
    has a creation time takes as effective time its update time when
    present, else its creation time; it yields no candidate when that time
    is at or before the watermark of the issue, and yields a candidate
    stamped with that time when it is strictly after. *)
Theorem make_event_dict_qualifies (t : JiraTicket) (d : dict) :
  (dict_get "created" d = None ->
   make_event_dict t (JObj d) = Ok (None, JObj d)) /\
  (forall c eff,
     dict_get "created" d = Some c ->
     jira_to_datetime (default c (dict_get "updated" d)) = Ok eff ->
     (eff <= last_update t ->
      make_event_dict t (JObj d) = Ok (None, JObj d)) /\
     (last_update t < eff -> readable_entry t d ->
      exists ev,
        make_event_dict t (JObj d) = Ok (Some ev, JObj (fill_author d)) /\
        ev_num "timestamp" ev = Ok eff) /\
     (forall ev e', make_event_dict t (JObj d) = Ok (Some ev, e') ->
      last_update t < eff /\ ev_num "timestamp" ev = Ok eff)).
Proof.
  split; [apply make_event_dict_no_created|].
  intros c eff Hc Heff. split; [|split].
  - intros Hle. unfold make_event_dict, py_contains, dict_has. simpl.
    rewrite Hc. simpl. rewrite Heff. simpl.
    apply Z.leb_le in Hle. rewrite Hle. reflexivity.
  - intros Hlt ((s & Hkey) & (c' & bc & Hc' & Hbc) & Hauthor).
    rewrite Hc in Hc'. injection Hc' as <-.
    unfold make_event_dict, py_contains, dict_has. simpl.
    rewrite Hc. simpl. rewrite Heff. simpl.
    apply Z.leb_gt in Hlt. rewrite Hlt.
    rewrite fill_author_created, Hc, Hkey. simpl. rewrite Hbc. simpl.
    destruct (dict_get "author" (fill_author d)) as [a|] eqn:Ha.
    + destruct (Hauthor a eq_refl) as (o & ->). simpl.
      eexists. split; reflexivity.
    + simpl. eexists. split; reflexivity.
  - intros ev e' Hev.
    apply make_event_dict_Some in Hev.
    destruct Hev as (d0 & c0 & ts & bc & Hd & _ & Hc0 & Hts & Hlt & Hnum & _).
    injection Hd as <-. rewrite Hc in Hc0. injection Hc0 as <-.
    rewrite Heff in Hts. injection Hts as <-. split; assumption.
Qed.

End ExtractorClaims.

Lemma make_event_dict_qualifies_witness :
  exists ev,
    make_event_dict (B:=Py.builtins) Sample.ticket
      (JObj (Sample.change "2023-11-14T22:14:00.000+0000" "status"
               (JStr "Open") (JStr "In Progress")))
    = Ok (Some ev,
          JObj (fill_author
                  (Sample.change "2023-11-14T22:14:00.000+0000" "status"
                     (JStr "Open") (JStr "In Progress")))) /\
    ev_num "timestamp" ev = Ok 1700000040000000.
Proof.
  destruct (make_event_dict_qualifies (B:=Py.builtins) Sample.ticket
              (Sample.change "2023-11-14T22:14:00.000+0000" "status"
                 (JStr "Open") (JStr "In Progress"))) as [_ Hq].
  destruct (Hq (JStr "2023-11-14T22:14:00.000+0000") 1700000040000000
              eq_refl eq_refl) as (_ & Hsome & _).
  apply Hsome.
  - vm_compute. reflexivity.
  - split; [|split].
    + exists "INFRA-2". reflexivity.
    + exists (JStr "2023-11-14T22:14:00.000+0000"), 1700000040000000.
      split; reflexivity.
    + intros a Ha. vm_compute in Ha. injection Ha as <-. eexists. reflexivity.
Defined.

(** ** The event classifier *)

(** C9. The sentence of a [resolution] event stops after "from": on the
    change of INFRA-3 from Fixed to Duplicate the event carries both values
    in its [from] and [to] fields, and its sentence names neither. *)
Theorem resolution_sentence_is_cut :
  exists UPDATES posted issue' target ev text,
    process_issue (B:=Py.builtins) Sample.launch Sample.cfg Sample.now ∅
      Sample.resolution_issue = Ok (UPDATES, posted, issue') /\
    posted !! 1%nat = Some (target, ev) /\
    dict_get "action" ev = Some (JStr "resolution") /\
    dict_get "from" ev = Some (JStr "Fixed") /\
    dict_get "to" ev = Some (JStr "Duplicate") /\
    dict_get "action_human_text" ev = Some (JStr text) /\
    text = "changed the resolution of <https://issues.apache.org/jira/browse/INFRA-3|INFRA-3> from " /\
    str_contains "Fixed" text = false /\
    str_contains "Duplicate" text = false.
Proof.
  do 6 eexists. split; [vm_compute; reflexivity|].
  repeat split; reflexivity.
Qed.

(** ** Fetching *)

(** C6. When Jira answers with JSON that is not an object, here the empty
    array, [fetch_changes] returns [None] and not a sequence, and the poll
    cycle stops on the [TypeError] of iterating over it. *)
Theorem fetch_changes_returns_None :
  fetch_changes (Body (JArr [])) = Ok JNull /\
  poll_cycle (B:=Py.builtins) Sample.launch Sample.cfg Sample.now ∅ (Body (JArr []))
  = Raise TypeError.
Proof. split; reflexivity. Qed.

(** ** Issue creation *)

(** C1. INFRA-1 has never been observed, so its watermark is the launch
    time, and it was created five seconds before the poll; the pass reports
    nothing and leaves the store empty. *)
Theorem fresh_issue_not_reported :
  exists t,
    JiraTicket_init (B:=Py.builtins) Sample.launch Sample.cfg ∅ Sample.fresh_issue = Ok t /\
    (∅ : gmap hkey Z) !! (inl "INFRA-1" : hkey) = None /\
    last_update t = Sample.launch /\
    Sample.now - created t = 5 * 1000000 /\
    process_issue (B:=Py.builtins) Sample.launch Sample.cfg Sample.now ∅ Sample.fresh_issue
    = Ok (∅, [], Sample.fresh_issue).
Proof.
  eexists. split; [vm_compute; reflexivity|].
  repeat split; vm_compute; reflexivity.
Qed.

(** ** One pass over an issue *)

Section Pass.
Context `{B : Builtins}.

Lemma extends_refl (R : json -> json -> Prop) t :
  (forall v, R v v) -> extends R t t.
Proof.
  intros Hrefl. split; try reflexivity; [apply Hrefl|].
  exists []. rewrite app_nil_r. repeat split. constructor.
Qed.

Lemma extends_trans (R : json -> json -> Prop) t1 t2 t3 :
  (forall u v w, R u v -> R v w -> R u w) ->
  extends R t1 t2 -> extends R t2 t3 -> extends R t1 t3.
Proof.
  intros Htrans [Hk1 Hl1 Hj1 (x1 & He1 & Hf1 & Hg1)] [Hk2 Hl2 Hj2 (x2 & He2 & Hf2 & Hg2)].
  split.
  - congruence.
  - congruence.
  - eapply Htrans; eassumption.
  - exists (x1 ++ x2). rewrite Hl1 in Hf2, Hg2. repeat split.
    + rewrite He2, He1, app_assoc. reflexivity.
    + apply Forall_app. split; assumption.
    + intros Hle. rewrite (Hg1 Hle), (Hg2 Hle). reflexivity.
Qed.

Lemma extends_eq_trans t1 t2 t3 :
  extends eq t1 t2 -> extends eq t2 t3 -> extends eq t1 t3.
Proof. apply extends_trans. intros u v w -> ->. reflexivity. Qed.

Lemma extends_filled_trans t1 t2 t3 :
  extends author_filled t1 t2 -> extends author_filled t2 t3 ->
  extends author_filled t1 t3.
Proof. apply extends_trans. apply af_trans. Qed.

Lemma extends_append t ev ts :
  (0 <? last_update t) = true ->
  ev_num "timestamp" ev = Ok ts -> last_update t < ts ->
  extends eq t (append_event t ev).
Proof.
  intros Hpos Hts Hlt. apply Z.ltb_lt in Hpos.
  split; try reflexivity.
  exists [ev]. repeat split.
  - constructor; [|constructor]. exists ts. split; assumption.
  - intros Hle. lia.
Qed.

(** The inner loop body of [parse_changelog] appends at most one event, a
    fresh one, and none while the watermark is not positive. *)
Lemma changelog_item_extends be ts t item t' :
  ev_num "timestamp" be = Ok ts -> last_update t < ts ->
  changelog_item be t item = Ok t' -> extends eq t t'.
Proof.
  intros Hts Hlt. unfold changelog_item.
  destruct item as [| | | | |it]; try discriminate.
  repeat match goal with
         | |- context [if ?b then _ else _] => destruct b eqn:?
         end;
    intros [= <-];
    first [ apply extends_refl; reflexivity
          | eapply extends_append;
            [ eassumption
            | repeat rewrite ev_num_set_ne by discriminate; eassumption
            | assumption ] ].
Qed.

Lemma for_items_extends be ts l :
  ev_num "timestamp" be = Ok ts ->
  forall t t', last_update t < ts ->
  for_items (changelog_item be) t l = Ok t' -> extends eq t t'.
Proof.
  intros Hts. induction l as [|x l IH]; simpl; intros t t' Hlt Heq.
  - injection Heq as <-. apply extends_refl. reflexivity.
  - inv_bind Heq as t1 Hx.
    pose proof (changelog_item_extends _ _ _ _ _ Hts Hlt Hx) as H1.
    eapply extends_eq_trans; [exact H1|].
    apply IH; [|exact Heq]. rewrite (ext_last_update _ _ _ H1). exact Hlt.
Qed.

Lemma rewritten_of_make_event_dict t e o e' :
  make_event_dict t e = Ok (o, e') -> rewritten e e'.
Proof.
  destruct o as [be|]; intros Heq.
  - apply make_event_dict_Some in Heq.
    destruct Heq as (d & _ & _ & _ & -> & -> & _). right. exists d. split; reflexivity.
  - apply make_event_dict_None in Heq. left. exact Heq.
Qed.

Lemma changelog_entry_extends t change t' change' :
  changelog_entry t change = Ok (t', change') ->
  extends eq t t' /\ rewritten change change'.
Proof.
  unfold changelog_entry. intros Heq. inv_bind Heq as r Hmk.
  destruct r as [[be|] ch].
  - inv_bind Heq as items Hitems. inv_bind Heq as its Hits. inv_bind Heq as t1 Hloop.
    injection Heq as <- <-.
    split; [|eapply rewritten_of_make_event_dict; exact Hmk].
    apply make_event_dict_Some in Hmk.
    destruct Hmk as (_ & _ & ts & _ & _ & _ & _ & _ & Hlt & Hts & _).
    eapply for_items_extends; eassumption.
  - injection Heq as <- <-.
    split; [apply extends_refl; reflexivity|].
    eapply rewritten_of_make_event_dict; exact Hmk.
Qed.

(** The loop body of [parse_comments]. *)
Lemma comment_entry_extends t comment t' comment' :
  comment_entry t comment = Ok (t', comment') ->
  extends eq t t' /\ rewritten comment comment'.
Proof.
  unfold comment_entry. intros Heq. inv_bind Heq as r Hmk.
  destruct r as [[be|] cm].
  - pose proof (rewritten_of_make_event_dict _ _ _ _ Hmk) as Hrw.
    apply make_event_dict_Some in Hmk.
    destruct Hmk as (_ & _ & ts & bc0 & _ & _ & _ & _ & Hlt & Hts & _).
    inv_bind Heq as bc Hbc. inv_bind Heq as ts' Hts'.
    destruct (negb (bc =? ts')); destruct (0 <? last_update t) eqn:Hpos;
      try (injection Heq as <- <-; split;
           [apply extends_refl; reflexivity | exact Hrw]);
      inv_bind Heq as body Hbody; injection Heq as <- <-;
      (split; [|exact Hrw]);
      (eapply extends_append;
       [ exact Hpos
       | repeat rewrite ev_num_set_ne by discriminate; exact Hts
       | exact Hlt ]).
  - injection Heq as <- <-.
    split; [apply extends_refl; reflexivity|].
    eapply rewritten_of_make_event_dict; exact Hmk.
Qed.

(** The loop body of [parse_worklog]. *)
Lemma worklog_entry_extends t worklog t' worklog' :
  worklog_entry t worklog = Ok (t', worklog') ->
  extends eq t t' /\ rewritten worklog worklog'.
Proof.
  unfold worklog_entry. intros Heq. inv_bind Heq as r Hmk.
  destruct r as [[be|] wl].
  - pose proof (rewritten_of_make_event_dict _ _ _ _ Hmk) as Hrw.
    apply make_event_dict_Some in Hmk.
    destruct Hmk as (_ & _ & ts & bc0 & _ & _ & _ & _ & Hlt & Hts & _).
    inv_bind Heq as bc Hbc. inv_bind Heq as ts' Hts'.
    destruct (negb (bc =? ts')); destruct (0 <? last_update t) eqn:Hpos;
      try (injection Heq as <- <-; split;
           [apply extends_refl; reflexivity | exact Hrw]);
      inv_bind Heq as body Hbody; inv_bind Heq as spent Hspent;
      injection Heq as <- <-;
      (split; [|exact Hrw]);
      (eapply extends_append;
       [ exact Hpos
       | repeat rewrite ev_num_set_ne by discriminate; exact Hts
       | exact Hlt ]).
  - injection Heq as <- <-.
    split; [apply extends_refl; reflexivity|].
    eapply rewritten_of_make_event_dict; exact Hmk.
Qed.

Lemma for_entries_extends body :
  (forall t x t' x', body t x = Ok (t', x') -> extends eq t t' /\ rewritten x x') ->
  forall l t t' l',
    for_entries body t l = Ok (t', l') ->
    extends eq t t' /\ Forall2 rewritten l l'.
Proof.
  intros Hbody. induction l as [|x l IH]; simpl; intros t t' l' Heq.
  - injection Heq as <- <-. split; [apply extends_refl; reflexivity | constructor].
  - inv_bind Heq as r1 Hx. destruct r1 as [t1 x'].
    inv_bind Heq as r2 Hl. destruct r2 as [t2 l2].
    injection Heq as <- <-.
    destruct (Hbody _ _ _ _ Hx) as [H1 Hrw].
    destruct (IH _ _ _ Hl) as [H2 Hall].
    split; [eapply extends_eq_trans; eassumption|].
    constructor; assumption.
Qed.

Lemma rewritten_filled e e' : rewritten e e' -> author_filled e e'.
Proof. intros [-> | (d & -> & ->)]; constructor. Qed.

Lemma store_elements_filled elements l l' :
  py_iter elements = Ok l -> Forall2 rewritten l l' ->
  author_filled elements (store_elements l' elements).
Proof.
  intros Hiter Hall. destruct elements; simpl; try apply af_same.
  injection Hiter as ->. apply af_elements.
  eapply Forall2_impl; [exact Hall|]. apply rewritten_filled.
Qed.

Lemma upd_member_filled k f v :
  (forall d x, v = JObj d -> dict_get k d = Some x -> author_filled x (f x)) ->
  author_filled v (upd_member k f v).
Proof.
  intros Hf. destruct v as [| | | | |d]; simpl; try apply af_same.
  destruct (dict_get k d) as [x|] eqn:Hx.
  - rewrite (dict_alter_get_Some _ _ _ _ Hx).
    eapply af_member; [exact Hx|]. eapply Hf; [reflexivity | exact Hx].
  - rewrite (dict_alter_get_None _ _ _ Hx). apply af_same.
Qed.

Lemma py_get_member v k dflt r d x :
  py_get v k dflt = Ok r -> v = JObj d -> dict_get k d = Some x -> r = x.
Proof.
  intros Hget -> Hx. simpl in Hget. rewrite Hx in Hget. simpl in Hget. congruence.
Qed.

Lemma py_getitem_member v k r d x :
  py_getitem v k = Ok r -> v = JObj d -> dict_get k d = Some x -> r = x.
Proof. intros Hget -> Hx. simpl in Hget. rewrite Hx in Hget. congruence. Qed.

Lemma extends_set_json_data t t1 js :
  extends eq t t1 -> author_filled (json_data t) js ->
  extends author_filled t (set_json_data t1 js).
Proof.
  intros [Hk Hl Hj He] Hjs. split; simpl; assumption.
Qed.

Lemma parse_changelog_extends t t' :
  parse_changelog t = Ok t' -> extends author_filled t t'.
Proof.
  unfold parse_changelog. intros Heq.
  inv_bind Heq as cl Hcl. inv_bind Heq as elements Hel. inv_bind Heq as l Hl.
  inv_bind Heq as r Hloop. destruct r as [t1 l']. injection Heq as <-.
  destruct (for_entries_extends _ changelog_entry_extends _ _ _ _ Hloop) as [Hext Hall].
  apply extends_set_json_data; [exact Hext|].
  rewrite <- (ext_json _ _ _ Hext).
  apply upd_member_filled. intros d x Hd Hx.
  rewrite <- (py_get_member _ _ _ _ _ _ Hcl Hd Hx).
  apply upd_member_filled. intros d2 x2 Hd2 Hx2.
  rewrite <- (py_get_member _ _ _ _ _ _ Hel Hd2 Hx2).
  eapply store_elements_filled; eassumption.
Qed.

Lemma parse_comments_extends t t' :
  parse_comments t = Ok t' -> extends author_filled t t'.
Proof.
  unfold parse_comments. intros Heq.
  inv_bind Heq as fields Hfields.
  inv_bind Heq as cm Hcm. inv_bind Heq as elements Hel. inv_bind Heq as l Hl.
  inv_bind Heq as r Hloop. destruct r as [t1 l']. injection Heq as <-.
  destruct (for_entries_extends _ comment_entry_extends _ _ _ _ Hloop) as [Hext Hall].
  apply extends_set_json_data; [exact Hext|].
  rewrite <- (ext_json _ _ _ Hext).
  apply upd_member_filled. intros d0 x0 Hd0 Hx0.
  rewrite <- (py_getitem_member _ _ _ _ _ Hfields Hd0 Hx0).
  apply upd_member_filled. intros d x Hd Hx.
  rewrite <- (py_get_member _ _ _ _ _ _ Hcm Hd Hx).
  apply upd_member_filled. intros d2 x2 Hd2 Hx2.
  rewrite <- (py_get_member _ _ _ _ _ _ Hel Hd2 Hx2).
  eapply store_elements_filled; eassumption.
Qed.

Lemma parse_worklog_extends t t' :
  parse_worklog t = Ok t' -> extends author_filled t t'.
Proof.
  unfold parse_worklog. intros Heq.
  inv_bind Heq as fields Hfields.
  inv_bind Heq as wl Hwl. inv_bind Heq as elements Hel. inv_bind Heq as l Hl.
  inv_bind Heq as r Hloop. destruct r as [t1 l']. injection Heq as <-.
  destruct (for_entries_extends _ worklog_entry_extends _ _ _ _ Hloop) as [Hext Hall].
  apply extends_set_json_data; [exact Hext|].
  rewrite <- (ext_json _ _ _ Hext).
  apply upd_member_filled. intros d0 x0 Hd0 Hx0.
  rewrite <- (py_getitem_member _ _ _ _ _ Hfields Hd0 Hx0).
  apply upd_member_filled. intros d x Hd Hx.
  rewrite <- (py_get_member _ _ _ _ _ _ Hwl Hd Hx).
  apply upd_member_filled. intros d2 x2 Hd2 Hx2.
  rewrite <- (py_get_member _ _ _ _ _ _ Hel Hd2 Hx2).
  eapply store_elements_filled; eassumption.
Qed.

(** The "brand-new issue" branch seeds the store with the creation time
    and appends one [create] event. *)
Lemma create_event_inv UPDATES t UPDATES1 t1 :
  create_event UPDATES t = Ok (UPDATES1, t1) ->
  exists hk ev,
    py_hash (key t) = Ok hk /\
    UPDATES1 = <[hk := created t]> UPDATES /\
    key t1 = key t /\ last_update t1 = last_update t /\
    events t1 = events t ++ [ev] /\
    dict_get "action" ev = Some (JStr "create") /\
    fresh_event (last_update t) ev /\
    author_filled (json_data t) (json_data t1).
Proof.
  unfold create_event. intros Heq.
  inv_bind Heq as hk Hhk. inv_bind Heq as fields Hfields.
  inv_bind Heq as r Hmk. destruct r as [[be|] fields']; [|discriminate].
  inv_bind Heq as fields2 Hfields2. inv_bind Heq as description Hdesc.
  injection Heq as <- <-.
  pose proof (rewritten_of_make_event_dict _ _ _ _ Hmk) as Hrw.
  apply make_event_dict_Some in Hmk.
  destruct Hmk as (_ & _ & ts & _ & _ & _ & _ & _ & Hlt & Hts & _).
  exists hk. eexists. repeat split; try reflexivity; try exact Hhk.
  - simpl. dict_simpl. reflexivity.
  - exists ts. split; [|exact Hlt].
    repeat rewrite ev_num_set_ne by discriminate. exact Hts.
  - simpl. apply upd_member_filled. intros d x Hd Hx.
    rewrite <- (py_getitem_member _ _ _ _ _ Hfields Hd Hx).
    apply rewritten_filled. exact Hrw.
Qed.

End Pass.

Section Advance.
Context `{B : Builtins}.
Variable LAUNCH_TIME : Z.

Lemma JiraTicket_init_inv cfg UPDATES issue t :
  JiraTicket_init LAUNCH_TIME cfg UPDATES issue = Ok t ->
  exists k hk,
    py_getitem issue "key" = Ok k /\ py_hash k = Ok hk /\
    key t = k /\ last_update t = watermark LAUNCH_TIME UPDATES hk /\
    events t = [] /\ json_data t = issue.
Proof.
  unfold JiraTicket_init. intros Heq.
  inv_bind Heq as k Hk. inv_bind Heq as fields Hfields. inv_bind Heq as summ Hsumm.
  inv_bind Heq as fields' Hfields'. inv_bind Heq as c Hc. inv_bind Heq as cr Hcr.
  inv_bind Heq as hk Hhk. injection Heq as <-.
  exists k, hk. repeat split; assumption.
Qed.

Lemma post_events_events cfg evs posted :
  post_events cfg evs = Ok posted -> map snd posted = evs.
Proof.
  revert posted. induction evs as [|ev evs IH]; simpl; intros posted Heq.
  - injection Heq as <-. reflexivity.
  - inv_bind Heq as target Htarget. inv_bind Heq as rest Hrest.
    injection Heq as <-. simpl. rewrite (IH _ Hrest). reflexivity.
Qed.

Lemma timestamps_fresh w evs ts :
  Forall (fresh_event w) evs -> timestamps evs = Ok ts -> Forall (Z.lt w) ts.
Proof.
  intros Hall. revert ts. induction Hall as [|ev evs (x & Hx & Hlt) _ IH]; simpl; intros ts Heq.
  - injection Heq as <-. constructor.
  - rewrite Hx in Heq. simpl in Heq. inv_bind Heq as xs Hxs.
    injection Heq as <-. constructor; [exact Hlt | apply IH; exact Hxs].
Qed.

Lemma foldl_max_spec l : forall x,
  (foldl Z.max x l = x \/ foldl Z.max x l ∈ l) /\
  x <= foldl Z.max x l /\
  Forall (fun y => y <= foldl Z.max x l) l.
Proof.
  induction l as [|y l IH]; simpl; intros x.
  - split; [left; reflexivity|]. split; [lia | constructor].
  - destruct (IH (Z.max x y)) as (Hin & Hle & Hall).
    split; [|split].
    + destruct Hin as [Heq | Hin].
      * rewrite Heq. destruct (Z.max_spec x y) as [[_ ->] | [_ ->]].
        -- right. left.
        -- left. reflexivity.
      * right. right. exact Hin.
    + lia.
    + constructor; [lia | exact Hall].
Qed.

(** [max] returns an element of the list that bounds all of them. *)
Lemma py_max_spec ts m :
  py_max ts = Ok m -> m ∈ ts /\ Forall (fun y => y <= m) ts.
Proof.
  destruct ts as [|x l]; simpl; [discriminate|]. intros [= <-].
  destruct (foldl_max_spec l x) as (Hin & Hle & Hall). split.
  - destruct Hin as [-> | Hin]; [left | right; exact Hin].
  - constructor; assumption.
Qed.

(** ... and so does not depend on the order of the list. *)
Lemma py_max_perm ts ts' m :
  py_max ts = Ok m -> ts' ≡ₚ ts -> py_max ts' = Ok m.
Proof.
  intros Hmax Hperm.
  destruct (py_max_spec _ _ Hmax) as [Hin Hall].
  destruct (py_max ts') as [m'|e] eqn:Hmax'.
  - destruct (py_max_spec _ _ Hmax') as [Hin' Hall'].
    rewrite Forall_forall in Hall, Hall'.
    f_equal. apply Z.le_antisymm.
    + apply Hall. rewrite <- Hperm. exact Hin'.
    + apply Hall'. rewrite Hperm. exact Hin.
  - destruct ts'; [|discriminate Hmax'].
    apply Permutation_nil in Hperm. subst ts. discriminate Hmax.
Qed.

(** The course of a completed pass: the ticket [t0] as constructed, the
    store [UPDATES1] and the ticket [t1] after the "brand-new issue" test,
    the ticket [t4] after the three parsers. *)
Lemma process_issue_inv cfg now UPDATES issue UPDATES' posted issue' :
  process_issue LAUNCH_TIME cfg now UPDATES issue = Ok (UPDATES', posted, issue') ->
  exists k hk t0 UPDATES1 t1 t4,
    py_getitem issue "key" = Ok k /\ py_hash k = Ok hk /\
    JiraTicket_init LAUNCH_TIME cfg UPDATES issue = Ok t0 /\
    last_update t0 = watermark LAUNCH_TIME UPDATES hk /\
    key t1 = k /\ last_update t1 = last_update t0 /\
    ((UPDATES1 = UPDATES /\ events t1 = [] /\ json_data t1 = issue) \/
     (last_update t0 = 0 /\
      exists ev,
        UPDATES1 = <[hk := created t0]> UPDATES /\
        events t1 = [ev] /\
        dict_get "action" ev = Some (JStr "create") /\
        author_filled issue (json_data t1))) /\
    extends author_filled t1 t4 /\
    map snd posted = events t4 /\ issue' = json_data t4 /\
    match events t4 with
    | [] => UPDATES' = UPDATES1
    | _ => exists ts m,
             timestamps (events t4) = Ok ts /\ py_max ts = Ok m /\
             UPDATES' = <[hk := m]> UPDATES1
    end.
Proof.
  unfold process_issue. intros Heq.
  inv_bind Heq as t0 Hinit. inv_bind Heq as r Hcreate. destruct r as [UPDATES1 t1].
  inv_bind Heq as t2 Hchangelog. inv_bind Heq as t3 Hcomments.
  inv_bind Heq as t4 Hworklog. inv_bind Heq as UPDATES2 Hstore.
  inv_bind Heq as posted0 Hposted. injection Heq as <- <- <-.
  destruct (JiraTicket_init_inv _ _ _ _ Hinit) as (k & hk & Hk & Hhk & Hkey & Hlast & Hevs & Hjs).
  assert (Hext : extends author_filled t1 t4).
  { eapply extends_filled_trans; [apply parse_changelog_extends; exact Hchangelog|].
    eapply extends_filled_trans; [apply parse_comments_extends; exact Hcomments|].
    apply parse_worklog_extends; exact Hworklog. }
  assert (Hmid : key t1 = k /\ last_update t1 = last_update t0 /\
    ((UPDATES1 = UPDATES /\ events t1 = [] /\ json_data t1 = issue) \/
     (last_update t0 = 0 /\
      exists ev,
        UPDATES1 = <[hk := created t0]> UPDATES /\
        events t1 = [ev] /\
        dict_get "action" ev = Some (JStr "create") /\
        author_filled issue (json_data t1)))).
  { destruct ((last_update t0 =? 0) && (timedelta_seconds (now - created t0) <=? 30))
      eqn:Hcond.
    - apply andb_true_iff in Hcond. destruct Hcond as [Hzero _].
      apply Z.eqb_eq in Hzero.
      apply create_event_inv in Hcreate.
      destruct Hcreate as (hk' & ev & Hhk' & -> & Hk1 & Hl1 & He1 & Hact & _ & Hfill).
      rewrite Hkey, Hhk in Hhk'. injection Hhk' as <-.
      split; [congruence|]. split; [exact Hl1|]. right.
      split; [exact Hzero|]. exists ev.
      rewrite Hevs in He1. rewrite Hjs in Hfill. repeat split; assumption.
    - injection Hcreate as <- <-.
      split; [exact Hkey|]. split; [reflexivity|]. left. repeat split; assumption. }
  destruct Hmid as (Hk1 & Hl1 & Hmid).
  apply post_events_events in Hposted.
  exists k, hk, t0, UPDATES1, t1, t4.
  do 7 (split; [assumption|]).
  split; [exact Hext|]. split; [exact Hposted|]. split; [reflexivity|].
  - destruct (events t4) as [|ev0 evs0] eqn:He4.
    + injection Hstore as <-. reflexivity.
    + inv_bind Hstore as ts Hts. inv_bind Hstore as m Hm. inv_bind Hstore as hk' Hhk'.
      injection Hstore as <-.
      rewrite (ext_key _ _ _ Hext), Hk1, Hhk in Hhk'. injection Hhk' as <-.
      exists ts, m. repeat split; assumption.
Qed.

(** C3. When a pass produced events, the store afterwards is the store
    before with the watermark of the issue set to the largest timestamp
    among these events, whatever the order in which they came; when it
    produced none, the store is as it was. *)
Theorem watermark_advance cfg now UPDATES issue UPDATES' posted issue' :
  process_issue LAUNCH_TIME cfg now UPDATES issue = Ok (UPDATES', posted, issue') ->
  (posted = [] -> UPDATES' = UPDATES) /\
  (posted <> [] ->
   exists k hk ts m,
     py_getitem issue "key" = Ok k /\ py_hash k = Ok hk /\
     timestamps (map snd posted) = Ok ts /\
     m ∈ ts /\ Forall (fun x => x <= m) ts /\
     UPDATES' = <[hk := m]> UPDATES /\
     forall ts', ts' ≡ₚ ts -> py_max ts' = Ok m).
Proof.
  intros Hrun. apply process_issue_inv in Hrun.
  destruct Hrun as (k & hk & t0 & UPDATES1 & t1 & t4 & Hk & Hhk & _ & _ & _ & _
                    & Hmid & Hext & Hposted & _ & Hstore).
  destruct (ext_events _ _ _ Hext) as (extra & Hevs & _ & _).
  split.
  - intros ->. simpl in Hposted. rewrite <- Hposted in Hstore, Hevs.
    symmetry in Hevs. apply app_eq_nil in Hevs. destruct Hevs as [He1 _].
    destruct Hmid as [(-> & _) | (_ & ev & _ & He1' & _)]; [exact Hstore|].
    rewrite He1 in He1'. discriminate He1'.
  - intros Hne. rewrite Hposted.
    destruct (events t4) as [|ev0 evs0] eqn:He4.
    { destruct posted; [contradiction | discriminate Hposted]. }
    destruct Hstore as (ts & m & Hts & Hm & ->).
    destruct (py_max_spec _ _ Hm) as [Hin Hall].
    exists k, hk, ts, m. repeat split; try assumption.
    + destruct Hmid as [(-> & _) | (_ & ev & -> & _)]; [reflexivity|].
      apply insert_insert_eq.
    + intros ts' Hperm. eapply py_max_perm; eassumption.
Qed.

(** A completed pass keeps the stored watermarks after the epoch and
    lowers none of them. *)
Lemma process_issue_step cfg now UPDATES issue UPDATES' posted issue' :
  0 < LAUNCH_TIME -> store_ok UPDATES ->
  process_issue LAUNCH_TIME cfg now UPDATES issue = Ok (UPDATES', posted, issue') ->
  store_ok UPDATES' /\
  forall k,
    watermark LAUNCH_TIME UPDATES k <= watermark LAUNCH_TIME UPDATES' k /\
    (forall v, UPDATES !! k = Some v ->
     exists v', UPDATES' !! k = Some v' /\ v <= v').
Proof.
  intros Hlaunch Hok Hrun. apply process_issue_inv in Hrun.
  destruct Hrun as (k & hk & t0 & UPDATES1 & t1 & t4 & _ & _ & _ & Hlast & _ & Hl1
                    & Hmid & Hext & _ & _ & Hstore).
  assert (Hpos : 0 < watermark LAUNCH_TIME UPDATES hk).
  { unfold watermark. destruct (UPDATES !! hk) as [v|] eqn:Hv; simpl.
    - eapply Hok; exact Hv.
    - exact Hlaunch. }
  destruct Hmid as [(-> & He1 & _) | (Hzero & _)]; [|lia].
  destruct (ext_events _ _ _ Hext) as (extra & Hevs & Hfresh & _).
  rewrite He1 in Hevs. simpl in Hevs. rewrite Hl1, Hlast in Hfresh.
  destruct (events t4) as [|ev0 evs0] eqn:He4.
  - subst UPDATES'. split; [exact Hok|].
    intros k0. split; [lia|]. intros v Hv. exists v. split; [exact Hv | lia].
  - destruct Hstore as (ts & m & Hts & Hm & ->).
    rewrite Hevs in Hts.
    pose proof (timestamps_fresh _ _ _ Hfresh Hts) as Hall.
    destruct (py_max_spec _ _ Hm) as [Hin _].
    rewrite Forall_forall in Hall. specialize (Hall _ Hin).
    split.
    + intros k0 v. rewrite lookup_insert. case_decide.
      * intros [= <-]. lia.
      * apply Hok.
    + intros k0. unfold watermark in *. rewrite lookup_insert. case_decide.
      * subst k0. simpl. split; [lia|].
        intros v Hv. rewrite Hv in Hall. simpl in Hall.
        exists m. split; [reflexivity | lia].
      * split; [lia|]. intros v Hv. exists v. split; [exact Hv | lia].
Qed.

Lemma reachable_store_ok UPDATES :
  0 < LAUNCH_TIME -> reachable LAUNCH_TIME UPDATES -> store_ok UPDATES.
Proof.
  intros Hlaunch Hreach. induction Hreach as [|cfg now U issue U' posted issue' _ IH Hrun].
  - intros k v Hv. rewrite lookup_empty in Hv. discriminate Hv.
  - eapply process_issue_step; eassumption.
Qed.

(** When the bridge is launched after the epoch, the test of line 249,
    "is this a brand-new issue?", fails for every issue in every store the
    bridge can be in. *)
Lemma brand_new_test_never_holds cfg now UPDATES issue t :
  0 < LAUNCH_TIME -> reachable LAUNCH_TIME UPDATES ->
  JiraTicket_init LAUNCH_TIME cfg UPDATES issue = Ok t ->
  (last_update t =? 0) && (timedelta_seconds (now - created t) <=? 30) = false.
Proof.
  intros Hlaunch Hreach Hinit.
  destruct (JiraTicket_init_inv _ _ _ _ Hinit) as (k & hk & _ & _ & _ & Hlast & _).
  pose proof (reachable_store_ok _ Hlaunch Hreach) as Hok.
  assert (Hpos : 0 < last_update t).
  { rewrite Hlast. unfold watermark. destruct (UPDATES !! hk) as [v|] eqn:Hv; simpl.
    - eapply Hok; exact Hv.
    - exact Hlaunch. }
  apply andb_false_iff. left. apply Z.eqb_neq. lia.
Qed.

(** C5. The bridge is launched after the epoch. From any store it can be
    in, a completed pass leaves for every identifier a watermark at least
    as large as before, and a stored value at least as large as the value
    it replaces. *)
Theorem watermark_monotone cfg now UPDATES issue UPDATES' posted issue' :
  0 < LAUNCH_TIME -> reachable LAUNCH_TIME UPDATES ->
  process_issue LAUNCH_TIME cfg now UPDATES issue = Ok (UPDATES', posted, issue') ->
  forall k,
    watermark LAUNCH_TIME UPDATES k <= watermark LAUNCH_TIME UPDATES' k /\
    (forall v, UPDATES !! k = Some v ->
     exists v', UPDATES' !! k = Some v' /\ v <= v').
Proof.
  intros Hlaunch Hreach Hrun.
  eapply process_issue_step; [exact Hlaunch | | exact Hrun].
  apply reachable_store_ok; assumption.
Qed.

End Advance.

(** ** The snapshot *)



Section Snapshot.
Context `{B : Builtins}.
Variable LAUNCH_TIME : Z.


Lemma malformed_snapshot_raises cfg UPDATES d :
  malformed_snapshot d ->
  exists e, JiraTicket_init LAUNCH_TIME cfg UPDATES (JObj d) = Raise e.
Proof.
  unfold JiraTicket_init. simpl.
  intros [Hkey | [Hfields | (fields & Hfields & Hcreated)]].
  - rewrite Hkey. eexists. reflexivity.
  - rewrite Hfields. destruct (dict_get "key" d); eexists; reflexivity.
  - rewrite Hfields. destruct (dict_get "key" d) as [k|]; simpl; [|eexists; reflexivity].
    destruct Hcreated as [Hc | (s & Hc & Hs)]; rewrite Hc; simpl.
    + eexists. reflexivity.
    + rewrite Hs. eexists. reflexivity.
Qed.

Lemma process_changes_aborts cfg now issue changes :
  (forall UPDATES, exists e, JiraTicket_init LAUNCH_TIME cfg UPDATES issue = Raise e) ->
  issue ∈ changes ->
  forall UPDATES, exists e, process_changes LAUNCH_TIME cfg now UPDATES changes = Raise e.
Proof.
  intros Hbad Hin. induction Hin as [issue changes | issue other changes Hin IH];
    intros UPDATES; simpl.
  - unfold process_issue. destruct (Hbad UPDATES) as (e & ->). exists e. reflexivity.
  - destruct (process_issue LAUNCH_TIME cfg now UPDATES other) as [[[U1 posted] other']|e].
    + simpl. destruct (IH Hbad U1) as (e & ->). exists e. reflexivity.
    + exists e. reflexivity.
Qed.

(** C10. A sub-record without a creation time is passed over by each of
    the three parsers, with no event and no error, whereas one whose
    effective time is not a timestamp makes them raise. A snapshot without key,
    without fields, without creation time, or whose creation time is not a
    timestamp, makes [process_changes] raise, whatever its place among the
    changes, and the exception ends the poll cycle. *)
Theorem malformed_input_tolerance :
  (forall t entry,
     dict_get "created" entry = None ->
     changelog_entry t (JObj entry) = Ok (t, JObj entry) /\
     comment_entry t (JObj entry) = Ok (t, JObj entry) /\
     worklog_entry t (JObj entry) = Ok (t, JObj entry)) /\
  (forall t entry c s,
     dict_get "created" entry = Some c ->
     default c (dict_get "updated" entry) = JStr s -> strptime s = None ->
     changelog_entry t (JObj entry) = Raise ValueError /\
     comment_entry t (JObj entry) = Raise ValueError /\
     worklog_entry t (JObj entry) = Raise ValueError) /\
  (forall cfg now UPDATES d changes,
     malformed_snapshot d -> JObj d ∈ changes ->
     exists e,
       process_changes LAUNCH_TIME cfg now UPDATES changes = Raise e /\
       poll_cycle LAUNCH_TIME cfg now UPDATES
         (Body (JObj [("issues", JArr changes)])) = Raise e).
Proof.
  split; [|split].
  - intros t entry Hc.
    unfold changelog_entry, comment_entry, worklog_entry.
    rewrite (make_event_dict_no_created t entry Hc). repeat split.
  - intros t entry c s Hc Heff Hs.
    assert (Hmk : make_event_dict t (JObj entry) = Raise ValueError).
    { unfold make_event_dict, py_contains, dict_has. simpl.
      rewrite Hc. simpl. rewrite Heff. simpl. rewrite Hs. reflexivity. }
    unfold changelog_entry, comment_entry, worklog_entry.
    rewrite Hmk. repeat split.
  - intros cfg now UPDATES d changes Hbad Hin.
    destruct (process_changes_aborts cfg now (JObj d) changes) with (UPDATES := UPDATES)
      as (e & He); [|exact Hin|].
    + intros U. apply malformed_snapshot_raises. exact Hbad.
    + exists e. split; [exact He|]. unfold poll_cycle. simpl. exact He.
Qed.

End Snapshot.

(** ** The properties on the sample tickets *)

(** The pass over INFRA-3 completes. *)
Lemma resolution_issue_run :
  { r | process_issue (B:=Py.builtins) Sample.launch Sample.cfg Sample.now ∅
          Sample.resolution_issue = Ok r }.
Proof. eexists. vm_compute. reflexivity. Defined.

Lemma watermark_advance_witness :
  exists UPDATES' posted issue',
    process_issue (B:=Py.builtins) Sample.launch Sample.cfg Sample.now ∅
      Sample.resolution_issue = Ok (UPDATES', posted, issue') /\
    timestamps (map snd posted)
    = Ok [1700000010000000; 1700000025000000; 1700000017000000] /\
    UPDATES' = <[inl "INFRA-3" := 1700000025000000]> ∅.
Proof.
  destruct resolution_issue_run as [[[UPDATES' posted] issue'] Hrun].
  pose proof Hrun as Hval. vm_compute in Hval.
  assert (Hts : timestamps (map snd posted)
                = Ok [1700000010000000; 1700000025000000; 1700000017000000]).
  { injection Hval as _ <- _. reflexivity. }
  assert (Hne : posted <> []).
  { intros ->. discriminate Hts. }
  destruct (proj2 (watermark_advance (B:=Py.builtins) Sample.launch _ _ _ _ _ _ _ Hrun) Hne)
    as (k & hk & ts & m & Hk & Hhk & Hts' & Hin & Hall & HU & _).
  injection Hk as <-. injection Hhk as <-.
  rewrite Hts in Hts'. injection Hts' as <-.
  assert (Hm : m = 1700000025000000).
  { rewrite Forall_forall in Hall.
    assert (H25 : 1700000025000000 <= m).
    { apply Hall, list_elem_of_In. simpl. auto. }
    apply list_elem_of_In in Hin. simpl in Hin. lia. }
  subst m.
  exists UPDATES', posted, issue'.
  split; [exact Hrun|]. split; [exact Hts | exact HU].
Defined.

Lemma watermark_monotone_witness :
  exists UPDATES' posted issue',
    process_issue (B:=Py.builtins) Sample.launch Sample.cfg Sample.now ∅
      Sample.resolution_issue = Ok (UPDATES', posted, issue') /\
    forall k,
      watermark Sample.launch ∅ k <= watermark Sample.launch UPDATES' k /\
      (forall v, (∅ : gmap hkey Z) !! k = Some v ->
       exists v', UPDATES' !! k = Some v' /\ v <= v').
Proof.
  destruct resolution_issue_run as [[[UPDATES' posted] issue'] Hrun].
  exists UPDATES', posted, issue'. split; [exact Hrun|].
  apply (watermark_monotone (B:=Py.builtins) Sample.launch Sample.cfg Sample.now ∅
           Sample.resolution_issue UPDATES' posted issue').
  - reflexivity.
  - apply reach_start.
  - exact Hrun.
Defined.



Lemma malformed_input_tolerance_witness :
  changelog_entry (B:=Py.builtins) Sample.ticket (JObj [("id", JStr "7")])
  = Ok (Sample.ticket, JObj [("id", JStr "7")]) /\
  comment_entry (B:=Py.builtins) Sample.ticket (JObj [("created", JStr "yesterday")])
  = Raise ValueError /\
  exists e,
    process_changes (B:=Py.builtins) Sample.launch Sample.cfg Sample.now ∅
      [Sample.status_issue; Sample.bare_issue] = Raise e.
Proof.
  destruct (malformed_input_tolerance (B:=Py.builtins) Sample.launch)
    as (Hsub & Htime & Hsnap).
  split; [|split].
  - apply (Hsub Sample.ticket [("id", JStr "7")]). reflexivity.
  - apply (Htime Sample.ticket [("created", JStr "yesterday")]
             (JStr "yesterday") "yesterday"); reflexivity.
  - destruct (Hsnap Sample.cfg Sample.now ∅ [("key", JStr "INFRA-5")]
                [Sample.status_issue; Sample.bare_issue]) as (e & He & _).
    + right. left. reflexivity.
    + right. left.
    + exists e. exact He.
Defined.

(** * Further properties of the classifier *)

Section Records.
Context `{B : Builtins}.

Lemma fill_author_other k d :
  k <> "author" -> dict_get k (fill_author d) = dict_get k d.
Proof.
  intros Hne. unfold fill_author.
  destruct (dict_get "author" d); [reflexivity|].
  destruct (dict_get "creator" d); [|reflexivity].
  apply dict_get_set_ne. congruence.
Qed.

(** X1. The actor of an event is read from the [author] of the entry, from
    its [creator] when it has no author, and is "??" twice when it has
    neither; a name or an id the actor object lacks is "??" as well. *)
Theorem make_event_dict_author (t : JiraTicket) (d : dict) (ev : dict) (e' : json) :
  make_event_dict t (JObj d) = Ok (Some ev, e') ->
  match dict_get "author" d, dict_get "creator" d with
  | Some a, _ => names_author a ev
  | None, Some c => names_author c ev
  | None, None =>
      dict_get "author" ev = Some (JStr "??") /\
      dict_get "author_uid" ev = Some (JStr "??")
  end.
Proof.
  unfold make_event_dict. intros Heq. inv_bind Heq as has Hhas.
  destruct (negb has); [discriminate|].
  inv_bind Heq as c Hc. inv_bind Heq as ts Hts.
  destruct (ts <=? last_update t); [discriminate|].
  inv_bind Heq as au Hau. destruct au as [author_name author_uid].
  inv_bind Heq as pr Hpr. inv_bind Heq as c' Hc'. inv_bind Heq as bc Hbc.
  injection Heq as <- <-.
  assert (Hnamed : forall a, dict_get "author" (fill_author d) = Some a ->
                             names_author a
                               [("key", key t); ("link", JStr (link t));
                                ("summary", summary t); ("project", JStr pr);
                                ("action", JStr "unknown"); ("author", author_name);
                                ("author_uid", author_uid); ("timestamp", JNum ts);
                                ("base_entry_created", JNum bc)]).
  { intros a Ha. rewrite Ha in Hau.
    inv_bind Hau as n Hn. inv_bind Hau as u Hu. injection Hau as <- <-.
    destruct a as [| | | | |o]; try discriminate Hn.
    injection Hn as <-. injection Hu as <-.
    exists o. repeat split. }
  unfold fill_author in Hau, Hnamed.
  destruct (dict_get "author" d) as [a|] eqn:Ha.
  - apply Hnamed. exact Ha.
  - destruct (dict_get "creator" d) as [cr|] eqn:Hcr.
    + apply Hnamed. apply dict_get_set_eq.
    + rewrite Ha in Hau. injection Hau as <- <-. split; reflexivity.
Qed.

Lemma prefix_dash c s : String.prefix "-" (String c s) = Ascii.eqb c "-".
Proof.
  change (String.prefix "-" (String c s))
    with (match ascii_dec "-" c with
          | left _ => String.prefix EmptyString s
          | right _ => false
          end).
  destruct (ascii_dec "-" c) as [<-|Hne].
  - destruct s; reflexivity.
  - symmetry. apply Ascii.eqb_neq. congruence.
Qed.

Lemma str_contains_cons n c s :
  str_contains n (String c s) = String.prefix n (String c s) || str_contains n s.
Proof. reflexivity. Qed.

Lemma before_dash_no_dash s : str_contains "-" (before_dash s) = false.
Proof.
  induction s as [|c s IH]; [reflexivity|].
  cbn [before_dash]. destruct (Ascii.eqb c "-") eqn:Hc; [reflexivity|].
  rewrite str_contains_cons, prefix_dash, Hc, IH. reflexivity.
Qed.

Lemma before_dash_split s :
  s = before_dash s \/ exists rest, s = before_dash s +:+ "-" +:+ rest.
Proof.
  induction s as [|c s IH]; simpl; [left; reflexivity|].
  destruct (Ascii.eqb c "-") eqn:Hc.
  - apply Ascii.eqb_eq in Hc. subst c. right. exists s. reflexivity.
  - destruct IH as [IH | (rest & IH)].
    + left. f_equal. exact IH.
    + right. exists rest.
      change (String c s = String c (before_dash s +:+ "-" +:+ rest)).
      f_equal. exact IH.
Qed.

(** X2. The project of an event is the part of the ticket key before its
    first dash: it holds no dash, and the key is the project alone or the
    project, a dash and a rest. An event is built only for a key that is a
    string. *)
Theorem make_event_dict_project (t : JiraTicket) (e : json) (ev : dict) (e' : json) :
  make_event_dict t e = Ok (Some ev, e') ->
  exists s p,
    key t = JStr s /\
    dict_get "project" ev = Some (JStr p) /\
    str_contains "-" p = false /\
    (s = p \/ exists rest, s = p +:+ "-" +:+ rest).
Proof.
  unfold make_event_dict. intros Heq. inv_bind Heq as has Hhas.
  destruct (negb has); [discriminate|].
  destruct e as [| | | | |d]; try discriminate.
  inv_bind Heq as c Hc. inv_bind Heq as ts Hts.
  destruct (ts <=? last_update t); [discriminate|].
  inv_bind Heq as au Hau. destruct au as [author_name author_uid].
  inv_bind Heq as pr Hpr. inv_bind Heq as c' Hc'. inv_bind Heq as bc Hbc.
  injection Heq as <- <-.
  destruct (key t) as [| | |s| |] eqn:Hkey; try discriminate Hpr.
  injection Hpr as <-.
  exists s, (before_dash s).
  split; [reflexivity|]. split; [reflexivity|].
  split; [apply before_dash_no_dash | apply before_dash_split].
Qed.

Lemma make_event_dict_times t d be e' :
  make_event_dict t (JObj d) = Ok (Some be, e') ->
  exists c bc eff,
    dict_get "created" d = Some c /\
    jira_to_datetime c = Ok bc /\
    jira_to_datetime (default c (dict_get "updated" d)) = Ok eff /\
    last_update t < eff /\
    ev_num "timestamp" be = Ok eff /\
    ev_num "base_entry_created" be = Ok bc /\
    e' = JObj (fill_author d).
Proof.
  unfold make_event_dict. intros Heq. inv_bind Heq as has Hhas.
  destruct (negb has); [discriminate|].
  inv_bind Heq as c Hc. inv_bind Heq as ts Hts.
  destruct (ts <=? last_update t) eqn:Hle; [discriminate|].
  inv_bind Heq as au Hau. destruct au as [author_name author_uid].
  inv_bind Heq as pr Hpr. inv_bind Heq as c' Hc'. inv_bind Heq as bc Hbc.
  injection Heq as <- <-. apply Z.leb_gt in Hle.
  simpl in Hc, Hc'. rewrite fill_author_created in Hc'.
  destruct (dict_get "created" d) as [c0|] eqn:Hcd; [|discriminate].
  injection Hc as <-. injection Hc' as <-.
  exists c0, bc, ts. repeat split; assumption.
Qed.

(** The body of the inner loop on an item for the status, the summary or
    the description, [be] being the event under construction. *)
Lemma field_change_event (be : dict) (t : JiraTicket) (it : dict) (f : string) :
  0 < last_update t ->
  dict_get "field" it = Some (JStr f) ->
  f = "status" \/ f = "summary" \/ f = "description" ->
  exists ev,
    changelog_item be t (JObj it) = Ok (set_events t (events t ++ [ev])) /\
    dict_get "action" ev = Some (JStr f) /\
    dict_get "from" ev = Some (default (JStr EmptyString) (dict_get "fromString" it)) /\
    dict_get "to" ev = Some (default JNull (dict_get "toString" it)) /\
    dict_get "action_human_text" ev
    = Some (JStr ("changed the " +:+ f +:+ " of <" +:+ link t +:+ "|"
                  +:+ fstr (key t) +:+ ">"
                  +:+ (if String.eqb f "status"
                       then " to *" +:+ fstr (default JNull (dict_get "toString" it))
                            +:+ "*."
                       else EmptyString))) /\
    dict_get "timestamp" ev = dict_get "timestamp" be.
Proof.
  intros Hpos Hfield Hf. apply Z.ltb_lt in Hpos.
  unfold changelog_item. rewrite Hfield.
  destruct Hf as [-> | [-> | ->]]; simpl; rewrite Hpos;
    (eexists; split; [reflexivity|]); dict_simpl; repeat split.
Qed.


Lemma is_str_false f v : v <> JStr f -> is_str f v = false.
Proof.
  intros Hne. destruct v as [| | |s| |]; try reflexivity.
  simpl. apply String.eqb_neq. congruence.
Qed.

(** X5. An item for any other field, or without a field name, appends no
    event and raises nothing, whatever the watermark. *)
Theorem unreported_field_no_event (be : dict) (t : JiraTicket) (it : dict) :
  (forall f, f ∈ reported_fields -> dict_get "field" it <> Some (JStr f)) ->
  changelog_item be t (JObj it) = Ok t.
Proof.
  intros Hother.
  assert (Hno : forall f, f ∈ reported_fields ->
                          is_str f (default JNull (dict_get "field" it)) = false).
  { intros f Hf. apply is_str_false. specialize (Hother f Hf).
    destruct (dict_get "field" it); simpl; congruence. }
  unfold changelog_item.
  rewrite !Hno by (apply list_elem_of_In; simpl; auto 10).
  reflexivity.
Qed.

(** The body of the loop of [parse_comments] on a comment that
    qualifies. *)
Lemma comment_event (t : JiraTicket) (d : dict) (be : dict) (e' body : json) :
  0 < last_update t ->
  make_event_dict t (JObj d) = Ok (Some be, e') ->
  dict_get "body" d = Some body ->
  exists ev c bc eff,
    comment_entry t (JObj d)
    = Ok (set_events t (events t ++ [ev]), JObj (fill_author d)) /\
    dict_get "created" d = Some c /\
    jira_to_datetime c = Ok bc /\
    jira_to_datetime (default c (dict_get "updated" d)) = Ok eff /\
    dict_get "body" ev = Some body /\
    dict_get "timestamp" ev = Some (JNum eff) /\
    dict_get "action" ev
    = Some (JStr (if bc =? eff then "comment" else "comment_edit")) /\
    dict_get "action_human_text" ev
    = Some (JStr (if bc =? eff then "added a comment" else "edited a comment")).
Proof.
  intros Hpos Hmk Hbody. apply Z.ltb_lt in Hpos.
  destruct (make_event_dict_times _ _ _ _ Hmk)
    as (c & bc & eff & Hc & Hbc & Heff & Hlt & Hts & Hcr & ->).
  assert (Hstamp : dict_get "timestamp" be = Some (JNum eff)).
  { unfold ev_num in Hts. destruct (dict_get "timestamp" be) as [[| |n| | |]|];
      try discriminate Hts. injection Hts as <-. reflexivity. }
  unfold comment_entry. rewrite Hmk. cbn. rewrite Hcr, Hts. cbn.
  rewrite Hpos. rewrite (fill_author_other "body") by discriminate.
  rewrite Hbody.
  destruct (bc =? eff) eqn:Hsame; cbn;
    (eexists; exists c, bc, eff; split; [reflexivity|]);
    rewrite Hsame; dict_simpl; repeat split; assumption.
Qed.

(** The body of the loop of [parse_worklog] on a worklog entry that
    qualifies. *)
Lemma worklog_event (t : JiraTicket) (d : dict) (be : dict) (e' body spent : json) :
  0 < last_update t ->
  make_event_dict t (JObj d) = Ok (Some be, e') ->
  dict_get "comment" d = Some body ->
  dict_get "timeSpentSeconds" d = Some spent ->
  exists ev c bc eff,
    worklog_entry t (JObj d)
    = Ok (set_events t (events t ++ [ev]), JObj (fill_author d)) /\
    dict_get "created" d = Some c /\
    jira_to_datetime c = Ok bc /\
    jira_to_datetime (default c (dict_get "updated" d)) = Ok eff /\
    dict_get "body" ev = Some body /\
    dict_get "timespent" ev = Some spent /\
    dict_get "timestamp" ev = Some (JNum eff) /\
    dict_get "action" ev
    = Some (JStr (if bc =? eff then "comment" else "comment_edit")) /\
    dict_get "action_human_text" ev
    = Some (JStr (if bc =? eff then "added a worklog entry"
                  else "edited a worklog entry")).
Proof.
  intros Hpos Hmk Hbody Hspent. apply Z.ltb_lt in Hpos.
  destruct (make_event_dict_times _ _ _ _ Hmk)
    as (c & bc & eff & Hc & Hbc & Heff & Hlt & Hts & Hcr & ->).
  assert (Hstamp : dict_get "timestamp" be = Some (JNum eff)).
  { unfold ev_num in Hts. destruct (dict_get "timestamp" be) as [[| |n| | |]|];
      try discriminate Hts. injection Hts as <-. reflexivity. }
  unfold worklog_entry. rewrite Hmk. cbn. rewrite Hcr, Hts. cbn.
  rewrite Hpos.
  rewrite (fill_author_other "comment"), (fill_author_other "timeSpentSeconds")
    by discriminate.
  rewrite Hbody, Hspent.
  destruct (bc =? eff) eqn:Hsame; cbn;
    (eexists; exists c, bc, eff; split; [reflexivity|]);
    rewrite Hsame; dict_simpl; repeat split; assumption.
Qed.

(** X8. A record that qualifies but lacks what its parser reads makes the
    pass raise [KeyError]: a history entry without items, and, on a ticket
    with a positive watermark, a comment without body and a worklog entry
    without comment or without duration. *)
Theorem incomplete_record_raises (t : JiraTicket) (d : dict) (be : dict) (e' : json) :
  make_event_dict t (JObj d) = Ok (Some be, e') ->
  (dict_get "items" d = None -> changelog_entry t (JObj d) = Raise KeyError) /\
  (0 < last_update t -> dict_get "body" d = None ->
   comment_entry t (JObj d) = Raise KeyError) /\
  (0 < last_update t ->
   dict_get "comment" d = None \/ dict_get "timeSpentSeconds" d = None ->
   worklog_entry t (JObj d) = Raise KeyError).
Proof.
  intros Hmk.
  destruct (make_event_dict_times _ _ _ _ Hmk)
    as (c & bc & eff & Hc & Hbc & Heff & Hlt & Hts & Hcr & ->).
  split; [|split].
  - intros Hitems. unfold changelog_entry. rewrite Hmk. simpl.
    rewrite (fill_author_other "items") by discriminate. rewrite Hitems. reflexivity.
  - intros Hpos Hbody. apply Z.ltb_lt in Hpos.
    unfold comment_entry. rewrite Hmk. simpl. rewrite Hcr, Hts. simpl. rewrite Hpos.
    simpl. rewrite (fill_author_other "body") by discriminate. rewrite Hbody.
    destruct (bc =? eff); reflexivity.
  - intros Hpos Hmiss. apply Z.ltb_lt in Hpos.
    unfold worklog_entry. rewrite Hmk. simpl. rewrite Hcr, Hts. simpl. rewrite Hpos.
    simpl.
    rewrite (fill_author_other "comment"), (fill_author_other "timeSpentSeconds")
      by discriminate.
    destruct Hmiss as [Hmiss | Hmiss]; rewrite Hmiss.
    + destruct (bc =? eff); reflexivity.
    + destruct (dict_get "comment" d); destruct (bc =? eff); reflexivity.
Qed.

End Records.

(** The event under construction for the comment of INFRA-4 ... *)
Lemma creator_comment_base :
  { r | make_event_dict (B:=Py.builtins) Sample.ticket (JObj Sample.creator_comment)
        = Ok (Some (fst r), snd r) }.
Proof. eexists (_, _). vm_compute. reflexivity. Defined.

(** ... and for the history entry without items. *)
Lemma bare_change_base :
  { r | make_event_dict (B:=Py.builtins) Sample.ticket (JObj Sample.bare_change)
        = Ok (Some (fst r), snd r) }.
Proof. eexists (_, _). vm_compute. reflexivity. Defined.

Lemma make_event_dict_author_witness :
  exists ev e',
    make_event_dict (B:=Py.builtins) Sample.ticket (JObj Sample.creator_comment)
    = Ok (Some ev, e') /\
    names_author Sample.alice ev.
Proof.
  destruct creator_comment_base as [[ev e'] Hmk]. simpl in Hmk.
  exists ev, e'. split; [exact Hmk|].
  exact (make_event_dict_author (B:=Py.builtins) _ _ _ _ Hmk).
Defined.

Lemma make_event_dict_project_witness :
  exists ev e',
    make_event_dict (B:=Py.builtins) Sample.ticket (JObj Sample.creator_comment)
    = Ok (Some ev, e') /\
    exists s p,
      key Sample.ticket = JStr s /\
      dict_get "project" ev = Some (JStr p) /\
      str_contains "-" p = false /\
      (s = p \/ exists rest, s = p +:+ "-" +:+ rest).
Proof.
  destruct creator_comment_base as [[ev e'] Hmk]. simpl in Hmk.
  exists ev, e'. split; [exact Hmk|].
  exact (make_event_dict_project (B:=Py.builtins) _ _ _ _ Hmk).
Defined.

Lemma unreported_field_no_event_witness :
  changelog_item (B:=Py.builtins) Sample.base_event Sample.ticket
    (JObj [("field", JStr "labels"); ("toString", JStr "mail")])
  = Ok Sample.ticket.
Proof.
  apply (unreported_field_no_event (B:=Py.builtins)).
  intros f Hf. apply list_elem_of_In in Hf. simpl in Hf.
  destruct Hf as [<- | [<- | [<- | [<- | [<- | []]]]]]; discriminate.
Defined.

Lemma incomplete_record_raises_witness :
  changelog_entry (B:=Py.builtins) Sample.ticket (JObj Sample.bare_change)
  = Raise KeyError /\
  comment_entry (B:=Py.builtins) Sample.ticket (JObj Sample.bare_change)
  = Raise KeyError /\
  worklog_entry (B:=Py.builtins) Sample.ticket (JObj Sample.bare_change)
  = Raise KeyError.
Proof.
  destruct bare_change_base as [[be e'] Hmk]. simpl in Hmk.
  destruct (incomplete_record_raises (B:=Py.builtins) _ _ _ _ Hmk)
    as (Hitems & Hbody & Hwork).
  split; [|split].
  - apply Hitems. reflexivity.
  - apply Hbody; reflexivity.
  - apply Hwork; [reflexivity | left; reflexivity].
Defined.

(** * Further properties of a pass *)

Section Published.
Context `{B : Builtins}.

Lemma grows_refl t : grows t t.
Proof.
  split; try reflexivity. exists []. rewrite app_nil_r. split; [reflexivity | constructor].
Qed.

Lemma grows_trans t1 t2 t3 : grows t1 t2 -> grows t2 t3 -> grows t1 t3.
Proof.
  intros [Hk1 Hn1 Hl1 (x1 & He1 & Hf1)] [Hk2 Hn2 Hl2 (x2 & He2 & Hf2)].
  split; try congruence.
  exists (x1 ++ x2). rewrite Hk1, Hn1, Hl1 in Hf2. split.
  - rewrite He2, He1, app_assoc. reflexivity.
  - apply Forall_app. split; assumption.
Qed.

Lemma grows_append t ev :
  sound_event (key t) (link t) (last_update t) ev -> grows t (append_event t ev).
Proof.
  intros Hev. split; try reflexivity.
  exists [ev]. split; [reflexivity|]. constructor; [exact Hev | constructor].
Qed.

Lemma grows_set_json_data t t1 js : grows t t1 -> grows t (set_json_data t1 js).
Proof. intros [Hk Hn Hl He]. split; simpl; assumption. Qed.

(** The event under construction has all an event needs but its action
    and its sentence. *)
Lemma make_event_dict_base t e be e' :
  make_event_dict t e = Ok (Some be, e') ->
  event_base (key t) (link t) (last_update t) be.
Proof.
  unfold make_event_dict. intros Heq. inv_bind Heq as has Hhas.
  destruct (negb has); [discriminate|].
  destruct e as [| | | | |d]; try discriminate.
  inv_bind Heq as c Hc. inv_bind Heq as ts Hts.
  destruct (ts <=? last_update t) eqn:Hle; [discriminate|].
  inv_bind Heq as au Hau. destruct au as [author_name author_uid].
  inv_bind Heq as pr Hpr. inv_bind Heq as c' Hc'. inv_bind Heq as bc Hbc.
  injection Heq as <- <-. apply Z.leb_gt in Hle.
  unfold event_base. simpl.
  split; [reflexivity|]. split; [reflexivity|].
  split; [exists pr; reflexivity|].
  split; [eexists; reflexivity|]. split; [eexists; reflexivity|].
  split; [eexists; reflexivity|].
  exists ts. split; [reflexivity | exact Hle].
Qed.

(** Assigning a field that is none of the base fields keeps the base. *)
Lemma event_base_set k lnk w ev f v :
  f ∉ ["key"; "link"; "project"; "summary"; "author"; "author_uid"; "timestamp"] ->
  event_base k lnk w ev -> event_base k lnk w (dict_set f v ev).
Proof.
  intros Hf. unfold event_base.
  rewrite !dict_get_set_ne; [tauto | ..];
    intros ->; apply Hf, list_elem_of_In; simpl; auto 10.
Qed.

(** Setting the action and then, possibly after other payload fields, the
    sentence, makes the event sound. *)
Lemma sound_event_classified k lnk w ev a txt :
  a ∈ actions ->
  event_base k lnk w ev ->
  dict_get "action" ev = Some (JStr a) ->
  sound_event k lnk w (dict_set "action_human_text" (JStr txt) ev).
Proof.
  intros Ha Hbase Hact. split; [|split].
  - apply event_base_set; [|exact Hbase].
    intros Hin. apply list_elem_of_In in Hin. simpl in Hin.
    repeat (destruct Hin as [Hin | Hin]; [discriminate Hin|]). exact Hin.
  - exists a. split; [|exact Ha]. rewrite dict_get_set_ne by discriminate. exact Hact.
  - exists txt. apply dict_get_set_eq.
Qed.

Ltac not_a_base_field :=
  let Hin := fresh "Hin" in
  intros Hin; apply list_elem_of_In in Hin; simpl in Hin;
  repeat (destruct Hin as [Hin | Hin]; [discriminate Hin|]); exact Hin.

(** An event made of the base event by assigning the action, payload fields
    and the sentence last. *)
Ltac classified Hbase :=
  eapply sound_event_classified; cycle 1;
  [ repeat (apply event_base_set; [not_a_base_field|]); exact Hbase
  | dict_simpl; reflexivity
  | apply list_elem_of_In; simpl; auto 15 ].

Lemma changelog_item_grows be t item t' :
  event_base (key t) (link t) (last_update t) be ->
  changelog_item be t item = Ok t' -> grows t t'.
Proof.
  intros Hbase. unfold changelog_item.
  destruct item as [| | | | |it]; try discriminate.
  repeat match goal with
         | |- context [if ?b then _ else _] => destruct b eqn:?
         end;
    intros [= <-];
    first [ apply grows_refl | apply grows_append; classified Hbase ].
Qed.

Lemma for_items_grows be l :
  forall t t',
    event_base (key t) (link t) (last_update t) be ->
    for_items (changelog_item be) t l = Ok t' -> grows t t'.
Proof.
  induction l as [|x l IH]; simpl; intros t t' Hbase Heq.
  - injection Heq as <-. apply grows_refl.
  - inv_bind Heq as t1 Hx.
    pose proof (changelog_item_grows _ _ _ _ Hbase Hx) as H1.
    eapply grows_trans; [exact H1|].
    apply IH; [|exact Heq].
    rewrite (grows_key _ _ H1), (grows_link _ _ H1), (grows_last_update _ _ H1).
    exact Hbase.
Qed.

Lemma changelog_entry_grows t change t' change' :
  changelog_entry t change = Ok (t', change') -> grows t t'.
Proof.
  unfold changelog_entry. intros Heq. inv_bind Heq as r Hmk.
  destruct r as [[be|] ch].
  - inv_bind Heq as items Hitems. inv_bind Heq as its Hits. inv_bind Heq as t1 Hloop.
    injection Heq as <- <-.
    eapply for_items_grows; [|exact Hloop].
    eapply make_event_dict_base; exact Hmk.
  - injection Heq as <- <-. apply grows_refl.
Qed.

Lemma comment_entry_grows t comment t' comment' :
  comment_entry t comment = Ok (t', comment') -> grows t t'.
Proof.
  unfold comment_entry. intros Heq. inv_bind Heq as r Hmk.
  destruct r as [[be|] cm]; [|injection Heq as <- <-; apply grows_refl].
  pose proof (make_event_dict_base _ _ _ _ Hmk) as Hbase.
  inv_bind Heq as bc Hbc. inv_bind Heq as ts Hts.
  destruct (negb (bc =? ts)); destruct (0 <? last_update t);
    try (injection Heq as <- <-; apply grows_refl);
    inv_bind Heq as body Hbody; injection Heq as <- <-;
    apply grows_append; classified Hbase.
Qed.

Lemma worklog_entry_grows t worklog t' worklog' :
  worklog_entry t worklog = Ok (t', worklog') -> grows t t'.
Proof.
  unfold worklog_entry. intros Heq. inv_bind Heq as r Hmk.
  destruct r as [[be|] wl]; [|injection Heq as <- <-; apply grows_refl].
  pose proof (make_event_dict_base _ _ _ _ Hmk) as Hbase.
  inv_bind Heq as bc Hbc. inv_bind Heq as ts Hts.
  destruct (negb (bc =? ts)); destruct (0 <? last_update t);
    try (injection Heq as <- <-; apply grows_refl);
    inv_bind Heq as body Hbody; inv_bind Heq as spent Hspent;
    injection Heq as <- <-;
    apply grows_append; classified Hbase.
Qed.

Lemma for_entries_grows body :
  (forall t x t' x', body t x = Ok (t', x') -> grows t t') ->
  forall l t t' l', for_entries body t l = Ok (t', l') -> grows t t'.
Proof.
  intros Hbody. induction l as [|x l IH]; simpl; intros t t' l' Heq.
  - injection Heq as <- <-. apply grows_refl.
  - inv_bind Heq as r1 Hx. destruct r1 as [t1 x'].
    inv_bind Heq as r2 Hl. destruct r2 as [t2 l2].
    injection Heq as <- <-.
    eapply grows_trans; [eapply Hbody; exact Hx | eapply IH; exact Hl].
Qed.

Lemma parse_changelog_grows t t' : parse_changelog t = Ok t' -> grows t t'.
Proof.
  unfold parse_changelog. intros Heq.
  inv_bind Heq as cl Hcl. inv_bind Heq as elements Hel. inv_bind Heq as l Hl.
  inv_bind Heq as r Hloop. destruct r as [t1 l']. injection Heq as <-.
  apply grows_set_json_data.
  eapply for_entries_grows; [apply changelog_entry_grows | exact Hloop].
Qed.

Lemma parse_comments_grows t t' : parse_comments t = Ok t' -> grows t t'.
Proof.
  unfold parse_comments. intros Heq.
  inv_bind Heq as fields Hfields.
  inv_bind Heq as cm Hcm. inv_bind Heq as elements Hel. inv_bind Heq as l Hl.
  inv_bind Heq as r Hloop. destruct r as [t1 l']. injection Heq as <-.
  apply grows_set_json_data.
  eapply for_entries_grows; [apply comment_entry_grows | exact Hloop].
Qed.

Lemma parse_worklog_grows t t' : parse_worklog t = Ok t' -> grows t t'.
Proof.
  unfold parse_worklog. intros Heq.
  inv_bind Heq as fields Hfields.
  inv_bind Heq as wl Hwl. inv_bind Heq as elements Hel. inv_bind Heq as l Hl.
  inv_bind Heq as r Hloop. destruct r as [t1 l']. injection Heq as <-.
  apply grows_set_json_data.
  eapply for_entries_grows; [apply worklog_entry_grows | exact Hloop].
Qed.

Lemma create_event_grows UPDATES t UPDATES1 t1 :
  create_event UPDATES t = Ok (UPDATES1, t1) -> grows t t1.
Proof.
  unfold create_event. intros Heq.
  inv_bind Heq as hk Hhk. inv_bind Heq as fields Hfields.
  inv_bind Heq as r Hmk. destruct r as [[be|] fields']; [|discriminate].
  inv_bind Heq as fields2 Hfields2. inv_bind Heq as description Hdesc.
  injection Heq as <- <-.
  pose proof (make_event_dict_base _ _ _ _ Hmk) as Hbase.
  split; try reflexivity.
  exists [dict_set "description" description
            (dict_set "action_human_text"
               (JStr ("created " +:+ fstr (key t) +:+ ": " +:+ fstr (summary t)))
               (dict_set "action" (JStr "create") be))].
  split; [reflexivity|]. constructor; [|constructor].
  destruct (sound_event_classified (key t) (link t) (last_update t)
              (dict_set "action" (JStr "create") be) "create"
              ("created " +:+ fstr (key t) +:+ ": " +:+ fstr (summary t)))
    as (Hb & Ha & Ht).
  - apply list_elem_of_In. simpl. auto.
  - apply event_base_set; [not_a_base_field | exact Hbase].
  - apply dict_get_set_eq.
  - split; [|split].
    + apply event_base_set; [not_a_base_field | exact Hb].
    + rewrite dict_get_set_ne by discriminate. exact Ha.
    + rewrite dict_get_set_ne by discriminate. exact Ht.
Qed.

End Published.

Section PublishedPass.
Context `{B : Builtins}.
Variable LAUNCH_TIME : Z.

Lemma JiraTicket_init_ticket cfg UPDATES issue t :
  JiraTicket_init LAUNCH_TIME cfg UPDATES issue = Ok t ->
  exists k hk,
    py_getitem issue "key" = Ok k /\ py_hash k = Ok hk /\
    key t = k /\ link t = jira_base cfg +:+ fstr k /\
    last_update t = watermark LAUNCH_TIME UPDATES hk /\
    events t = [].
Proof.
  unfold JiraTicket_init. intros Heq.
  inv_bind Heq as k Hk. inv_bind Heq as fields Hfields. inv_bind Heq as summ Hsumm.
  inv_bind Heq as fields' Hfields'. inv_bind Heq as c Hc. inv_bind Heq as cr Hcr.
  inv_bind Heq as hk Hhk. injection Heq as <-.
  exists k, hk. repeat split; assumption.
Qed.

Lemma post_events_targets cfg evs posted :
  post_events cfg evs = Ok posted ->
  Forall (fun p => str_format (pubsub_url cfg) (snd p) = Ok (fst p)) posted.
Proof.
  revert posted. induction evs as [|ev evs IH]; simpl; intros posted Heq.
  - injection Heq as <-. constructor.
  - inv_bind Heq as target Htarget. inv_bind Heq as rest Hrest.
    injection Heq as <-. constructor; [exact Htarget | apply IH; exact Hrest].
Qed.

(** X9. Every event a completed pass hands to the publisher is sound: it
    carries the key of the issue, the link made of the configured base and
    that key, a project, the summary, an actor, one of the nine actions
    (never the initial "unknown"), a sentence, and a timestamp strictly
    after the watermark the issue had when the pass began. It goes to the
    target got by formatting the configured URL on the event itself. *)
Theorem posted_events_sound cfg now UPDATES issue UPDATES' posted issue' :
  process_issue LAUNCH_TIME cfg now UPDATES issue = Ok (UPDATES', posted, issue') ->
  exists k hk,
    py_getitem issue "key" = Ok k /\ py_hash k = Ok hk /\
    Forall (fun p =>
              sound_event k (jira_base cfg +:+ fstr k)
                (watermark LAUNCH_TIME UPDATES hk) (snd p) /\
              str_format (pubsub_url cfg) (snd p) = Ok (fst p)) posted.
Proof.
  unfold process_issue. intros Heq.
  inv_bind Heq as t0 Hinit. inv_bind Heq as r Hcreate. destruct r as [UPDATES1 t1].
  inv_bind Heq as t2 Hchangelog. inv_bind Heq as t3 Hcomments.
  inv_bind Heq as t4 Hworklog. inv_bind Heq as UPDATES2 Hstore.
  inv_bind Heq as posted0 Hposted. injection Heq as <- <- <-.
  destruct (JiraTicket_init_ticket _ _ _ _ Hinit)
    as (k & hk & Hk & Hhk & Hkey & Hlink & Hlast & Hevs).
  assert (H01 : grows t0 t1).
  { destruct ((last_update t0 =? 0) && (timedelta_seconds (now - created t0) <=? 30)).
    - eapply create_event_grows; exact Hcreate.
    - injection Hcreate as <- <-. apply grows_refl. }
  assert (H04 : grows t0 t4).
  { eapply grows_trans; [exact H01|].
    eapply grows_trans; [apply parse_changelog_grows; exact Hchangelog|].
    eapply grows_trans; [apply parse_comments_grows; exact Hcomments|].
    apply parse_worklog_grows; exact Hworklog. }
  destruct (grows_events _ _ H04) as (extra & He4 & Hsound).
  rewrite Hevs in He4. simpl in He4. rewrite Hkey, Hlink, Hlast in Hsound.
  exists k, hk. split; [exact Hk|]. split; [exact Hhk|].
  pose proof (post_events_targets _ _ _ Hposted) as Htargets.
  apply post_events_events in Hposted. rewrite He4 in Hposted. subst extra.
  rewrite Forall_fmap in Hsound.
  rewrite Forall_forall in Hsound, Htargets. apply Forall_forall.
  intros p Hp. split; [apply Hsound | apply Htargets]; exact Hp.
Qed.

(** X10. A completed pass writes to the store under the key of its own
    issue only: every other entry, present or absent, is as it was. *)
Theorem other_watermarks_untouched cfg now UPDATES issue UPDATES' posted issue' k hk :
  process_issue LAUNCH_TIME cfg now UPDATES issue = Ok (UPDATES', posted, issue') ->
  py_getitem issue "key" = Ok k -> py_hash k = Ok hk ->
  forall hk', hk' <> hk -> UPDATES' !! hk' = UPDATES !! hk'.
Proof.
  intros Hrun Hk Hhk hk' Hne. apply process_issue_inv in Hrun.
  destruct Hrun as (k0 & hk0 & t0 & UPDATES1 & t1 & t4 & Hk0 & Hhk0 & _ & _ & _ & _
                    & Hmid & _ & _ & _ & Hstore).
  rewrite Hk in Hk0. injection Hk0 as <-. rewrite Hhk in Hhk0. injection Hhk0 as <-.
  assert (H1 : UPDATES1 !! hk' = UPDATES !! hk').
  { destruct Hmid as [(-> & _) | (_ & ev & -> & _)]; [reflexivity|].
    apply lookup_insert_ne. congruence. }
  destruct (events t4).
  - subst UPDATES'. exact H1.
  - destruct Hstore as (ts & m & _ & _ & ->).
    rewrite lookup_insert_ne by congruence. exact H1.
Qed.

End PublishedPass.

(** * Properties of the poll loop *)

Section Loop.
Context `{B : Builtins}.
Variable LAUNCH_TIME : Z.

Lemma no_lower_refl UPDATES : no_lower LAUNCH_TIME UPDATES UPDATES.
Proof.
  intros k. split; [lia|]. intros v Hv. exists v. split; [exact Hv | lia].
Qed.

Lemma no_lower_trans U1 U2 U3 :
  no_lower LAUNCH_TIME U1 U2 -> no_lower LAUNCH_TIME U2 U3 ->
  no_lower LAUNCH_TIME U1 U3.
Proof.
  intros H12 H23 k. destruct (H12 k) as [Hw12 Hs12]. destruct (H23 k) as [Hw23 Hs23].
  split; [lia|]. intros v Hv.
  destruct (Hs12 v Hv) as (v' & Hv' & Hle). destruct (Hs23 v' Hv') as (v'' & Hv'' & Hle').
  exists v''. split; [exact Hv'' | lia].
Qed.

Lemma process_changes_step cfg now changes :
  0 < LAUNCH_TIME ->
  forall UPDATES UPDATES' posted changes',
    store_ok UPDATES ->
    process_changes LAUNCH_TIME cfg now UPDATES changes = Ok (UPDATES', posted, changes') ->
    store_ok UPDATES' /\ no_lower LAUNCH_TIME UPDATES UPDATES'.
Proof.
  intros Hlaunch. induction changes as [|issue rest IH]; simpl;
    intros UPDATES UPDATES' posted changes' Hok Heq.
  - injection Heq as <- <- <-. split; [exact Hok | apply no_lower_refl].
  - inv_bind Heq as r1 Hissue. destruct r1 as [[U1 posted1] issue'].
    inv_bind Heq as r2 Hrest. destruct r2 as [[U2 posted2] rest'].
    injection Heq as <- <- <-.
    destruct (process_issue_step _ _ _ _ _ _ _ _ Hlaunch Hok Hissue) as [Hok1 Hlow1].
    destruct (IH _ _ _ _ Hok1 Hrest) as [Hok2 Hlow2].
    split; [exact Hok2|]. eapply no_lower_trans; [exact Hlow1 | exact Hlow2].
Qed.

Lemma main_step cfg turns :
  0 < LAUNCH_TIME ->
  forall UPDATES UPDATES',
    store_ok UPDATES ->
    main LAUNCH_TIME cfg turns UPDATES = Ok UPDATES' ->
    store_ok UPDATES' /\ no_lower LAUNCH_TIME UPDATES UPDATES'.
Proof.
  intros Hlaunch. induction turns as [|[now r] turns IH]; simpl;
    intros UPDATES UPDATES' Hok Heq.
  - injection Heq as <-. split; [exact Hok | apply no_lower_refl].
  - inv_bind Heq as c Hcycle. destruct c as [[U1 posted] changes'].
    unfold poll_cycle in Hcycle.
    inv_bind Hcycle as change_set Hfetch. inv_bind Hcycle as changes Hiter.
    destruct (process_changes_step _ _ _ Hlaunch _ _ _ _ Hok Hcycle) as [Hok1 Hlow1].
    destruct (IH _ _ Hok1 Heq) as [Hok2 Hlow2].
    split; [exact Hok2|]. eapply no_lower_trans; [exact Hlow1 | exact Hlow2].
Qed.

(** X11. A bridge launched after the epoch never lowers a watermark: take
    the store after any number of turns of the loop of [main] from the
    empty store, run any number of further turns, and every watermark is at
    least what it was, every stored entry still there and at least as
    large. *)
Theorem main_never_lowers cfg turns turns' UPDATES UPDATES' :
  0 < LAUNCH_TIME ->
  main LAUNCH_TIME cfg turns ∅ = Ok UPDATES ->
  main LAUNCH_TIME cfg turns' UPDATES = Ok UPDATES' ->
  no_lower LAUNCH_TIME UPDATES UPDATES'.
Proof.
  intros Hlaunch Hfirst Hnext.
  assert (Hempty : store_ok ∅).
  { intros k v Hv. rewrite lookup_empty in Hv. discriminate Hv. }
  destruct (main_step _ _ Hlaunch _ _ Hempty Hfirst) as [Hok _].
  eapply main_step; eassumption.
Qed.

(** X12. A turn whose fetch fails in transport, or meets an answer without
    issues, completes: it publishes nothing and leaves the store as it
    was. *)
Theorem idle_cycle cfg now UPDATES r :
  r = RequestException \/
  (exists d, r = Body (JObj d) /\
             (dict_get "issues" d = None \/ dict_get "issues" d = Some (JArr []))) ->
  poll_cycle LAUNCH_TIME cfg now UPDATES r = Ok (UPDATES, [], []).
Proof.
  intros [-> | (d & -> & [Hd | Hd])]; unfold poll_cycle; simpl;
    try rewrite Hd; reflexivity.
Qed.

(** X13. The age that the "brand-new issue" test compares with 30 is the
    [seconds] field of the difference: it lies between 0 and 86399 and is
    the same for two differences that are whole days apart, so the test
    cannot tell an issue created ten seconds ago from one created a day and
    ten seconds ago. *)
Theorem timedelta_seconds_wraps (d days : Z) :
  0 <= timedelta_seconds d < 86400 /\
  timedelta_seconds (d + days * 86400000000) = timedelta_seconds d.
Proof.
  unfold timedelta_seconds. split.
  - pose proof (Z.mod_pos_bound d 86400000000 ltac:(lia)) as Hm.
    split.
    + apply Z.div_pos; lia.
    + apply Z.div_lt_upper_bound; lia.
  - rewrite Z.mod_add by lia. reflexivity.
Qed.

End Loop.

Section Reading.
Context `{B : Builtins}.

Lemma ev_num_get k ev n : ev_num k ev = Ok n -> dict_get k ev = Some (JNum n).
Proof.
  unfold ev_num. destruct (dict_get k ev) as [[| |m| | |]|]; try discriminate.
  intros [= ->]. reflexivity.
Qed.

End Reading.

Lemma posted_events_sound_witness :
  exists UPDATES' posted issue',
    process_issue (B:=Py.builtins) Sample.launch Sample.cfg Sample.now ∅
      Sample.resolution_issue = Ok (UPDATES', posted, issue') /\
    length posted = 3%nat /\
    Forall (fun p =>
              sound_event (JStr "INFRA-3")
                "https://issues.apache.org/jira/browse/INFRA-3"
                Sample.launch (snd p) /\
              str_format (Builtins:=Py.builtins) (pubsub_url Sample.cfg) (snd p)
              = Ok (fst p)) posted.
Proof.
  destruct resolution_issue_run as [[[UPDATES' posted] issue'] Hrun].
  assert (Hlen : length posted = 3%nat).
  { pose proof Hrun as Hval. vm_compute in Hval. injection Hval as _ <- _. reflexivity. }
  destruct (posted_events_sound (B:=Py.builtins) Sample.launch _ _ _ _ _ _ _ Hrun)
    as (k & hk & Hk & Hhk & Hall).
  injection Hk as <-. injection Hhk as <-.
  exists UPDATES', posted, issue'.
  split; [exact Hrun|]. split; [exact Hlen | exact Hall].
Defined.

Lemma other_watermarks_untouched_witness :
  exists UPDATES' posted issue',
    process_issue (B:=Py.builtins) Sample.launch Sample.cfg Sample.now ∅
      Sample.resolution_issue = Ok (UPDATES', posted, issue') /\
    UPDATES' !! (inl "INFRA-2" : hkey) = None.
Proof.
  destruct resolution_issue_run as [[[UPDATES' posted] issue'] Hrun].
  exists UPDATES', posted, issue'. split; [exact Hrun|].
  rewrite (other_watermarks_untouched (B:=Py.builtins) Sample.launch _ _ _ _ _ _ _
             (JStr "INFRA-3") (inl "INFRA-3") Hrun eq_refl eq_refl (inl "INFRA-2")).
  - reflexivity.
  - discriminate.
Defined.

(** Two turns of the loop: INFRA-2 comes first, INFRA-3 five seconds
    later. *)
Lemma first_turn_run :
  { UPDATES | main (B:=Py.builtins) Sample.launch Sample.cfg
                [(Sample.now, Body (JObj [("issues", JArr [Sample.status_issue])]))] ∅
              = Ok UPDATES }.
Proof. eexists. vm_compute. reflexivity. Defined.

Lemma second_turn_run :
  { UPDATES' | main (B:=Py.builtins) Sample.launch Sample.cfg
                 [(Sample.now + 5000000,
                   Body (JObj [("issues", JArr [Sample.resolution_issue])]))]
                 (proj1_sig first_turn_run)
               = Ok UPDATES' }.
Proof. eexists. vm_compute. reflexivity. Defined.

Lemma main_never_lowers_witness :
  exists UPDATES UPDATES',
    main (B:=Py.builtins) Sample.launch Sample.cfg
      [(Sample.now, Body (JObj [("issues", JArr [Sample.status_issue])]))] ∅
    = Ok UPDATES /\
    main (B:=Py.builtins) Sample.launch Sample.cfg
      [(Sample.now + 5000000,
        Body (JObj [("issues", JArr [Sample.resolution_issue])]))] UPDATES
    = Ok UPDATES' /\
    no_lower (B:=Py.builtins) Sample.launch UPDATES UPDATES'.
Proof.
  exists (proj1_sig first_turn_run), (proj1_sig second_turn_run).
  split; [exact (proj2_sig first_turn_run)|].
  split; [exact (proj2_sig second_turn_run)|].
  exact (main_never_lowers (B:=Py.builtins) Sample.launch Sample.cfg _ _ _ _
           eq_refl (proj2_sig first_turn_run) (proj2_sig second_turn_run)).
Defined.

Lemma idle_cycle_witness :
  poll_cycle (B:=Py.builtins) Sample.launch Sample.cfg Sample.now
    {[ (inl "INFRA-2" : hkey) := 1700000040000000 ]}
    (Body (JObj [("total", JNum 0)]))
  = Ok ({[ (inl "INFRA-2" : hkey) := 1700000040000000 ]}, [], []).
Proof.
  apply (idle_cycle (B:=Py.builtins)).
  right. exists [("total", JNum 0)]. split; [reflexivity|]. left. reflexivity.
Defined.

(** * A second pass over the same snapshot *)

Section Again.
Context `{B : Builtins}.

(** An entry that a later ticket object still takes was taken before, and
    gives an event with the same times. *)
Lemma make_event_dict_later t t' e o e' :
  make_event_dict t e = Ok (o, e') -> later t t' ->
  make_event_dict t' e = Ok (None, e) \/
  exists be be' ts,
    o = Some be /\ make_event_dict t' e = Ok (Some be', e') /\
    ev_num "timestamp" be = Ok ts /\ last_update t' < ts.
Proof.
  intros Heq (Hkey & Hpos & Hle).
  unfold make_event_dict in Heq |- *.
  destruct (py_contains "created" e) as [has|err]; [|discriminate Heq].
  cbn [mbind result_bind] in Heq |- *. destruct (negb has); [left; reflexivity|].
  destruct e as [| | | | |d]; try discriminate Heq.
  destruct (py_getitem (JObj d) "created") as [c|err]; [|discriminate Heq].
  cbn [mbind result_bind] in Heq |- *.
  destruct (jira_to_datetime (default c (dict_get "updated" d))) as [ts|err];
    [|discriminate Heq].
  cbn [mbind result_bind] in Heq |- *.
  destruct (ts <=? last_update t') eqn:Hle'; [left; reflexivity|].
  apply Z.leb_gt in Hle'. right.
  replace (ts <=? last_update t) with false in Heq by (symmetry; apply Z.leb_gt; lia).
  rewrite Hkey.
  destruct (match dict_get "author" (fill_author d) with
            | Some a =>
                n ← py_get a "displayName" (JStr "??");
                u ← py_get a "name" (JStr "??");
                Ok (n, u)
            | None => Ok (JStr "??", JStr "??")
            end) as [[author_name author_uid]|err]; [|discriminate Heq].
  cbn [mbind result_bind] in Heq |- *.
  destruct (py_split_first (key t)) as [pr|err]; [|discriminate Heq].
  cbn [mbind result_bind] in Heq |- *.
  destruct (py_getitem (JObj (fill_author d)) "created") as [c'|err]; [|discriminate Heq].
  cbn [mbind result_bind] in Heq |- *.
  destruct (jira_to_datetime c') as [bc|err]; [|discriminate Heq].
  cbn [mbind result_bind] in Heq |- *. injection Heq as <- <-.
  do 2 eexists. exists ts.
  split; [reflexivity|]. split; [reflexivity|]. split; [reflexivity | exact Hle'].
Qed.

Lemma stale_last w evs ev :
  Forall (stale w) (evs ++ [ev]) -> stale w ev.
Proof.
  intros Hall. apply Forall_app in Hall. destruct Hall as [_ Hev].
  inversion Hev. assumption.
Qed.

(** An item that appended nothing although its entry is newer than [w']
    appends nothing for any other ticket object with a positive
    watermark. *)
Lemma changelog_item_later be be' ts t t' item t1 :
  changelog_item be t item = Ok t1 ->
  0 < last_update t -> 0 < last_update t' ->
  ev_num "timestamp" be = Ok ts -> last_update t' < ts ->
  Forall (stale (last_update t')) (events t1) ->
  changelog_item be' t' item = Ok t'.
Proof.
  intros Heq Hpos Hpos' Hts Hlt Hstale.
  apply Z.ltb_lt in Hpos, Hpos'.
  unfold changelog_item in Heq |- *.
  destruct item as [| | | | |it]; [discriminate Heq ..|].
  rewrite Hpos in Heq. rewrite Hpos'.
  repeat match type of Heq with
         | context [if ?b then _ else _] => destruct b eqn:?
         end;
    first [ reflexivity
          | exfalso; injection Heq as <-;
            apply stale_last in Hstale; destruct Hstale as (ts' & Hts' & Hle);
            repeat rewrite ev_num_set_ne in Hts' by discriminate;
            rewrite Hts in Hts'; injection Hts' as <-; lia ].
Qed.

Lemma later_extends t tm t' : extends eq t tm -> later t t' -> later tm t'.
Proof.
  intros Hext (Hk & Hpos & Hle). unfold later.
  rewrite (ext_key _ _ _ Hext), (ext_last_update _ _ _ Hext). repeat split; assumption.
Qed.

Lemma stale_before (R : json -> json -> Prop) w tm t1 :
  extends R tm t1 -> Forall (stale w) (events t1) -> Forall (stale w) (events tm).
Proof.
  intros Hext Hall. destruct (ext_events _ _ _ Hext) as (extra & He & _).
  rewrite He in Hall. apply Forall_app in Hall. tauto.
Qed.

Lemma for_items_later be be' ts l :
  ev_num "timestamp" be = Ok ts ->
  forall t t1 t',
    for_items (changelog_item be) t l = Ok t1 ->
    later t t' -> last_update t' < ts ->
    Forall (stale (last_update t')) (events t1) ->
    for_items (changelog_item be') t' l = Ok t'.
Proof.
  intros Hts. induction l as [|x l IH]; simpl; intros t t1 t' Heq Hlater Hlt Hstale.
  - reflexivity.
  - inv_bind Heq as tm Hx.
    pose proof Hlater as (Hk & Hpos & Hle).
    assert (Hext : extends eq t tm).
    { eapply changelog_item_extends; [exact Hts | lia | exact Hx]. }
    assert (Hrest : extends eq tm t1).
    { eapply for_items_extends; [exact Hts | | exact Heq].
      rewrite (ext_last_update _ _ _ Hext). lia. }
    rewrite (changelog_item_later be be' ts t t' x tm Hx); try lia; try assumption.
    + simpl. eapply IH; [exact Heq | | exact Hlt | exact Hstale].
      eapply later_extends; eassumption.
    + eapply stale_before; eassumption.
Qed.

Lemma changelog_entry_later t x t1 x1 t' :
  changelog_entry t x = Ok (t1, x1) -> later t t' ->
  Forall (stale (last_update t')) (events t1) ->
  exists x2, changelog_entry t' x = Ok (t', x2).
Proof.
  unfold changelog_entry. intros Heq Hlater Hstale.
  inv_bind Heq as r Hmk. destruct r as [o e'].
  destruct (make_event_dict_later _ _ _ _ _ Hmk Hlater)
    as [Hnone | (be & be' & ts & -> & Hmk' & Hts & Hlt)].
  - rewrite Hnone. simpl. eexists. reflexivity.
  - rewrite Hmk'. simpl.
    inv_bind Heq as items Hitems. inv_bind Heq as its Hits. inv_bind Heq as tl Hloop.
    injection Heq as <- <-. rewrite Hitems. simpl. rewrite Hits. simpl.
    rewrite (for_items_later be be' ts its Hts _ _ _ Hloop Hlater Hlt Hstale).
    simpl. eexists. reflexivity.
Qed.

Lemma comment_entry_later t x t1 x1 t' :
  comment_entry t x = Ok (t1, x1) -> later t t' ->
  Forall (stale (last_update t')) (events t1) ->
  exists x2, comment_entry t' x = Ok (t', x2).
Proof.
  unfold comment_entry. intros Heq Hlater Hstale.
  inv_bind Heq as r Hmk. destruct r as [o e'].
  destruct (make_event_dict_later _ _ _ _ _ Hmk Hlater)
    as [Hnone | (be & be' & ts & -> & Hmk' & Hts & Hlt)].
  - rewrite Hnone. simpl. eexists. reflexivity.
  - exfalso. destruct Hlater as (_ & Hpos & _). apply Z.ltb_lt in Hpos.
    inv_bind Heq as bc Hbc. inv_bind Heq as ts' Hts'. rewrite Hpos in Heq.
    destruct (negb (bc =? ts'));
      inv_bind Heq as body Hbody; injection Heq as <- <-;
      apply stale_last in Hstale; destruct Hstale as (ts0 & Hts0 & Hle0);
      repeat rewrite ev_num_set_ne in Hts0 by discriminate;
      rewrite Hts in Hts0; injection Hts0 as <-; lia.
Qed.

Lemma worklog_entry_later t x t1 x1 t' :
  worklog_entry t x = Ok (t1, x1) -> later t t' ->
  Forall (stale (last_update t')) (events t1) ->
  exists x2, worklog_entry t' x = Ok (t', x2).
Proof.
  unfold worklog_entry. intros Heq Hlater Hstale.
  inv_bind Heq as r Hmk. destruct r as [o e'].
  destruct (make_event_dict_later _ _ _ _ _ Hmk Hlater)
    as [Hnone | (be & be' & ts & -> & Hmk' & Hts & Hlt)].
  - rewrite Hnone. simpl. eexists. reflexivity.
  - exfalso. destruct Hlater as (_ & Hpos & _). apply Z.ltb_lt in Hpos.
    inv_bind Heq as bc Hbc. inv_bind Heq as ts' Hts'. rewrite Hpos in Heq.
    destruct (negb (bc =? ts'));
      inv_bind Heq as body Hbody; inv_bind Heq as spent Hspent;
      injection Heq as <- <-;
      apply stale_last in Hstale; destruct Hstale as (ts0 & Hts0 & Hle0);
      repeat rewrite ev_num_set_ne in Hts0 by discriminate;
      rewrite Hts in Hts0; injection Hts0 as <-; lia.
Qed.

Lemma for_entries_later body :
  (forall t x t1 x1, body t x = Ok (t1, x1) -> extends eq t t1 /\ rewritten x x1) ->
  (forall t x t1 x1 t',
     body t x = Ok (t1, x1) -> later t t' ->
     Forall (stale (last_update t')) (events t1) ->
     exists x2, body t' x = Ok (t', x2)) ->
  forall l t t1 l1 t',
    for_entries body t l = Ok (t1, l1) -> later t t' ->
    Forall (stale (last_update t')) (events t1) ->
    exists l2, for_entries body t' l = Ok (t', l2).
Proof.
  intros Hext Hbody. induction l as [|x l IH]; simpl; intros t t1 l1 t' Heq Hlater Hstale.
  - eexists. reflexivity.
  - inv_bind Heq as r1 Hx. destruct r1 as [tm x1].
    inv_bind Heq as r2 Hl. destruct r2 as [t2 l2]. injection Heq as <- <-.
    destruct (Hext _ _ _ _ Hx) as [Hxm _].
    destruct (for_entries_extends body Hext _ _ _ _ Hl) as [Hm2 _].
    destruct (Hbody _ _ _ _ t' Hx Hlater) as (x2 & ->).
    { eapply stale_before; eassumption. }
    simpl.
    destruct (IH _ _ _ t' Hl) as (l2' & ->);
      [eapply later_extends; eassumption | exact Hstale |].
    simpl. eexists. reflexivity.
Qed.

Lemma dict_get_alter_ne k k' f d :
  k <> k' -> dict_get k' (dict_alter k f d) = dict_get k' d.
Proof.
  intros Hne. induction d as [|[k0 v0] d IH]; simpl; [reflexivity|].
  destruct (String.eqb k0 k) eqn:E; simpl.
  - apply String.eqb_eq in E. subst k0.
    destruct (String.eqb k k') eqn:E'; [|reflexivity].
    apply String.eqb_eq in E'. contradiction.
  - rewrite IH. reflexivity.
Qed.

Lemma dict_get_alter k f d : dict_get k (dict_alter k f d) = f <$> dict_get k d.
Proof.
  induction d as [|[k0 v0] d IH]; simpl; [reflexivity|].
  destruct (String.eqb k0 k) eqn:E; simpl; rewrite E; [reflexivity | exact IH].
Qed.

(** Each parser reads its list from the snapshot and only then loops. *)
Lemma parse_changelog_read t :
  parse_changelog t
  = (l ← read_histories (json_data t);
     '(t', l') ← for_entries changelog_entry t l;
     Ok (set_json_data t'
           (upd_member "changelog" (upd_member "histories" (store_elements l'))
              (json_data t')))).
Proof.
  unfold parse_changelog, read_histories.
  destruct (py_get (json_data t) "changelog" (JObj [])) as [cl|]; [|reflexivity]. simpl.
  destruct (py_get cl "histories" (JArr [])) as [el|]; reflexivity.
Qed.

Lemma parse_comments_read t :
  parse_comments t
  = (l ← read_comments (json_data t);
     '(t', l') ← for_entries comment_entry t l;
     Ok (set_json_data t'
           (upd_member "fields"
              (upd_member "comment" (upd_member "comments" (store_elements l')))
              (json_data t')))).
Proof.
  unfold parse_comments, read_comments.
  destruct (py_getitem (json_data t) "fields") as [fields|]; [|reflexivity]. simpl.
  destruct (py_get fields "comment" (JObj [])) as [cm|]; [|reflexivity]. simpl.
  destruct (py_get cm "comments" (JArr [])) as [el|]; reflexivity.
Qed.

Lemma parse_worklog_read t :
  parse_worklog t
  = (l ← read_worklogs (json_data t);
     '(t', l') ← for_entries worklog_entry t l;
     Ok (set_json_data t'
           (upd_member "fields"
              (upd_member "worklog" (upd_member "worklogs" (store_elements l')))
              (json_data t')))).
Proof.
  unfold parse_worklog, read_worklogs.
  destruct (py_getitem (json_data t) "fields") as [fields|]; [|reflexivity]. simpl.
  destruct (py_get fields "worklog" (JObj [])) as [wl|]; [|reflexivity]. simpl.
  destruct (py_get wl "worklogs" (JArr [])) as [el|]; reflexivity.
Qed.

(** What [parse_changelog] rewrites is out of the way of the two other
    parsers, and what [parse_comments] rewrites out of the way of
    [parse_worklog]. *)
Lemma read_comments_changelog f js :
  read_comments (upd_member "changelog" f js) = read_comments js.
Proof.
  destruct js as [| | | | |d]; try reflexivity.
  unfold read_comments. simpl. rewrite dict_get_alter_ne by discriminate. reflexivity.
Qed.

Lemma read_worklogs_changelog f js :
  read_worklogs (upd_member "changelog" f js) = read_worklogs js.
Proof.
  destruct js as [| | | | |d]; try reflexivity.
  unfold read_worklogs. simpl. rewrite dict_get_alter_ne by discriminate. reflexivity.
Qed.

Lemma read_worklogs_comment g js :
  read_worklogs (upd_member "fields" (upd_member "comment" g) js) = read_worklogs js.
Proof.
  destruct js as [| | | | |d]; try reflexivity.
  unfold read_worklogs. simpl. rewrite dict_get_alter.
  destruct (dict_get "fields" d) as [fields|]; [|reflexivity]. simpl.
  destruct fields as [| | | | |fd]; try reflexivity.
  simpl. rewrite dict_get_alter_ne by discriminate. reflexivity.
Qed.

Lemma parse_changelog_json t t1 :
  parse_changelog t = Ok t1 ->
  exists f, json_data t1 = upd_member "changelog" f (json_data t).
Proof.
  rewrite parse_changelog_read. intros Heq.
  inv_bind Heq as l Hl. inv_bind Heq as r Hloop. destruct r as [tl l']. injection Heq as <-.
  destruct (for_entries_extends _ changelog_entry_extends _ _ _ _ Hloop) as [Hext _].
  simpl. rewrite <- (ext_json _ _ _ Hext). eexists. reflexivity.
Qed.

Lemma parse_comments_json t t1 :
  parse_comments t = Ok t1 ->
  exists g, json_data t1 = upd_member "fields" (upd_member "comment" g) (json_data t).
Proof.
  rewrite parse_comments_read. intros Heq.
  inv_bind Heq as l Hl. inv_bind Heq as r Hloop. destruct r as [tl l']. injection Heq as <-.
  destruct (for_entries_extends _ comment_entry_extends _ _ _ _ Hloop) as [Hext _].
  simpl. rewrite <- (ext_json _ _ _ Hext). eexists. reflexivity.
Qed.

Lemma parse_changelog_later t t1 t' :
  parse_changelog t = Ok t1 -> later t t' ->
  read_histories (json_data t') = read_histories (json_data t) ->
  Forall (stale (last_update t')) (events t1) ->
  exists f,
    parse_changelog t' = Ok (set_json_data t' (upd_member "changelog" f (json_data t'))).
Proof.
  rewrite !parse_changelog_read. intros Heq Hlater -> Hstale.
  inv_bind Heq as l Hl. inv_bind Heq as r Hloop. destruct r as [tl l']. injection Heq as <-.
  rewrite Hl. simpl.
  destruct (for_entries_later _ changelog_entry_extends changelog_entry_later
              _ _ _ _ t' Hloop Hlater Hstale) as (l2 & ->).
  simpl. eexists. reflexivity.
Qed.

Lemma parse_comments_later t t1 t' :
  parse_comments t = Ok t1 -> later t t' ->
  read_comments (json_data t') = read_comments (json_data t) ->
  Forall (stale (last_update t')) (events t1) ->
  exists g,
    parse_comments t'
    = Ok (set_json_data t'
            (upd_member "fields" (upd_member "comment" g) (json_data t'))).
Proof.
  rewrite !parse_comments_read. intros Heq Hlater -> Hstale.
  inv_bind Heq as l Hl. inv_bind Heq as r Hloop. destruct r as [tl l']. injection Heq as <-.
  rewrite Hl. simpl.
  destruct (for_entries_later _ comment_entry_extends comment_entry_later
              _ _ _ _ t' Hloop Hlater Hstale) as (l2 & ->).
  simpl. eexists. reflexivity.
Qed.

Lemma parse_worklog_later t t1 t' :
  parse_worklog t = Ok t1 -> later t t' ->
  read_worklogs (json_data t') = read_worklogs (json_data t) ->
  Forall (stale (last_update t')) (events t1) ->
  exists js, parse_worklog t' = Ok (set_json_data t' js).
Proof.
  rewrite !parse_worklog_read. intros Heq Hlater -> Hstale.
  inv_bind Heq as l Hl. inv_bind Heq as r Hloop. destruct r as [tl l']. injection Heq as <-.
  rewrite Hl. simpl.
  destruct (for_entries_later _ worklog_entry_extends worklog_entry_later
              _ _ _ _ t' Hloop Hlater Hstale) as (l2 & ->).
  simpl. eexists. reflexivity.
Qed.

End Again.

Section SecondPass.
Context `{B : Builtins}.
Variable LAUNCH_TIME : Z.

Lemma JiraTicket_init_again cfg UPDATES issue t UPDATES' :
  JiraTicket_init LAUNCH_TIME cfg UPDATES issue = Ok t ->
  exists hk t',
    py_hash (key t) = Ok hk /\
    JiraTicket_init LAUNCH_TIME cfg UPDATES' issue = Ok t' /\
    key t' = key t /\
    last_update t = watermark LAUNCH_TIME UPDATES hk /\
    last_update t' = watermark LAUNCH_TIME UPDATES' hk /\
    events t = [] /\ events t' = [] /\
    json_data t = issue /\ json_data t' = issue.
Proof.
  unfold JiraTicket_init. intros Heq.
  inv_bind Heq as k Hk. inv_bind Heq as fields Hfields. inv_bind Heq as summ Hsumm.
  inv_bind Heq as fields' Hfields'. inv_bind Heq as c Hc. inv_bind Heq as cr Hcr.
  inv_bind Heq as hk Hhk. injection Heq as <-.
  rewrite Hk. simpl. rewrite Hfields. simpl. rewrite Hsumm. simpl.
  rewrite Hfields' in Hfields. injection Hfields as ->.
  rewrite Hc. simpl. rewrite Hcr. simpl. rewrite Hhk. simpl.
  exists hk. eexists. split; [reflexivity|]. split; [reflexivity|].
  simpl. repeat split.
Qed.

Lemma timestamps_stale evs ts m :
  timestamps evs = Ok ts -> Forall (fun y => y <= m) ts -> Forall (stale m) evs.
Proof.
  revert ts. induction evs as [|ev evs IH]; simpl; intros ts Heq Hall.
  - constructor.
  - inv_bind Heq as x Hx. inv_bind Heq as xs Hxs. injection Heq as <-.
    inversion Hall as [|? ? Hle Hrest]; subst.
    constructor; [exists x; split; assumption | eapply IH; eassumption].
Qed.

(** X15. No change is reported twice. When the bridge was launched after
    the epoch and a pass over a snapshot has completed, a second pass over
    the same snapshot, at any later time, completes as well, publishes
    nothing and leaves the store as the first pass left it. *)
Theorem second_pass_is_silent cfg now now' UPDATES issue UPDATES' posted issue' :
  0 < LAUNCH_TIME -> reachable LAUNCH_TIME UPDATES ->
  process_issue LAUNCH_TIME cfg now UPDATES issue = Ok (UPDATES', posted, issue') ->
  exists issue'',
    process_issue LAUNCH_TIME cfg now' UPDATES' issue = Ok (UPDATES', [], issue'').
Proof.
  intros Hlaunch Hreach Hrun.
  pose proof (reachable_store_ok _ _ Hlaunch Hreach) as Hok.
  unfold process_issue in Hrun.
  inv_bind Hrun as t0 Hinit. inv_bind Hrun as r Hcreate. destruct r as [U1 t1].
  inv_bind Hrun as t2 Hchangelog. inv_bind Hrun as t3 Hcomments.
  inv_bind Hrun as t4 Hworklog. inv_bind Hrun as U2 Hstore.
  inv_bind Hrun as posted0 Hposted. injection Hrun as <- <- <-.
  destruct (JiraTicket_init_again cfg UPDATES issue t0 U2 Hinit)
    as (hk & t0' & Hhk & Hinit' & Hkey' & Hlast & Hlast' & Hevs & Hevs' & Hjs & Hjs').
  assert (Hpos : 0 < last_update t0).
  { rewrite Hlast. unfold watermark. destruct (UPDATES !! hk) as [v|] eqn:Hv; simpl.
    - eapply Hok; exact Hv.
    - exact Hlaunch. }
  replace (last_update t0 =? 0) with false in Hcreate
    by (symmetry; apply Z.eqb_neq; lia).
  simpl in Hcreate. injection Hcreate as <- <-.
  pose proof (parse_changelog_extends _ _ Hchangelog) as E02.
  pose proof (parse_comments_extends _ _ Hcomments) as E23.
  pose proof (parse_worklog_extends _ _ Hworklog) as E34.
  pose proof (extends_filled_trans _ _ _ E23 E34) as E24.
  pose proof (extends_filled_trans _ _ _ E02 E24) as E04.
  assert (Hnew : last_update t0 <= last_update t0' /\
                 Forall (stale (last_update t0')) (events t4)).
  { rewrite Hlast'. destruct (ext_events _ _ _ E04) as (extra & He4 & Hfresh & _).
    rewrite Hevs in He4. simpl in He4.
    destruct (events t4) as [|ev0 evs0] eqn:He.
    - injection Hstore as <-. rewrite <- Hlast. split; [lia | constructor].
    - inv_bind Hstore as ts Hts. inv_bind Hstore as m Hm. inv_bind Hstore as hk' Hhk'.
      injection Hstore as <-.
      rewrite (ext_key _ _ _ E04), Hhk in Hhk'. injection Hhk' as <-.
      unfold watermark. rewrite lookup_insert_eq. simpl.
      destruct (py_max_spec _ _ Hm) as [Hin Hall].
      split.
      + rewrite He4 in Hts. pose proof (timestamps_fresh _ _ _ Hfresh Hts) as Hgt.
        rewrite Forall_forall in Hgt. specialize (Hgt _ Hin). lia.
      + eapply timestamps_stale; eassumption. }
  destruct Hnew as [Hle Hstale].
  assert (Hlater0 : later t0 t0') by (repeat split; assumption).
  unfold process_issue. rewrite Hinit'. simpl.
  replace (last_update t0' =? 0) with false by (symmetry; apply Z.eqb_neq; lia).
  simpl.
  destruct (parse_changelog_later t0 t2 t0' Hchangelog Hlater0) as (f' & ->).
  { rewrite Hjs, Hjs'. reflexivity. }
  { eapply stale_before; [exact E24 | exact Hstale]. }
  simpl.
  destruct (parse_changelog_json _ _ Hchangelog) as (f & Hj2).
  destruct (parse_comments_later t2 t3
              (set_json_data t0' (upd_member "changelog" f' (json_data t0'))) Hcomments)
    as (g' & ->).
  { unfold later. simpl.
    rewrite (ext_key _ _ _ E02), (ext_last_update _ _ _ E02). exact Hlater0. }
  { simpl. rewrite Hj2, !read_comments_changelog, Hjs, Hjs'. reflexivity. }
  { simpl. eapply stale_before; [exact E34 | exact Hstale]. }
  simpl.
  destruct (parse_comments_json _ _ Hcomments) as (g & Hj3).
  destruct (parse_worklog_later t3 t4
              (set_json_data (set_json_data t0' (upd_member "changelog" f' (json_data t0')))
                 (upd_member "fields" (upd_member "comment" g')
                    (upd_member "changelog" f' (json_data t0')))) Hworklog)
    as (js & ->).
  { unfold later. simpl.
    rewrite (ext_key _ _ _ E23), (ext_last_update _ _ _ E23).
    rewrite (ext_key _ _ _ E02), (ext_last_update _ _ _ E02). exact Hlater0. }
  { simpl. rewrite Hj3, Hj2, !read_worklogs_comment, !read_worklogs_changelog, Hjs, Hjs'.
    reflexivity. }
  { simpl. exact Hstale. }
  simpl. rewrite Hevs'. simpl. eexists. reflexivity.
Qed.

End SecondPass.

Lemma second_pass_is_silent_witness :
  exists UPDATES' posted issue' issue'',
    process_issue (B:=Py.builtins) Sample.launch Sample.cfg Sample.now ∅
      Sample.resolution_issue = Ok (UPDATES', posted, issue') /\
    process_issue (B:=Py.builtins) Sample.launch Sample.cfg (Sample.now + 5000000)
      UPDATES' Sample.resolution_issue = Ok (UPDATES', [], issue'').
Proof.
  destruct resolution_issue_run as [[[UPDATES' posted] issue'] Hrun].
  destruct (second_pass_is_silent (B:=Py.builtins) Sample.launch Sample.cfg
              Sample.now (Sample.now + 5000000) ∅ Sample.resolution_issue
              UPDATES' posted issue') as (issue'' & Hagain).
  - reflexivity.
  - apply reach_start.
  - exact Hrun.
  - exists UPDATES', posted, issue', issue''. split; [exact Hrun | exact Hagain].
Defined.

(** * Counting events, and answers that are not lists *)

Section Counting.
Context `{B : Builtins}.
Variable LAUNCH_TIME : Z.

Lemma changelog_item_count be t item t' :
  (0 <? last_update t) = true ->
  changelog_item be t item = Ok t' ->
  last_update t' = last_update t /\
  length (events t')
  = (length (events t) + (if reported item then 1 else 0))%nat.
Proof.
  intros Hpos. unfold changelog_item, reported, reported_fields.
  destruct item as [| | | | |it]; try discriminate.
  simpl existsb. rewrite Hpos.
  repeat match goal with
         | |- context [is_str ?f ?v] => destruct (is_str f v) eqn:?
         end;
    simpl; try destruct (py_truthy _); intros [= <-]; simpl;
    rewrite ?length_app; simpl; split; try reflexivity; lia.
Qed.

Lemma for_items_count be its :
  forall t t',
    (0 <? last_update t) = true ->
    for_items (changelog_item be) t its = Ok t' ->
    length (events t')
    = (length (events t) + length (List.filter reported its))%nat.
Proof.
  induction its as [|item its IH]; simpl; intros t t' Hpos Heq.
  - injection Heq as <-. lia.
  - inv_bind Heq as tm Hitem.
    destruct (changelog_item_count _ _ _ _ Hpos Hitem) as [Hlast Hlen].
    rewrite (IH tm t') by (rewrite ?Hlast; assumption).
    rewrite Hlen. destruct (reported item); simpl; lia.
Qed.

(** X16. A history entry that qualifies, on a ticket with a positive
    watermark, yields as many events as it has items for one of the five
    reported fields, no more and no fewer. *)
Theorem changelog_entry_counts t d be e' its t' x' :
  0 < last_update t ->
  make_event_dict t (JObj d) = Ok (Some be, e') ->
  dict_get "items" d = Some (JArr its) ->
  changelog_entry t (JObj d) = Ok (t', x') ->
  length (events t')
  = (length (events t) + length (List.filter reported its))%nat.
Proof.
  intros Hpos Hmk Hitems Heq. apply Z.ltb_lt in Hpos.
  destruct (make_event_dict_times _ _ _ _ Hmk) as (_ & _ & _ & _ & _ & _ & _ & _ & _ & ->).
  unfold changelog_entry in Heq. rewrite Hmk in Heq. simpl in Heq.
  rewrite (fill_author_other "items") in Heq by discriminate.
  rewrite Hitems in Heq. simpl in Heq.
  inv_bind Heq as tl Hloop. injection Heq as <- <-.
  eapply for_items_count; eassumption.
Qed.

(** X17. An answer of Jira whose [issues] member is not a list stops the
    bridge: unless it is an empty string or an empty object, the poll cycle
    raises [TypeError], either on iterating over it or on the first thing
    the iteration gives, which is no snapshot. *)
Theorem issues_not_a_list_raises cfg now UPDATES d v :
  dict_get "issues" d = Some v ->
  (forall l, v <> JArr l) -> v <> JStr EmptyString -> v <> JObj [] ->
  poll_cycle LAUNCH_TIME cfg now UPDATES (Body (JObj d)) = Raise TypeError.
Proof.
  intros Hd Harr Hstr Hobj. unfold poll_cycle. simpl. rewrite Hd. simpl.
  destruct v as [| | |s|l|o]; try reflexivity.
  - destruct s as [|c s]; [contradiction|]. reflexivity.
  - exfalso. eapply Harr. reflexivity.
  - destruct o as [|[k x] o]; [contradiction|]. reflexivity.
Qed.

End Counting.

Lemma status_change_base :
  { r | make_event_dict (B:=Py.builtins) Sample.ticket
          (JObj (Sample.change "2023-11-14T22:14:00.000+0000" "status"
                   (JStr "Open") (JStr "In Progress")))
        = Ok (Some (fst r), snd r) }.
Proof. eexists (_, _). vm_compute. reflexivity. Defined.

Lemma status_change_run :
  { r | changelog_entry (B:=Py.builtins) Sample.ticket
          (JObj (Sample.change "2023-11-14T22:14:00.000+0000" "status"
                   (JStr "Open") (JStr "In Progress")))
        = Ok r }.
Proof. eexists. vm_compute. reflexivity. Defined.

Lemma changelog_entry_counts_witness :
  exists t' x',
    changelog_entry (B:=Py.builtins) Sample.ticket
      (JObj (Sample.change "2023-11-14T22:14:00.000+0000" "status"
               (JStr "Open") (JStr "In Progress")))
    = Ok (t', x') /\
    length (events t') = 1%nat.
Proof.
  destruct status_change_base as [[be e'] Hmk]. simpl in Hmk.
  destruct status_change_run as [[t' x'] Hrun].
  exists t', x'. split; [exact Hrun|].
  exact (changelog_entry_counts (B:=Py.builtins) Sample.ticket _ be e'
           [JObj [("field", JStr "status"); ("fromString", JStr "Open");
                  ("toString", JStr "In Progress")]] t' x'
           eq_refl Hmk eq_refl Hrun).
Defined.

Lemma issues_not_a_list_raises_witness :
  poll_cycle (B:=Py.builtins) Sample.launch Sample.cfg Sample.now ∅
    (Body (JObj [("issues", JNull)])) = Raise TypeError.
Proof.
  apply (issues_not_a_list_raises (B:=Py.builtins) Sample.launch Sample.cfg Sample.now ∅
           [("issues", JNull)] JNull); [reflexivity | discriminate ..].
Defined.

(** * What a pass yields, record by record *)

Section Frame.
Context `{B : Builtins}.

Lemma blank_fields t2 t :
  blank t2 = blank t ->
  link t2 = link t /\ key t2 = key t /\ summary t2 = summary t /\
  last_update t2 = last_update t.
Proof.
  intros H.
  pose proof (f_equal link H) as Hl. pose proof (f_equal key H) as Hk.
  pose proof (f_equal summary H) as Hs. pose proof (f_equal last_update H) as Hu.
  simpl in Hl, Hk, Hs, Hu. repeat split; assumption.
Qed.

Lemma set_events_id t : set_events t (events t) = t.
Proof. destruct t; reflexivity. Qed.

Lemma make_event_dict_blank t2 t e :
  blank t2 = blank t -> make_event_dict t2 e = make_event_dict t e.
Proof.
  intros H. destruct (blank_fields _ _ H) as (Hl & Hk & Hs & Hu).
  unfold make_event_dict. rewrite Hl, Hk, Hs, Hu. reflexivity.
Qed.

(** The loop bodies read the ticket for its key, link, summary and
    watermark only, and write to it by appending events. *)
Lemma changelog_item_uniform be t item t' :
  changelog_item be t item = Ok t' ->
  exists X, forall t2,
    blank t2 = blank t ->
    changelog_item be t2 item = Ok (set_events t2 (events t2 ++ X)).
Proof.
  unfold changelog_item. destruct item as [| | | | |it]; try discriminate.
  intros Heq.
  repeat match type of Heq with
         | context [if ?b then _ else _] => destruct b eqn:?
         end;
    clear Heq;
    first [ eexists; intros t2 H2;
            destruct (blank_fields _ _ H2) as (Hl & Hk & _ & Hu);
            rewrite ?Hl, ?Hk, ?Hu;
            repeat match goal with
                   | H : ?b = _ |- context [?b] => rewrite H
                   end;
            reflexivity
          | exists []; intros t2 H2;
            destruct (blank_fields _ _ H2) as (Hl & Hk & _ & Hu);
            rewrite ?Hl, ?Hk, ?Hu;
            repeat match goal with
                   | H : ?b = _ |- context [?b] => rewrite H
                   end;
            rewrite app_nil_r, set_events_id; reflexivity ].
Qed.

End Frame.

Section ItemLoop.
Context `{B : Builtins}.

Lemma item_events_blank t2 t be item :
  blank t2 = blank t -> item_events t2 be item = item_events t be item.
Proof. intros H. unfold item_events. rewrite H. reflexivity. Qed.

Lemma changelog_item_local be t item t' t2 :
  changelog_item be t item = Ok t' -> blank t2 = blank t ->
  changelog_item be t2 item
  = Ok (set_events t2 (events t2 ++ item_events t be item)).
Proof.
  intros Heq H2. destruct (changelog_item_uniform _ _ _ _ Heq) as (X & HX).
  assert (HXe : item_events t be item = X).
  { unfold item_events. rewrite (HX (blank t) eq_refl). reflexivity. }
  rewrite HXe. apply HX. exact H2.
Qed.

Lemma for_items_local be l :
  forall t t' t2,
    for_items (changelog_item be) t l = Ok t' -> blank t2 = blank t ->
    for_items (changelog_item be) t2 l
    = Ok (set_events t2 (events t2 ++ flat_map (item_events t be) l)).
Proof.
  induction l as [|x l IH]; simpl; intros t t' t2 Heq H2.
  - rewrite app_nil_r, set_events_id. reflexivity.
  - inv_bind Heq as tm Hx.
    rewrite (changelog_item_local _ _ _ _ t2 Hx H2). simpl.
    pose proof (changelog_item_local _ _ _ _ t Hx eq_refl) as Hm.
    rewrite Hx in Hm. injection Hm as Hm.
    assert (Hbm : blank tm = blank t) by (rewrite Hm; reflexivity).
    rewrite (IH tm t' (set_events t2 (events t2 ++ item_events t be x)) Heq)
      by (rewrite Hbm; exact H2).
    simpl. rewrite <- app_assoc.
    rewrite (flat_map_ext _ _ (fun y => item_events_blank _ _ be y Hbm)).
    reflexivity.
Qed.

(** One history entry. *)
Lemma changelog_entry_uniform t e t' e' :
  changelog_entry t e = Ok (t', e') ->
  exists X, forall t2,
    blank t2 = blank t ->
    changelog_entry t2 e = Ok (set_events t2 (events t2 ++ X), e').
Proof.
  unfold changelog_entry. intros Heq. inv_bind Heq as r Hmk. destruct r as [[be|] ch].
  - inv_bind Heq as items Hitems. inv_bind Heq as its Hits. inv_bind Heq as tl Hloop.
    injection Heq as <- <-.
    exists (flat_map (item_events t be) its). intros t2 H2.
    rewrite (make_event_dict_blank _ _ _ H2), Hmk. simpl. rewrite Hitems. simpl.
    rewrite Hits. simpl. rewrite (for_items_local _ _ _ _ t2 Hloop H2). reflexivity.
  - injection Heq as <- <-. exists []. intros t2 H2.
    rewrite (make_event_dict_blank _ _ _ H2), Hmk. simpl.
    rewrite app_nil_r, set_events_id. reflexivity.
Qed.

Lemma comment_entry_uniform t e t' e' :
  comment_entry t e = Ok (t', e') ->
  exists X, forall t2,
    blank t2 = blank t ->
    comment_entry t2 e = Ok (set_events t2 (events t2 ++ X), e').
Proof.
  unfold comment_entry. intros Heq. inv_bind Heq as r Hmk. destruct r as [[be|] ch].
  - inv_bind Heq as bc Hbc. inv_bind Heq as ts Hts.
    destruct (negb (bc =? ts)) eqn:Hedit; destruct (0 <? last_update t) eqn:Hpos;
      try (injection Heq as <- <-; exists []; intros t2 H2;
           destruct (blank_fields _ _ H2) as (_ & _ & _ & Hu);
           rewrite (make_event_dict_blank _ _ _ H2), Hmk; simpl;
           rewrite Hbc, Hts; simpl; rewrite Hedit, Hu, Hpos;
           rewrite app_nil_r, set_events_id; reflexivity);
      inv_bind Heq as body Hbody; injection Heq as <- <-;
      eexists; intros t2 H2;
      destruct (blank_fields _ _ H2) as (_ & _ & _ & Hu);
      rewrite (make_event_dict_blank _ _ _ H2), Hmk; simpl;
      rewrite Hbc, Hts; simpl; rewrite Hedit, Hu, Hpos, Hbody; reflexivity.
  - injection Heq as <- <-. exists []. intros t2 H2.
    rewrite (make_event_dict_blank _ _ _ H2), Hmk. simpl.
    rewrite app_nil_r, set_events_id. reflexivity.
Qed.

Lemma worklog_entry_uniform t e t' e' :
  worklog_entry t e = Ok (t', e') ->
  exists X, forall t2,
    blank t2 = blank t ->
    worklog_entry t2 e = Ok (set_events t2 (events t2 ++ X), e').
Proof.
  unfold worklog_entry. intros Heq. inv_bind Heq as r Hmk. destruct r as [[be|] ch].
  - inv_bind Heq as bc Hbc. inv_bind Heq as ts Hts.
    destruct (negb (bc =? ts)) eqn:Hedit; destruct (0 <? last_update t) eqn:Hpos;
      try (injection Heq as <- <-; exists []; intros t2 H2;
           destruct (blank_fields _ _ H2) as (_ & _ & _ & Hu);
           rewrite (make_event_dict_blank _ _ _ H2), Hmk; simpl;
           rewrite Hbc, Hts; simpl; rewrite Hedit, Hu, Hpos;
           rewrite app_nil_r, set_events_id; reflexivity);
      inv_bind Heq as body Hbody; inv_bind Heq as spent Hspent;
      injection Heq as <- <-;
      eexists; intros t2 H2;
      destruct (blank_fields _ _ H2) as (_ & _ & _ & Hu);
      rewrite (make_event_dict_blank _ _ _ H2), Hmk; simpl;
      rewrite Hbc, Hts; simpl; rewrite Hedit, Hu, Hpos, Hbody; simpl;
      rewrite Hspent; reflexivity.
  - injection Heq as <- <-. exists []. intros t2 H2.
    rewrite (make_event_dict_blank _ _ _ H2), Hmk. simpl.
    rewrite app_nil_r, set_events_id. reflexivity.
Qed.

End ItemLoop.

Section RecordLoop.
Context `{B : Builtins}.

Lemma of_uniform (body : JiraTicket -> json -> result (JiraTicket * json))
    t e t' e' X :
  body t e = Ok (t', e') ->
  (forall t2, blank t2 = blank t ->
              body t2 e = Ok (set_events t2 (events t2 ++ X), e')) ->
  match body (blank t) e with Ok (tx, _) => events tx | Raise _ => [] end = X.
Proof. intros _ HX. rewrite (HX (blank t) eq_refl). reflexivity. Qed.

Lemma changelog_entry_local t e t' e' t2 :
  changelog_entry t e = Ok (t', e') -> blank t2 = blank t ->
  changelog_entry t2 e = Ok (set_events t2 (events t2 ++ history_events t e), e').
Proof.
  intros Heq H2. destruct (changelog_entry_uniform _ _ _ _ Heq) as (X & HX).
  unfold history_events. rewrite (of_uniform _ _ _ _ _ _ Heq HX). apply HX. exact H2.
Qed.

Lemma comment_entry_local t e t' e' t2 :
  comment_entry t e = Ok (t', e') -> blank t2 = blank t ->
  comment_entry t2 e = Ok (set_events t2 (events t2 ++ comment_events t e), e').
Proof.
  intros Heq H2. destruct (comment_entry_uniform _ _ _ _ Heq) as (X & HX).
  unfold comment_events. rewrite (of_uniform _ _ _ _ _ _ Heq HX). apply HX. exact H2.
Qed.

Lemma worklog_entry_local t e t' e' t2 :
  worklog_entry t e = Ok (t', e') -> blank t2 = blank t ->
  worklog_entry t2 e = Ok (set_events t2 (events t2 ++ worklog_events t e), e').
Proof.
  intros Heq H2. destruct (worklog_entry_uniform _ _ _ _ Heq) as (X & HX).
  unfold worklog_events. rewrite (of_uniform _ _ _ _ _ _ Heq HX). apply HX. exact H2.
Qed.

Lemma history_events_blank t2 t e :
  blank t2 = blank t -> history_events t2 e = history_events t e.
Proof. intros H. unfold history_events. rewrite H. reflexivity. Qed.

Lemma comment_events_blank t2 t e :
  blank t2 = blank t -> comment_events t2 e = comment_events t e.
Proof. intros H. unfold comment_events. rewrite H. reflexivity. Qed.

Lemma worklog_events_blank t2 t e :
  blank t2 = blank t -> worklog_events t2 e = worklog_events t e.
Proof. intros H. unfold worklog_events. rewrite H. reflexivity. Qed.

(** A loop over records appends what each of them yields on its own, in
    the order of the list. *)
Lemma for_entries_local body (evs : JiraTicket -> json -> list dict) :
  (forall t e t' e' t2,
     body t e = Ok (t', e') -> blank t2 = blank t ->
     body t2 e = Ok (set_events t2 (events t2 ++ evs t e), e')) ->
  (forall t2 t e, blank t2 = blank t -> evs t2 e = evs t e) ->
  forall l t t' l',
    for_entries body t l = Ok (t', l') ->
    t' = set_events t (events t ++ flat_map (evs t) l) /\
    Forall2 (fun e e' => exists t1, body t e = Ok (t1, e')) l l'.
Proof.
  intros Hlocal Hblank. induction l as [|x l IH]; simpl; intros t t' l' Heq.
  - injection Heq as <- <-. rewrite app_nil_r, set_events_id. split; [reflexivity | constructor].
  - inv_bind Heq as r1 Hx. destruct r1 as [tm x'].
    inv_bind Heq as r2 Hl. destruct r2 as [t2 l2]. injection Heq as <- <-.
    pose proof (Hlocal _ _ _ _ t Hx eq_refl) as Hm.
    rewrite Hx in Hm. injection Hm as Hm.
    assert (Hbm : blank tm = blank t) by (rewrite Hm; reflexivity).
    destruct (IH _ _ _ Hl) as [-> Hall].
    split.
    + rewrite (flat_map_ext _ _ (fun y => Hblank _ _ y Hbm)).
      rewrite Hm. simpl. rewrite <- app_assoc. reflexivity.
    + constructor; [eexists; exact Hx|].
      eapply Forall2_impl; [exact Hall|].
      intros e e' (t1 & He). eexists. apply (Hlocal _ _ _ _ t He). symmetry. exact Hbm.
Qed.

Lemma make_event_dict_touch t e o e1 :
  make_event_dict t e = Ok (o, e1) -> e1 = touch t e.
Proof.
  intros Heq. unfold touch, qualifies. rewrite Heq. destruct o as [be|].
  - apply make_event_dict_Some in Heq. destruct Heq as (d & _ & _ & _ & -> & -> & _).
    reflexivity.
  - apply make_event_dict_None in Heq. exact Heq.
Qed.

Lemma changelog_entry_touch t e t' e' :
  changelog_entry t e = Ok (t', e') -> e' = touch t e.
Proof.
  unfold changelog_entry. intros Heq. inv_bind Heq as r Hmk. destruct r as [o e1].
  pose proof (make_event_dict_touch _ _ _ _ Hmk) as <-.
  destruct o.
  - inv_bind Heq as items Hitems. inv_bind Heq as its Hits. inv_bind Heq as tl Hloop.
    injection Heq as _ <-. reflexivity.
  - injection Heq as _ <-. reflexivity.
Qed.

Lemma comment_entry_touch t e t' e' :
  comment_entry t e = Ok (t', e') -> e' = touch t e.
Proof.
  intros Heq. destruct (comment_entry_extends _ _ _ _ Heq) as [_ Hrw].
  unfold comment_entry in Heq. inv_bind Heq as r Hmk. destruct r as [o e1].
  pose proof (make_event_dict_touch _ _ _ _ Hmk) as <-.
  destruct o.
  - inv_bind Heq as bc Hbc. inv_bind Heq as ts Hts.
    destruct (negb (bc =? ts)); destruct (0 <? last_update t);
      try (injection Heq as _ <-; reflexivity);
      inv_bind Heq as body Hbody; injection Heq as _ <-; reflexivity.
  - injection Heq as _ <-. reflexivity.
Qed.

Lemma worklog_entry_touch t e t' e' :
  worklog_entry t e = Ok (t', e') -> e' = touch t e.
Proof.
  intros Heq.
  unfold worklog_entry in Heq. inv_bind Heq as r Hmk. destruct r as [o e1].
  pose proof (make_event_dict_touch _ _ _ _ Hmk) as <-.
  destruct o.
  - inv_bind Heq as bc Hbc. inv_bind Heq as ts Hts.
    destruct (negb (bc =? ts)); destruct (0 <? last_update t);
      try (injection Heq as _ <-; reflexivity);
      inv_bind Heq as body Hbody; inv_bind Heq as spent Hspent;
      injection Heq as _ <-; reflexivity.
  - injection Heq as _ <-. reflexivity.
Qed.

Lemma Forall2_touch (body : JiraTicket -> json -> result (JiraTicket * json)) t l l' :
  (forall e t1 e', body t e = Ok (t1, e') -> e' = touch t e) ->
  Forall2 (fun e e' => exists t1, body t e = Ok (t1, e')) l l' ->
  l' = map (touch t) l.
Proof.
  intros Hbody Hall. induction Hall as [|e e' l l' (t1 & He) _ IH]; simpl.
  - reflexivity.
  - rewrite (Hbody _ _ _ He), IH. reflexivity.
Qed.

Lemma Forall2_completes (body : JiraTicket -> json -> result (JiraTicket * json)) t l l' :
  Forall2 (fun e e' => exists t1, body t e = Ok (t1, e')) l l' ->
  Forall (fun e => exists r, body t e = Ok r) l.
Proof.
  intros Hall. induction Hall as [|e e' l l' (t1 & He) _ IH]; constructor.
  - eexists. exact He.
  - exact IH.
Qed.

Lemma dict_alter_ext k f g d :
  (forall x, dict_get k d = Some x -> f x = g x) ->
  dict_alter k f d = dict_alter k g d.
Proof.
  induction d as [|[k' v'] d IH]; simpl; intros Hfg; [reflexivity|].
  destruct (String.eqb k' k).
  - rewrite (Hfg v' eq_refl). reflexivity.
  - rewrite IH by exact Hfg. reflexivity.
Qed.

Lemma upd_member_ext k f g v :
  (forall d x, v = JObj d -> dict_get k d = Some x -> f x = g x) ->
  upd_member k f v = upd_member k g v.
Proof.
  intros Hfg. destruct v as [| | | | |d]; try reflexivity.
  simpl. f_equal. apply dict_alter_ext. intros x Hx. eapply Hfg; [reflexivity | exact Hx].
Qed.

Lemma store_map_elements f v l :
  py_iter v = Ok l -> store_elements (map f l) v = map_elements f v.
Proof.
  destruct v; simpl; try reflexivity. intros [= ->]. reflexivity.
Qed.

(** The three parsers, each on its list. *)
Lemma parse_changelog_course t t' :
  parse_changelog t = Ok t' ->
  exists l,
    read_histories (json_data t) = Ok l /\
    t' = set_json_data
           (set_events t (events t ++ flat_map (history_events t) l))
           (upd_member "changelog"
              (upd_member "histories" (map_elements (touch t))) (json_data t)) /\
    Forall (fun e => exists r, changelog_entry t e = Ok r) l.
Proof.
  unfold parse_changelog, read_histories. intros Heq.
  inv_bind Heq as cl Hcl. inv_bind Heq as elements Hel. inv_bind Heq as l Hl.
  inv_bind Heq as r Hloop. destruct r as [tl l']. injection Heq as <-.
  destruct (for_entries_local _ _ changelog_entry_local history_events_blank
              _ _ _ _ Hloop) as [-> Hall].
  exists l. rewrite Hcl. simpl. rewrite Hel. simpl.
  split; [exact Hl|]. split; [|eapply Forall2_completes; exact Hall].
  rewrite (Forall2_touch _ _ _ _ (changelog_entry_touch t) Hall). simpl. f_equal.
  apply upd_member_ext. intros d x Hd Hx.
  rewrite <- (py_get_member _ _ _ _ _ _ Hcl Hd Hx).
  apply upd_member_ext. intros d2 x2 Hd2 Hx2.
  rewrite <- (py_get_member _ _ _ _ _ _ Hel Hd2 Hx2).
  apply store_map_elements. exact Hl.
Qed.

Lemma parse_comments_course t t' :
  parse_comments t = Ok t' ->
  exists l,
    read_comments (json_data t) = Ok l /\
    t' = set_json_data
           (set_events t (events t ++ flat_map (comment_events t) l))
           (upd_member "fields"
              (upd_member "comment" (upd_member "comments" (map_elements (touch t))))
              (json_data t)) /\
    Forall (fun e => exists r, comment_entry t e = Ok r) l.
Proof.
  unfold parse_comments, read_comments. intros Heq.
  inv_bind Heq as fields Hfields.
  inv_bind Heq as cm Hcm. inv_bind Heq as elements Hel. inv_bind Heq as l Hl.
  inv_bind Heq as r Hloop. destruct r as [tl l']. injection Heq as <-.
  destruct (for_entries_local _ _ comment_entry_local comment_events_blank
              _ _ _ _ Hloop) as [-> Hall].
  exists l. rewrite Hfields. simpl. rewrite Hcm. simpl. rewrite Hel. simpl.
  split; [exact Hl|]. split; [|eapply Forall2_completes; exact Hall].
  rewrite (Forall2_touch _ _ _ _ (comment_entry_touch t) Hall). simpl. f_equal.
  apply upd_member_ext. intros d0 x0 Hd0 Hx0.
  rewrite <- (py_getitem_member _ _ _ _ _ Hfields Hd0 Hx0).
  apply upd_member_ext. intros d x Hd Hx.
  rewrite <- (py_get_member _ _ _ _ _ _ Hcm Hd Hx).
  apply upd_member_ext. intros d2 x2 Hd2 Hx2.
  rewrite <- (py_get_member _ _ _ _ _ _ Hel Hd2 Hx2).
  apply store_map_elements. exact Hl.
Qed.

Lemma parse_worklog_course t t' :
  parse_worklog t = Ok t' ->
  exists l,
    read_worklogs (json_data t) = Ok l /\
    t' = set_json_data
           (set_events t (events t ++ flat_map (worklog_events t) l))
           (upd_member "fields"
              (upd_member "worklog" (upd_member "worklogs" (map_elements (touch t))))
              (json_data t)) /\
    Forall (fun e => exists r, worklog_entry t e = Ok r) l.
Proof.
  unfold parse_worklog, read_worklogs. intros Heq.
  inv_bind Heq as fields Hfields.
  inv_bind Heq as wl Hwl. inv_bind Heq as elements Hel. inv_bind Heq as l Hl.
  inv_bind Heq as r Hloop. destruct r as [tl l']. injection Heq as <-.
  destruct (for_entries_local _ _ worklog_entry_local worklog_events_blank
              _ _ _ _ Hloop) as [-> Hall].
  exists l. rewrite Hfields. simpl. rewrite Hwl. simpl. rewrite Hel. simpl.
  split; [exact Hl|]. split; [|eapply Forall2_completes; exact Hall].
  rewrite (Forall2_touch _ _ _ _ (worklog_entry_touch t) Hall). simpl. f_equal.
  apply upd_member_ext. intros d0 x0 Hd0 Hx0.
  rewrite <- (py_getitem_member _ _ _ _ _ Hfields Hd0 Hx0).
  apply upd_member_ext. intros d x Hd Hx.
  rewrite <- (py_get_member _ _ _ _ _ _ Hwl Hd Hx).
  apply upd_member_ext. intros d2 x2 Hd2 Hx2.
  rewrite <- (py_get_member _ _ _ _ _ _ Hel Hd2 Hx2).
  apply store_map_elements. exact Hl.
Qed.

End RecordLoop.

Section Course.
Context `{B : Builtins}.
Variable LAUNCH_TIME : Z.

Lemma touch_blank t2 t e : blank t2 = blank t -> touch t2 e = touch t e.
Proof.
  intros H. unfold touch, qualifies. rewrite (make_event_dict_blank _ _ e H). reflexivity.
Qed.

Lemma map_elements_blank t2 t v :
  blank t2 = blank t -> map_elements (touch t2) v = map_elements (touch t) v.
Proof.
  intros H. destruct v; simpl; try reflexivity. f_equal.
  apply map_ext. intros e. apply touch_blank. exact H.
Qed.

Lemma completes_blank (body : JiraTicket -> json -> result (JiraTicket * json))
    (evs : JiraTicket -> json -> list dict) t2 t l :
  (forall t e t' e' t2,
     body t e = Ok (t', e') -> blank t2 = blank t ->
     body t2 e = Ok (set_events t2 (events t2 ++ evs t e), e')) ->
  blank t2 = blank t ->
  Forall (fun e => exists r, body t2 e = Ok r) l ->
  Forall (fun e => exists r, body t e = Ok r) l.
Proof.
  intros Hlocal H Hall. eapply Forall_impl; [exact Hall|].
  intros e ([t' e'] & He). eexists. apply (Hlocal _ _ _ _ t He). symmetry. exact H.
Qed.

(** A store the bridge can be in, when it was launched after the epoch,
    gives every ticket a positive watermark. *)
Lemma reachable_positive cfg UPDATES issue t :
  0 < LAUNCH_TIME -> reachable LAUNCH_TIME UPDATES ->
  JiraTicket_init LAUNCH_TIME cfg UPDATES issue = Ok t ->
  0 < last_update t.
Proof.
  intros Hlaunch Hreach Hinit.
  destruct (JiraTicket_init_inv _ _ _ _ _ Hinit) as (k & hk & _ & _ & _ & Hlast & _).
  pose proof (reachable_store_ok _ _ Hlaunch Hreach) as Hok.
  rewrite Hlast. unfold watermark. destruct (UPDATES !! hk) as [v|] eqn:Hv; simpl.
  - eapply Hok; exact Hv.
  - exact Hlaunch.
Qed.

(** The course of a completed pass over a ticket whose watermark is not 0:
    the events of the pass, which the loop of line 266 goes through, are
    those of the history entries, then those of the comments, then those
    of the worklog entries, record by record, and the snapshot comes back
    with these records touched. *)
Lemma pass_course cfg now UPDATES issue t0 UPDATES' posted issue' :
  JiraTicket_init LAUNCH_TIME cfg UPDATES issue = Ok t0 ->
  last_update t0 <> 0 ->
  process_issue LAUNCH_TIME cfg now UPDATES issue = Ok (UPDATES', posted, issue') ->
  exists hist comments worklogs,
    read_histories issue = Ok hist /\
    read_comments issue = Ok comments /\
    read_worklogs issue = Ok worklogs /\
    map snd posted
    = flat_map (history_events t0) hist
      ++ flat_map (comment_events t0) comments
      ++ flat_map (worklog_events t0) worklogs /\
    issue' = touched t0 issue /\
    Forall (fun e => exists r, changelog_entry t0 e = Ok r) hist /\
    Forall (fun e => exists r, comment_entry t0 e = Ok r) comments /\
    Forall (fun e => exists r, worklog_entry t0 e = Ok r) worklogs.
Proof.
  intros Hinit Hnz Hrun. unfold process_issue in Hrun. rewrite Hinit in Hrun.
  cbn [mbind result_bind] in Hrun.
  apply Z.eqb_neq in Hnz. rewrite Hnz in Hrun. cbn [andb mbind result_bind] in Hrun.
  inv_bind Hrun as t2 Hchangelog. inv_bind Hrun as t3 Hcomments.
  inv_bind Hrun as t4 Hworklog. inv_bind Hrun as UPDATES2 Hstore.
  inv_bind Hrun as posted0 Hposted. injection Hrun as _ <- <-.
  destruct (JiraTicket_init_inv _ _ _ _ _ Hinit) as (k & hk & _ & _ & _ & _ & Hevs & Hjs).
  destruct (parse_changelog_course _ _ Hchangelog) as (hist & Hhist & H2 & Hc1).
  destruct (parse_comments_course _ _ Hcomments) as (comments & Hcm & H3 & Hc2).
  destruct (parse_worklog_course _ _ Hworklog) as (worklogs & Hwl & H4 & Hc3).
  assert (Hb2 : blank t2 = blank t0) by (rewrite H2; reflexivity).
  assert (Hb3 : blank t3 = blank t0) by (rewrite H3, <- Hb2; reflexivity).
  assert (Hj2 : json_data t2
                = upd_member "changelog"
                    (upd_member "histories" (map_elements (touch t0))) issue).
  { rewrite H2, Hjs. reflexivity. }
  assert (Hj3 : json_data t3
                = upd_member "fields"
                    (upd_member "comment" (upd_member "comments" (map_elements (touch t0))))
                    (json_data t2)).
  { rewrite H3. simpl. apply upd_member_ext. intros d0 x0 _ _.
    apply upd_member_ext. intros d1 x1 _ _. apply upd_member_ext. intros d2 x2 _ _.
    apply map_elements_blank. exact Hb2. }
  assert (Hj4 : json_data t4
                = upd_member "fields"
                    (upd_member "worklog" (upd_member "worklogs" (map_elements (touch t0))))
                    (json_data t3)).
  { rewrite H4. simpl. apply upd_member_ext. intros d0 x0 _ _.
    apply upd_member_ext. intros d1 x1 _ _. apply upd_member_ext. intros d2 x2 _ _.
    apply map_elements_blank. exact Hb3. }
  rewrite Hjs in Hhist.
  rewrite Hj2, read_comments_changelog in Hcm.
  rewrite Hj3, read_worklogs_comment, Hj2, read_worklogs_changelog in Hwl.
  exists hist, comments, worklogs.
  split; [exact Hhist|]. split; [exact Hcm|]. split; [exact Hwl|].
  split; [|split; [|split; [|split]]].
  - assert (He2 : events t2 = flat_map (history_events t0) hist).
    { rewrite H2. simpl. rewrite Hevs. reflexivity. }
    assert (He3 : events t3 = events t2 ++ flat_map (comment_events t0) comments).
    { rewrite H3. simpl. f_equal. apply flat_map_ext. intros e.
      apply comment_events_blank. exact Hb2. }
    assert (He4 : events t4 = events t3 ++ flat_map (worklog_events t0) worklogs).
    { rewrite H4. simpl. f_equal. apply flat_map_ext. intros e.
      apply worklog_events_blank. exact Hb3. }
    rewrite (post_events_events _ _ _ Hposted), He4, He3, He2, <- app_assoc.
    reflexivity.
  - rewrite Hj4, Hj3, Hj2. reflexivity.
  - exact Hc1.
  - eapply completes_blank; [exact comment_entry_local | exact Hb2 | exact Hc2].
  - eapply completes_blank; [exact worklog_entry_local | exact Hb3 | exact Hc3].
Qed.

End Course.

Section Yield.
Context `{B : Builtins}.

Lemma item_events_one be t item ev :
  changelog_item be (blank t) item
  = Ok (set_events (blank t) (events (blank t) ++ [ev])) ->
  item_events t be item = [ev].
Proof. intros H. unfold item_events. rewrite H. reflexivity. Qed.

(** The events of a history entry that qualifies are those of its items,
    in their order. *)
Lemma history_events_items t d be e' its r :
  make_event_dict t (JObj d) = Ok (Some be, e') ->
  dict_get "items" d = Some (JArr its) ->
  changelog_entry t (JObj d) = Ok r ->
  history_events t (JObj d) = flat_map (item_events t be) its.
Proof.
  intros Hmk Hitems Hrun.
  destruct (make_event_dict_times _ _ _ _ Hmk) as (_ & _ & _ & _ & _ & _ & _ & _ & _ & ->).
  unfold changelog_entry in Hrun. rewrite Hmk in Hrun. simpl in Hrun.
  rewrite (fill_author_other "items") in Hrun by discriminate.
  rewrite Hitems in Hrun. simpl in Hrun.
  inv_bind Hrun as tl Hloop.
  pose proof (for_items_local _ _ _ _ (blank t) Hloop eq_refl) as Hblank.
  unfold history_events, changelog_entry.
  rewrite (make_event_dict_blank (blank t) t (JObj d) eq_refl), Hmk. simpl.
  rewrite (fill_author_other "items") by discriminate.
  rewrite Hitems. simpl. rewrite Hblank. reflexivity.
Qed.




Lemma qualifies_Some t e :
  qualifies t e = true -> exists be e', make_event_dict t e = Ok (Some be, e').
Proof.
  unfold qualifies. destruct (make_event_dict t e) as [[[be|] e1]|]; try discriminate.
  intros _. exists be, e1. reflexivity.
Qed.

(** A comment that qualifies and that the loop got past has a body. *)
Lemma comment_entry_body t d be e' r :
  0 < last_update t ->
  make_event_dict t (JObj d) = Ok (Some be, e') ->
  comment_entry t (JObj d) = Ok r ->
  exists body, dict_get "body" d = Some body.
Proof.
  intros Hpos Hmk Hrun. apply Z.ltb_lt in Hpos.
  destruct (make_event_dict_times _ _ _ _ Hmk)
    as (c & bc & eff & Hc & Hbc & Heff & Hlt & Hts & Hcr & ->).
  unfold comment_entry in Hrun. rewrite Hmk in Hrun. cbn in Hrun.
  rewrite Hcr, Hts in Hrun. cbn in Hrun. rewrite Hpos in Hrun.
  rewrite (fill_author_other "body") in Hrun by discriminate.
  destruct (dict_get "body" d) as [body|]; [exists body; reflexivity|].
  destruct (negb (bc =? eff)); discriminate Hrun.
Qed.

Lemma worklog_entry_body t d be e' r :
  0 < last_update t ->
  make_event_dict t (JObj d) = Ok (Some be, e') ->
  worklog_entry t (JObj d) = Ok r ->
  exists body spent,
    dict_get "comment" d = Some body /\ dict_get "timeSpentSeconds" d = Some spent.
Proof.
  intros Hpos Hmk Hrun. apply Z.ltb_lt in Hpos.
  destruct (make_event_dict_times _ _ _ _ Hmk)
    as (c & bc & eff & Hc & Hbc & Heff & Hlt & Hts & Hcr & ->).
  unfold worklog_entry in Hrun. rewrite Hmk in Hrun. cbn in Hrun.
  rewrite Hcr, Hts in Hrun. cbn in Hrun. rewrite Hpos in Hrun.
  rewrite (fill_author_other "comment"), (fill_author_other "timeSpentSeconds")
    in Hrun by discriminate.
  destruct (dict_get "comment" d) as [body|];
    [|destruct (negb (bc =? eff)); discriminate Hrun].
  destruct (dict_get "timeSpentSeconds" d) as [spent|];
    [|destruct (negb (bc =? eff)); discriminate Hrun].
  exists body, spent. split; reflexivity.
Qed.

End Yield.

(** * What a pass reports *)

Section Reported.
Context `{B : Builtins}.
Variable LAUNCH_TIME : Z.

(** Where the events of one item of a history entry stand among the events
    of a pass. *)
Lemma history_item_place cfg now UPDATES issue UPDATES' posted issue'
    t0 pre d post be e' ipre item ipost :
  0 < LAUNCH_TIME -> reachable LAUNCH_TIME UPDATES ->
  JiraTicket_init LAUNCH_TIME cfg UPDATES issue = Ok t0 ->
  process_issue LAUNCH_TIME cfg now UPDATES issue = Ok (UPDATES', posted, issue') ->
  read_histories issue = Ok (pre ++ JObj d :: post) ->
  make_event_dict t0 (JObj d) = Ok (Some be, e') ->
  dict_get "items" d = Some (JArr (ipre ++ item :: ipost)) ->
  0 < last_update t0 /\
  exists comments worklogs,
    read_comments issue = Ok comments /\
    read_worklogs issue = Ok worklogs /\
    map snd posted
    = (flat_map (history_events t0) pre ++ flat_map (item_events t0 be) ipre)
      ++ item_events t0 be item
      ++ (flat_map (item_events t0 be) ipost
          ++ flat_map (history_events t0) post
          ++ flat_map (comment_events t0) comments
          ++ flat_map (worklog_events t0) worklogs).
Proof.
  intros Hlaunch Hreach Hinit Hrun Hread Hmk Hitems.
  pose proof (reachable_positive _ _ _ _ _ Hlaunch Hreach Hinit) as Hpos.
  split; [exact Hpos|].
  destruct (pass_course _ _ _ _ _ _ _ _ _ Hinit ltac:(lia) Hrun)
    as (hist & comments & worklogs & Hhist & Hcm & Hwl & Hposted & _ & Hc1 & _).
  rewrite Hread in Hhist. injection Hhist as <-.
  apply Forall_app in Hc1. destruct Hc1 as [_ Hc1].
  apply Forall_cons in Hc1. destruct Hc1 as [(r & Hd) _].
  exists comments, worklogs. split; [exact Hcm|]. split; [exact Hwl|].
  rewrite Hposted, flat_map_app. simpl.
  rewrite (history_events_items _ _ _ _ _ _ Hmk Hitems Hd), flat_map_app. simpl.
  rewrite <- !app_assoc. reflexivity.
Qed.

(** Where the events of one comment stand among the events of a pass. *)
Lemma comment_place cfg now UPDATES issue UPDATES' posted issue' t0 pre e post :
  0 < LAUNCH_TIME -> reachable LAUNCH_TIME UPDATES ->
  JiraTicket_init LAUNCH_TIME cfg UPDATES issue = Ok t0 ->
  process_issue LAUNCH_TIME cfg now UPDATES issue = Ok (UPDATES', posted, issue') ->
  read_comments issue = Ok (pre ++ e :: post) ->
  0 < last_update t0 /\
  (exists r, comment_entry t0 e = Ok r) /\
  exists hist worklogs,
    read_histories issue = Ok hist /\
    read_worklogs issue = Ok worklogs /\
    map snd posted
    = (flat_map (history_events t0) hist ++ flat_map (comment_events t0) pre)
      ++ comment_events t0 e
      ++ (flat_map (comment_events t0) post
          ++ flat_map (worklog_events t0) worklogs).
Proof.
  intros Hlaunch Hreach Hinit Hrun Hread.
  pose proof (reachable_positive _ _ _ _ _ Hlaunch Hreach Hinit) as Hpos.
  split; [exact Hpos|].
  destruct (pass_course _ _ _ _ _ _ _ _ _ Hinit ltac:(lia) Hrun)
    as (hist & comments & worklogs & Hhist & Hcm & Hwl & Hposted & _ & _ & Hc2 & _).
  rewrite Hread in Hcm. injection Hcm as <-.
  apply Forall_app in Hc2. destruct Hc2 as [_ Hc2].
  apply Forall_cons in Hc2. destruct Hc2 as [Hd _].
  split; [exact Hd|].
  exists hist, worklogs. split; [exact Hhist|]. split; [exact Hwl|].
  rewrite Hposted, flat_map_app. simpl.
  rewrite <- !app_assoc. reflexivity.
Qed.

(** Where the events of one worklog entry stand among the events of a
    pass. *)
Lemma worklog_place cfg now UPDATES issue UPDATES' posted issue' t0 pre e post :
  0 < LAUNCH_TIME -> reachable LAUNCH_TIME UPDATES ->
  JiraTicket_init LAUNCH_TIME cfg UPDATES issue = Ok t0 ->
  process_issue LAUNCH_TIME cfg now UPDATES issue = Ok (UPDATES', posted, issue') ->
  read_worklogs issue = Ok (pre ++ e :: post) ->
  0 < last_update t0 /\
  (exists r, worklog_entry t0 e = Ok r) /\
  exists hist comments,
    read_histories issue = Ok hist /\
    read_comments issue = Ok comments /\
    map snd posted
    = (flat_map (history_events t0) hist ++ flat_map (comment_events t0) comments
       ++ flat_map (worklog_events t0) pre)
      ++ worklog_events t0 e
      ++ flat_map (worklog_events t0) post.
Proof.
  intros Hlaunch Hreach Hinit Hrun Hread.
  pose proof (reachable_positive _ _ _ _ _ Hlaunch Hreach Hinit) as Hpos.
  split; [exact Hpos|].
  destruct (pass_course _ _ _ _ _ _ _ _ _ Hinit ltac:(lia) Hrun)
    as (hist & comments & worklogs & Hhist & Hcm & Hwl & Hposted & _ & _ & _ & Hc3).
  rewrite Hread in Hwl. injection Hwl as <-.
  apply Forall_app in Hc3. destruct Hc3 as [_ Hc3].
  apply Forall_cons in Hc3. destruct Hc3 as [Hd _].
  split; [exact Hd|].
  exists hist, comments. split; [exact Hhist|]. split; [exact Hcm|].
  rewrite Hposted, flat_map_app. simpl.
  rewrite <- !app_assoc. reflexivity.
Qed.


(** X3. The bridge is launched after the epoch and is in a store it can
    reach. In a pass that completes, an item for the status, the summary or
    the description, in a history entry that qualifies, is reported by
    exactly one event, at its place among the events of the pass. Its
    action is the name of the field; it carries the previous
    value (the empty string when the item has none) and the new value
    ([None] when it has none), and the effective time of the history
    entry. Only the sentence of a status change tells the new value. *)
Theorem field_change_reported cfg now UPDATES issue UPDATES' posted issue'
    t0 pre d post be e' ipre it ipost f :
  0 < LAUNCH_TIME -> reachable LAUNCH_TIME UPDATES ->
  JiraTicket_init LAUNCH_TIME cfg UPDATES issue = Ok t0 ->
  process_issue LAUNCH_TIME cfg now UPDATES issue = Ok (UPDATES', posted, issue') ->
  read_histories issue = Ok (pre ++ JObj d :: post) ->
  make_event_dict t0 (JObj d) = Ok (Some be, e') ->
  dict_get "items" d = Some (JArr (ipre ++ JObj it :: ipost)) ->
  dict_get "field" it = Some (JStr f) ->
  f = "status" \/ f = "summary" \/ f = "description" ->
  exists ev comments worklogs c eff,
    read_comments issue = Ok comments /\
    read_worklogs issue = Ok worklogs /\
    item_events t0 be (JObj it) = [ev] /\
    map snd posted
    = (flat_map (history_events t0) pre ++ flat_map (item_events t0 be) ipre)
      ++ [ev]
      ++ (flat_map (item_events t0 be) ipost
          ++ flat_map (history_events t0) post
          ++ flat_map (comment_events t0) comments
          ++ flat_map (worklog_events t0) worklogs) /\
    dict_get "action" ev = Some (JStr f) /\
    dict_get "from" ev = Some (default (JStr EmptyString) (dict_get "fromString" it)) /\
    dict_get "to" ev = Some (default JNull (dict_get "toString" it)) /\
    dict_get "action_human_text" ev
    = Some (JStr ("changed the " +:+ f +:+ " of <" +:+ link t0 +:+ "|"
                  +:+ fstr (key t0) +:+ ">"
                  +:+ (if String.eqb f "status"
                       then " to *" +:+ fstr (default JNull (dict_get "toString" it))
                            +:+ "*."
                       else EmptyString))) /\
    dict_get "created" d = Some c /\
    jira_to_datetime (default c (dict_get "updated" d)) = Ok eff /\
    dict_get "timestamp" ev = Some (JNum eff).
Proof.
  intros Hlaunch Hreach Hinit Hrun Hread Hmk Hitems Hfield Hf.
  destruct (history_item_place _ _ _ _ _ _ _ _ _ _ _ _ _ _ _ _
              Hlaunch Hreach Hinit Hrun Hread Hmk Hitems)
    as (Hpos & comments & worklogs & Hcm & Hwl & Hposted).
  destruct (make_event_dict_times _ _ _ _ Hmk)
    as (c & bc & eff & Hc & _ & Heff & _ & Hts & _ & _).
  apply ev_num_get in Hts.
  destruct (field_change_event be (blank t0) it f Hpos Hfield Hf)
    as (ev & Hitem & Hact & Hfrom & Hto & Htext & Hstamp).
  apply item_events_one in Hitem.
  exists ev, comments, worklogs, c, eff.
  split; [exact Hcm|]. split; [exact Hwl|]. split; [exact Hitem|].
  rewrite <- Hitem. split; [exact Hposted|].
  split; [exact Hact|]. split; [exact Hfrom|]. split; [exact Hto|].
  split; [exact Htext|]. split; [exact Hc|]. split; [exact Heff|].
  rewrite Hstamp. exact Hts.
Qed.


(** X6. The bridge is launched after the epoch and is in a store it can
    reach. In a pass that completes, a comment that qualifies is reported by
    exactly one event, at its place among the events of the pass: after
    those of the history and of the comments before it,
    before those of the comments after it and of the worklog. The event
    carries the body of the comment and its effective time; it is a
    [comment] when that time is the creation time of the comment, a
    [comment_edit] when the two differ. *)
Theorem comment_reported cfg now UPDATES issue UPDATES' posted issue'
    t0 pre d post be e' :
  0 < LAUNCH_TIME -> reachable LAUNCH_TIME UPDATES ->
  JiraTicket_init LAUNCH_TIME cfg UPDATES issue = Ok t0 ->
  process_issue LAUNCH_TIME cfg now UPDATES issue = Ok (UPDATES', posted, issue') ->
  read_comments issue = Ok (pre ++ JObj d :: post) ->
  make_event_dict t0 (JObj d) = Ok (Some be, e') ->
  exists ev hist worklogs body c bc eff,
    read_histories issue = Ok hist /\
    read_worklogs issue = Ok worklogs /\
    comment_events t0 (JObj d) = [ev] /\
    map snd posted
    = (flat_map (history_events t0) hist ++ flat_map (comment_events t0) pre)
      ++ [ev]
      ++ (flat_map (comment_events t0) post
          ++ flat_map (worklog_events t0) worklogs) /\
    dict_get "body" d = Some body /\
    dict_get "created" d = Some c /\
    jira_to_datetime c = Ok bc /\
    jira_to_datetime (default c (dict_get "updated" d)) = Ok eff /\
    dict_get "body" ev = Some body /\
    dict_get "timestamp" ev = Some (JNum eff) /\
    dict_get "action" ev
    = Some (JStr (if bc =? eff then "comment" else "comment_edit")) /\
    dict_get "action_human_text" ev
    = Some (JStr (if bc =? eff then "added a comment" else "edited a comment")).
Proof.
  intros Hlaunch Hreach Hinit Hrun Hread Hmk.
  destruct (comment_place _ _ _ _ _ _ _ _ _ _ _
              Hlaunch Hreach Hinit Hrun Hread)
    as (Hpos & (r & Hd) & hist & worklogs & Hhist & Hwl & Hposted).
  destruct (comment_entry_body _ _ _ _ _ Hpos Hmk Hd) as (body & Hbody).
  destruct (comment_event (blank t0) d be e' body Hpos
              (eq_trans (make_event_dict_blank (blank t0) t0 (JObj d) eq_refl) Hmk) Hbody)
    as (ev & c & bc & eff & Hentry & Hev).
  assert (Hone : comment_events t0 (JObj d) = [ev]).
  { unfold comment_events. rewrite Hentry. reflexivity. }
  exists ev, hist, worklogs, body, c, bc, eff.
  split; [exact Hhist|]. split; [exact Hwl|]. split; [exact Hone|].
  rewrite <- Hone. split; [exact Hposted|]. split; [exact Hbody | exact Hev].
Qed.

(** X7. The bridge is launched after the epoch and is in a store it can
    reach. In a pass that completes, a worklog entry that qualifies is
    reported by exactly one event, at its place among the events of the
    pass: after those of the history, of the comments and of the
    worklog entries before it. The event carries the comment of the entry
    as body, its duration and its effective time; the action is [comment]
    or [comment_edit] as for a comment, and the sentence alone names the
    worklog. *)
Theorem worklog_reported cfg now UPDATES issue UPDATES' posted issue'
    t0 pre d post be e' :
  0 < LAUNCH_TIME -> reachable LAUNCH_TIME UPDATES ->
  JiraTicket_init LAUNCH_TIME cfg UPDATES issue = Ok t0 ->
  process_issue LAUNCH_TIME cfg now UPDATES issue = Ok (UPDATES', posted, issue') ->
  read_worklogs issue = Ok (pre ++ JObj d :: post) ->
  make_event_dict t0 (JObj d) = Ok (Some be, e') ->
  exists ev hist comments body spent c bc eff,
    read_histories issue = Ok hist /\
    read_comments issue = Ok comments /\
    worklog_events t0 (JObj d) = [ev] /\
    map snd posted
    = (flat_map (history_events t0) hist ++ flat_map (comment_events t0) comments
       ++ flat_map (worklog_events t0) pre)
      ++ [ev]
      ++ flat_map (worklog_events t0) post /\
    dict_get "comment" d = Some body /\
    dict_get "timeSpentSeconds" d = Some spent /\
    dict_get "created" d = Some c /\
    jira_to_datetime c = Ok bc /\
    jira_to_datetime (default c (dict_get "updated" d)) = Ok eff /\
    dict_get "body" ev = Some body /\
    dict_get "timespent" ev = Some spent /\
    dict_get "timestamp" ev = Some (JNum eff) /\
    dict_get "action" ev
    = Some (JStr (if bc =? eff then "comment" else "comment_edit")) /\
    dict_get "action_human_text" ev
    = Some (JStr (if bc =? eff then "added a worklog entry"
                  else "edited a worklog entry")).
Proof.
  intros Hlaunch Hreach Hinit Hrun Hread Hmk.
  destruct (worklog_place _ _ _ _ _ _ _ _ _ _ _
              Hlaunch Hreach Hinit Hrun Hread)
    as (Hpos & (r & Hd) & hist & comments & Hhist & Hcm & Hposted).
  destruct (worklog_entry_body _ _ _ _ _ Hpos Hmk Hd) as (body & spent & Hbody & Hspent).
  destruct (worklog_event (blank t0) d be e' body spent Hpos
              (eq_trans (make_event_dict_blank (blank t0) t0 (JObj d) eq_refl) Hmk)
              Hbody Hspent)
    as (ev & c & bc & eff & Hentry & Hev).
  assert (Hone : worklog_events t0 (JObj d) = [ev]).
  { unfold worklog_events. rewrite Hentry. reflexivity. }
  exists ev, hist, comments, body, spent, c, bc, eff.
  split; [exact Hhist|]. split; [exact Hcm|]. split; [exact Hone|].
  rewrite <- Hone. split; [exact Hposted|].
  split; [exact Hbody|]. split; [exact Hspent | exact Hev].
Qed.

End Reported.

(** * Records before and after the watermark *)

Section Times.
Context `{B : Builtins}.












End Times.

Section Unseen.
Context `{B : Builtins}.
Variable LAUNCH_TIME : Z.



End Unseen.

(** * The branch for new issues *)

Section NoCreate.
Context `{B : Builtins}.
Variable LAUNCH_TIME : Z.

Lemma changelog_item_actions be t item t' :
  changelog_item be t item = Ok t' ->
  exists X,
    events t' = events t ++ X /\
    Forall (fun ev => dict_get "action" ev <> Some (JStr "create")) X.
Proof.
  unfold changelog_item.
  destruct item as [| | | | |it]; try discriminate.
  repeat match goal with
         | |- context [if ?b then _ else _] => destruct b eqn:?
         end;
    intros [= <-];
    first [ exists []; split; [symmetry; apply app_nil_r | constructor]
          | eexists [_]; split; [reflexivity|];
            constructor; [dict_simpl; discriminate | constructor] ].
Qed.

Lemma for_items_actions be l :
  forall t t',
    for_items (changelog_item be) t l = Ok t' ->
    exists X,
      events t' = events t ++ X /\
      Forall (fun ev => dict_get "action" ev <> Some (JStr "create")) X.
Proof.
  induction l as [|x l IH]; simpl; intros t t' Heq.
  - injection Heq as <-. exists []. split; [symmetry; apply app_nil_r | constructor].
  - inv_bind Heq as t1 Hx.
    destruct (changelog_item_actions _ _ _ _ Hx) as (X1 & He1 & H1).
    destruct (IH _ _ Heq) as (X2 & He2 & H2).
    exists (X1 ++ X2). split.
    + rewrite He2, He1, app_assoc. reflexivity.
    + apply Forall_app. split; assumption.
Qed.

Lemma history_events_actions t e :
  Forall (fun ev => dict_get "action" ev <> Some (JStr "create")) (history_events t e).
Proof.
  unfold history_events.
  destruct (changelog_entry (blank t) e) as [[t' e']|] eqn:Heq; [|constructor].
  unfold changelog_entry in Heq. inv_bind Heq as r Hmk. destruct r as [[be|] e1].
  - inv_bind Heq as items Hitems. inv_bind Heq as its Hits. inv_bind Heq as tl Hloop.
    injection Heq as <- _.
    destruct (for_items_actions _ _ _ _ Hloop) as (X & -> & HX). exact HX.
  - injection Heq as <- _. constructor.
Qed.

Lemma comment_events_actions t e :
  Forall (fun ev => dict_get "action" ev <> Some (JStr "create")) (comment_events t e).
Proof.
  unfold comment_events.
  destruct (comment_entry (blank t) e) as [[t' e']|] eqn:Heq; [|constructor].
  unfold comment_entry in Heq. inv_bind Heq as r Hmk. destruct r as [[be|] e1];
    [|injection Heq as <- _; constructor].
  inv_bind Heq as bc Hbc. inv_bind Heq as ts Hts.
  destruct (negb (bc =? ts)); destruct (0 <? last_update (blank t));
    try (injection Heq as <- _; constructor);
    inv_bind Heq as body Hbody; injection Heq as <- _;
    (constructor; [dict_simpl; discriminate | constructor]).
Qed.

Lemma worklog_events_actions t e :
  Forall (fun ev => dict_get "action" ev <> Some (JStr "create")) (worklog_events t e).
Proof.
  unfold worklog_events.
  destruct (worklog_entry (blank t) e) as [[t' e']|] eqn:Heq; [|constructor].
  unfold worklog_entry in Heq. inv_bind Heq as r Hmk. destruct r as [[be|] e1];
    [|injection Heq as <- _; constructor].
  inv_bind Heq as bc Hbc. inv_bind Heq as ts Hts.
  destruct (negb (bc =? ts)); destruct (0 <? last_update (blank t));
    try (injection Heq as <- _; constructor);
    inv_bind Heq as body Hbody; inv_bind Heq as spent Hspent; injection Heq as <- _;
    (constructor; [dict_simpl; discriminate | constructor]).
Qed.

Lemma Forall_flat_map {A C : Type} (P : C -> Prop) (f : A -> list C) (l : list A) :
  (forall x, Forall P (f x)) -> Forall P (flat_map f l).
Proof.
  intros H. induction l as [|x l IH]; simpl; [constructor|].
  apply Forall_app. split; [apply H | exact IH].
Qed.

Lemma Forall_map_snd {A C : Type} (P : C -> Prop) (l : list (A * C)) :
  Forall P (map snd l) -> Forall (fun p => P (snd p)) l.
Proof.
  induction l as [|p l IH]; simpl; intros H; [constructor|].
  inversion H; subst. constructor; [assumption | apply IH; assumption].
Qed.

(** X14. The branch for new issues, lines 249 to 255, is never taken by a
    bridge launched after the epoch: in every store the bridge can be in,
    the test of line 249 fails for the ticket of a pass, whatever its age,
    and there is no [create] event among the events of a pass that
    completes. *)
Theorem create_branch_never_taken cfg now UPDATES issue UPDATES' posted issue' :
  0 < LAUNCH_TIME -> reachable LAUNCH_TIME UPDATES ->
  process_issue LAUNCH_TIME cfg now UPDATES issue = Ok (UPDATES', posted, issue') ->
  exists t0,
    JiraTicket_init LAUNCH_TIME cfg UPDATES issue = Ok t0 /\
    (last_update t0 =? 0) && (timedelta_seconds (now - created t0) <=? 30) = false /\
    Forall (fun p => dict_get "action" (snd p) <> Some (JStr "create")) posted.
Proof.
  intros Hlaunch Hreach Hrun.
  destruct (process_issue_inv _ _ _ _ _ _ _ _ Hrun)
    as (_ & _ & t0 & _ & _ & _ & _ & _ & Hinit & _).
  pose proof (reachable_positive _ _ _ _ _ Hlaunch Hreach Hinit) as Hpos.
  destruct (pass_course _ _ _ _ _ _ _ _ _ Hinit ltac:(lia) Hrun)
    as (hist & comments & worklogs & _ & _ & _ & Hposted & _).
  exists t0. split; [exact Hinit|]. split.
  - apply andb_false_iff. left. apply Z.eqb_neq. lia.
  - apply (Forall_map_snd (fun ev => dict_get "action" ev <> Some (JStr "create"))).
    rewrite Hposted. rewrite !Forall_app. split; [|split]; apply Forall_flat_map.
    + apply history_events_actions.
    + apply comment_events_actions.
    + apply worklog_events_actions.
Qed.

End NoCreate.

(** ** The properties on INFRA-6 *)

Lemma busy_ticket_init :
  JiraTicket_init (B:=Py.builtins) Sample.launch Sample.cfg ∅ Sample.busy_issue
  = Ok Sample.busy_ticket.
Proof. vm_compute. reflexivity. Defined.

(** The pass over INFRA-6 completes. *)
Lemma busy_issue_run :
  { r | process_issue (B:=Py.builtins) Sample.launch Sample.cfg Sample.now ∅
          Sample.busy_issue = Ok r }.
Proof. eexists. vm_compute. reflexivity. Defined.

Lemma busy_change_base :
  { r | make_event_dict (B:=Py.builtins) Sample.busy_ticket (JObj Sample.busy_change)
        = Ok (Some (fst r), snd r) }.
Proof. eexists (_, _). vm_compute. reflexivity. Defined.

Lemma busy_comment_base :
  { r | make_event_dict (B:=Py.builtins) Sample.busy_ticket (JObj Sample.edited_comment)
        = Ok (Some (fst r), snd r) }.
Proof. eexists (_, _). vm_compute. reflexivity. Defined.

Lemma busy_worklog_base :
  { r | make_event_dict (B:=Py.builtins) Sample.busy_ticket (JObj Sample.worklog)
        = Ok (Some (fst r), snd r) }.
Proof. eexists (_, _). vm_compute. reflexivity. Defined.


Lemma field_change_reported_witness :
  exists UPDATES' posted issue' before ev after,
    process_issue (B:=Py.builtins) Sample.launch Sample.cfg Sample.now ∅
      Sample.busy_issue = Ok (UPDATES', posted, issue') /\
    map snd posted = before ++ [ev] ++ after /\
    dict_get "action" ev = Some (JStr "summary") /\
    dict_get "from" ev = Some (JStr "Mail is down") /\
    dict_get "to" ev = Some (JStr "Mail is slow") /\
    dict_get "action_human_text" ev
    = Some (JStr "changed the summary of <https://issues.apache.org/jira/browse/INFRA-6|INFRA-6>") /\
    dict_get "timestamp" ev = Some (JNum 1700000060000000).
Proof.
  destruct busy_issue_run as [[[UPDATES' posted] issue'] Hrun].
  destruct busy_change_base as [[be e'] Hmk]. simpl in Hmk.
  destruct (field_change_reported (B:=Py.builtins) Sample.launch
              Sample.cfg Sample.now ∅ Sample.busy_issue UPDATES' posted issue'
              Sample.busy_ticket
              [Sample.history "2023-11-14T22:00:00.000+0000" "status"
                 (JStr "Open") (JStr "In Progress")]
              Sample.busy_change [] be e'
              [JObj [("field", JStr "assignee"); ("fromString", JStr "alice");
                     ("toString", JStr EmptyString)];
               JObj [("field", JStr "labels"); ("toString", JStr "mail")]]
              [("field", JStr "summary"); ("fromString", JStr "Mail is down");
               ("toString", JStr "Mail is slow")]
              [JObj (Sample.resolution_item JNull (JStr "Fixed"))] "summary")
    as (ev & comments & worklogs & c & eff & _ & _ & _ & Hposted & Hact & Hfrom & Hto
        & Htext & Hc & Heff & Hstamp).
  - reflexivity.
  - apply reach_start.
  - exact busy_ticket_init.
  - exact Hrun.
  - reflexivity.
  - exact Hmk.
  - reflexivity.
  - reflexivity.
  - right. left. reflexivity.
  - injection Hc as <-. injection Heff as <-.
    exists UPDATES', posted, issue'. eexists. exists ev. eexists.
    split; [exact Hrun|]. split; [exact Hposted|].
    repeat split; assumption.
Defined.


Lemma comment_reported_witness :
  exists UPDATES' posted issue' before ev after,
    process_issue (B:=Py.builtins) Sample.launch Sample.cfg Sample.now ∅
      Sample.busy_issue = Ok (UPDATES', posted, issue') /\
    map snd posted = before ++ [ev] ++ after /\
    dict_get "body" ev = Some (JStr "Up again.") /\
    dict_get "timestamp" ev = Some (JNum 1700000050000000) /\
    dict_get "action" ev = Some (JStr "comment_edit").
Proof.
  destruct busy_issue_run as [[[UPDATES' posted] issue'] Hrun].
  destruct busy_comment_base as [[be e'] Hmk]. simpl in Hmk.
  destruct (comment_reported (B:=Py.builtins) Sample.launch
              Sample.cfg Sample.now ∅ Sample.busy_issue UPDATES' posted issue'
              Sample.busy_ticket
              [JObj Sample.old_comment; JObj Sample.creator_comment]
              Sample.edited_comment [] be e')
    as (ev & hist & worklogs & body & c & bc & eff & _ & _ & _ & Hposted & Hbody & Hc & Hbc
        & Heff & Hbody' & Hstamp & Hact & _).
  - reflexivity.
  - apply reach_start.
  - exact busy_ticket_init.
  - exact Hrun.
  - reflexivity.
  - exact Hmk.
  - injection Hbody as <-. injection Hc as <-. injection Hbc as <-. injection Heff as <-.
    exists UPDATES', posted, issue'. eexists. exists ev. eexists.
    split; [exact Hrun|]. split; [exact Hposted|]. repeat split; assumption.
Defined.

Lemma worklog_reported_witness :
  exists UPDATES' posted issue' before ev,
    process_issue (B:=Py.builtins) Sample.launch Sample.cfg Sample.now ∅
      Sample.busy_issue = Ok (UPDATES', posted, issue') /\
    map snd posted = before ++ [ev] /\
    dict_get "body" ev = Some (JStr "Restarted the relay.") /\
    dict_get "timespent" ev = Some (JNum 1800) /\
    dict_get "action" ev = Some (JStr "comment") /\
    dict_get "action_human_text" ev = Some (JStr "added a worklog entry").
Proof.
  destruct busy_issue_run as [[[UPDATES' posted] issue'] Hrun].
  destruct busy_worklog_base as [[be e'] Hmk]. simpl in Hmk.
  destruct (worklog_reported (B:=Py.builtins) Sample.launch
              Sample.cfg Sample.now ∅ Sample.busy_issue UPDATES' posted issue'
              Sample.busy_ticket [] Sample.worklog [] be e')
    as (ev & hist & comments & body & spent & c & bc & eff & _ & _ & _ & Hposted & Hbody
        & Hspent & Hc & Hbc & Heff & Hbody' & Hspent' & _ & Hact & Htext).
  - reflexivity.
  - apply reach_start.
  - exact busy_ticket_init.
  - exact Hrun.
  - reflexivity.
  - exact Hmk.
  - injection Hbody as <-. injection Hspent as <-.
    injection Hc as <-. injection Hbc as <-. injection Heff as <-.
    exists UPDATES', posted, issue'. eexists. exists ev.
    split; [exact Hrun|]. split; [exact Hposted|]. repeat split; assumption.
Defined.



Lemma create_branch_never_taken_witness :
  exists UPDATES' posted issue',
    process_issue (B:=Py.builtins) Sample.launch Sample.cfg Sample.now ∅
      Sample.busy_issue = Ok (UPDATES', posted, issue') /\
    Forall (fun p => dict_get "action" (snd p) <> Some (JStr "create")) posted.
Proof.
  destruct busy_issue_run as [[[UPDATES' posted] issue'] Hrun].
  destruct (create_branch_never_taken (B:=Py.builtins) Sample.launch
              Sample.cfg Sample.now ∅ Sample.busy_issue UPDATES' posted issue')
    as (t0 & _ & _ & Hall).
  - reflexivity.
  - apply reach_start.
  - exact Hrun.
  - exists UPDATES', posted, issue'. split; [exact Hrun | exact Hall].
Defined.
